(** * wallet-app: the balances slice and the transaction submission hook

    A shallow embedding of
    - the [balances] slice (async thunk [syncTokenAccounts] and the slice
      reducers), and
    - the [useSubmitTxn] hook ([src/hooks/useSubmitTxn.ts]),
    together with the properties the specification states about them.

    JavaScript objects used as dictionaries are finite maps ([gmap]); a
    property that is absent and a property that holds [undefined] read
    alike, so a map records what a read of the property returns.  A thrown
    exception is the [Throw] case of [Result].  Calls into the blockchain
    SDK, the RPC connection, the translation function and the signing sheet
    are collaborators: fields of a record, each returning a [Result]. *)

From stdpp Require Import gmap strings list fin_maps.
From Stdlib Require Import ZArith Lia.
From Stdlib Require Import QArith.

Local Open Scope Z_scope.

(** ** Exceptions and results *)

(** [JsError m] is [new Error(m)]; [TypeError] is what the runtime raises
    when a property of [undefined] or [null] is read or written. *)
Inductive Exn : Type :=
| JsError (message : string)
| TypeError.

Inductive Result (A : Type) : Type :=
| Ok (a : A)
| Throw (e : Exn).

Arguments Ok {A} a.
Arguments Throw {A} e.

#[global] Instance Result_ret : MRet Result := fun A a => Ok a.
#[global] Instance Result_fmap : FMap Result := fun A B f r =>
  match r with
  | Ok a => Ok (f a)
  | Throw e => Throw e
  end.
#[global] Instance Result_bind : MBind Result := fun A B f r =>
  match r with
  | Ok a => f a
  | Throw e => Throw e
  end.

(** Effectful code: the calls made to the outside, in order, and the
    outcome.  A throw keeps the calls made before it. *)
Definition Eff (E A : Type) : Type := (list E * Result A)%type.

#[global] Instance Eff_ret {E : Type} : MRet (Eff E) := fun A a => ([], Ok a).
#[global] Instance Eff_bind {E : Type} : MBind (Eff E) := fun A B f m =>
  match m.2 with
  | Ok a => (m.1 ++ (f a).1, (f a).2)
  | Throw e => (m.1, Throw e)
  end.

Definition throw {E A : Type} (e : Exn) : Eff E A := ([], Throw e).

(** A value computed without a call to the outside, or the exception of
    that computation. *)
Definition pure {E A : Type} (r : Result A) : Eff E A := ([], r).

(** A call to a collaborator: recorded, then its outcome. *)
Definition call {E A : Type} (e : E) (r : Result A) : Eff E A := ([e], r).

(** [Promise.all] of several calls: all are issued, then all are awaited;
    [r] is the joint outcome. *)
Definition callAll {E A : Type} (es : list E) (r : Result A) : Eff E A := (es, r).

Definition trace {E A : Type} (m : Eff E A) : list E := m.1.
Definition outcome {E A : Type} (m : Eff E A) : Result A := m.2.

(** [xs.map(f)] where [f] calls out or may throw. *)
Fixpoint traverse {E A B : Type} (f : A -> Eff E B) (xs : list A) : Eff E (list B) :=
  match xs with
  | [] => mret []
  | x :: xs' => y ← f x; ys ← traverse f xs'; mret (y :: ys)
  end.

(** JavaScript truthiness of an optional string: [undefined] and the empty
    string are falsy. *)
Definition truthy (s : option string) : bool :=
  match s with
  | Some EmptyString => false
  | Some _ => true
  | None => false
  end.

(** [Array.prototype.findIndex]: the index of the first element satisfying
    [p], and [-1] when there is none. *)
Fixpoint findIndex_from {A : Type} (p : A -> bool) (l : list A) (i : Z) : Z :=
  match l with
  | [] => -1
  | x :: l' => if p x then i else findIndex_from p l' (i + 1)
  end.

Definition findIndex {A : Type} (p : A -> bool) (l : list A) : Z :=
  findIndex_from p l 0.

(** [obj[k] = v] where [v] may be [undefined]. *)
Definition assign {V : Type} (k : string) (v : option V)
    (m : gmap string V) : gmap string V :=
  partial_alter (fun _ => v) k m.

(** ** Numbers *)

(** [Number(n)] for a bigint [n >= 0]: the nearest double, ties to even.
    A double carries 53 significant bits; the result is an integer, kept
    here as its exact value.  (Magnitudes of 2^1024 and more, which give
    [Infinity], are far above any 64-bit amount.) *)
Definition round53 (n : Z) : Z :=
  let e := Z.log2 n - 52 in
  if e <=? 0 then n
  else
    let q := Z.shiftr n e in
    let r := Z.land n (Z.ones e) in
    let half := Z.shiftl 1 (e - 1) in
    if r <? half then Z.shiftl q e
    else if half <? r then Z.shiftl (q + 1) e
    else if Z.even q then Z.shiftl q e
    else Z.shiftl (q + 1) e.

Definition Number_of_bigint (n : Z) : Z := Z.sgn n * round53 (Z.abs n).

(** [Number(amount || 0)]: [undefined] and [0n] are falsy. *)
Definition Number_or_zero (amount : option Z) : Z :=
  match amount with
  | None => 0
  | Some n => if n =? 0 then 0 else Number_of_bigint n
  end.

(** [new BN(n.toString()).toNumber()] of bn.js for [n >= 0]: the value
    when it has at most 53 bits, an assertion failure otherwise. *)
Definition BN_toNumber (n : Z) : Result Z :=
  if n <? 2 ^ 53 then Ok n
  else Throw (JsError "Number can only safely store up to 53 bits").

(** ** Clusters *)

(** [Cluster] of [@solana/web3.js]: ['devnet' | 'testnet' | 'mainnet-beta']. *)
Inductive Cluster : Type := MainnetBeta | Devnet | Testnet.

#[global] Instance Cluster_eq_dec : EqDecision Cluster.
Proof. solve_decision. Defined.

Definition Cluster_to_nat (c : Cluster) : nat :=
  match c with MainnetBeta => 0%nat | Devnet => 1%nat | Testnet => 2%nat end.

Definition Cluster_of_nat (n : nat) : Cluster :=
  match n with 0%nat => MainnetBeta | 1%nat => Devnet | _ => Testnet end.

#[global] Instance Cluster_countable : Countable Cluster.
Proof.
  apply (inj_countable' Cluster_to_nat Cluster_of_nat).
  intros []; reflexivity.
Defined.

(** ** Data model of the slice *)

(** An element of [Tokens.atas]. *)
Record TokenAccount : Type := mkTokenAccount {
  tokenAccount : string;
  mint : string;
  balance : Z;
}.

(** The anonymous type [{ tokenAccount: string; balance: number }] of
    [Tokens.sol] and [Tokens.dcEscrow]. *)
Record Holding : Type := mkHolding {
  h_tokenAccount : string;
  h_balance : Z;
}.

Record Tokens : Type := mkTokens {
  atas : list TokenAccount;
  sol : Holding;
  dcEscrow : Holding;
}.

(** [CSAccount] of the cloud storage: the fields the slice and the hook
    read.  [solanaAddress] is optional. *)
Record CSAccount : Type := mkCSAccount {
  address : string;
  solanaAddress : option string;
}.

Definition set_balance (b : Z) (t : TokenAccount) : TokenAccount :=
  {| tokenAccount := tokenAccount t; mint := mint t; balance := b |}.

Definition set_atas (f : list TokenAccount -> list TokenAccount)
    (t : Tokens) : Tokens :=
  {| atas := f (atas t); sol := sol t; dcEscrow := dcEscrow t |}.

Definition set_sol (h : Holding) (t : Tokens) : Tokens :=
  {| atas := atas t; sol := h; dcEscrow := dcEscrow t |}.

Definition set_dcEscrow (h : Holding) (t : Tokens) : Tokens :=
  {| atas := atas t; sol := sol t; dcEscrow := h |}.

Module Balances.
Section Slice.

(** [AccountBalance] (an entry of a balance history) and the numbers held
    in [Prices] come from [types/balance] and the wallet API; the reducers
    only store them. *)
Context {AccountBalance Price : Type}.

(** [Prices], with the four records the reducer initialises. *)
Record Prices : Type := mkPrices {
  helium : gmap string Price;
  solana : gmap string Price;
  helium_iot : gmap string Price;
  helium_mobile : gmap string Price;
}.

Record BalancesState : Type := mkState {
  balancesLoading : option bool;
  tokenPrices : option Prices;
  balanceHistory : gmap Cluster (gmap string (gmap string (list AccountBalance)));
  balances : gmap Cluster (gmap string Tokens);
}.

Definition initialState : BalancesState :=
  {| balancesLoading := None;
     tokenPrices := None;
     balanceHistory := <[MainnetBeta := ∅]> (<[Devnet := ∅]> (<[Testnet := ∅]> ∅));
     balances := <[MainnetBeta := ∅]> (<[Devnet := ∅]> (<[Testnet := ∅]> ∅)) |}.

Definition set_balancesLoading (b : option bool) (st : BalancesState) :=
  {| balancesLoading := b; tokenPrices := tokenPrices st;
     balanceHistory := balanceHistory st; balances := balances st |}.

Definition set_tokenPrices (p : option Prices) (st : BalancesState) :=
  {| balancesLoading := balancesLoading st; tokenPrices := p;
     balanceHistory := balanceHistory st; balances := balances st |}.

Definition set_balanceHistory
    (h : gmap Cluster (gmap string (gmap string (list AccountBalance))))
    (st : BalancesState) :=
  {| balancesLoading := balancesLoading st; tokenPrices := tokenPrices st;
     balanceHistory := h; balances := balances st |}.

Definition set_balances (b : gmap Cluster (gmap string Tokens))
    (st : BalancesState) :=
  {| balancesLoading := balancesLoading st; tokenPrices := tokenPrices st;
     balanceHistory := balanceHistory st; balances := b |}.

(** *** Actions *)

Inductive BalanceType : Type := DcEscrowType | SolType.

Record UpdateBalancePayload : Type := mkUpdateBalance {
  ub_cluster : Cluster;
  ub_solanaAddress : string;
  ub_balance : Z;
  ub_type : BalanceType;
  ub_tokenAccount : string;
}.

Record UpdateAtaBalancePayload : Type := mkUpdateAtaBalance {
  ua_cluster : Cluster;
  ua_solanaAddress : string;
  ua_balance : Z;
  ua_mint : string;
  ua_tokenAccount : string;
}.

(** What the reducer reads of [action.meta.arg] of [syncTokenAccounts]:
    the thunk's argument object, whose [cluster] and [acct] the reducer
    tests for presence. *)
Record SyncMeta : Type := mkSyncMeta {
  sm_cluster : option Cluster;
  sm_acct : option CSAccount;
}.

Record HistoryMeta : Type := mkHistoryMeta {
  hm_currency : string;
  hm_cluster : Cluster;
  hm_solanaAddress : string;
}.

Inductive Action : Type :=
| UpdateBalance (payload : UpdateBalancePayload)
| UpdateAtaBalance (payload : UpdateAtaBalancePayload)
| SyncTokenAccountsPending
| SyncTokenAccountsFulfilled (arg : option SyncMeta) (payload : Tokens)
| SyncTokenAccountsRejected
| ReadTokenPricesFulfilled (currency : string) (payload : Prices)
| ReadBalanceHistoryFulfilled (arg : HistoryMeta) (payload : list AccountBalance).

(** *** Case reducers *)

(** [state.balances?.[cluster]?.[solanaAddress]]: [None] when the cluster
    or the address has no entry. *)
Definition tokensOf (st : BalancesState) (cluster : Cluster)
    (solanaAddress : string) : option Tokens :=
  balances st !! cluster ≫= fun wallets => wallets !! solanaAddress.

Definition updateBalance (st : BalancesState)
    (payload : UpdateBalancePayload) : BalancesState :=
  let next := {| h_tokenAccount := ub_tokenAccount payload;
                 h_balance := ub_balance payload |} in
  match tokensOf st (ub_cluster payload) (ub_solanaAddress payload) with
  | None => st
  | Some _ =>
      let write :=
        match ub_type payload with
        | DcEscrowType => set_dcEscrow next
        | SolType => set_sol next
        end in
      set_balances
        (alter (alter write (ub_solanaAddress payload)) (ub_cluster payload)
           (balances st)) st
  end.

(** The predicate given to [findIndex]. *)
Definition sameAta (payload : UpdateAtaBalancePayload) (t : TokenAccount) : bool :=
  String.eqb (tokenAccount t) (ua_tokenAccount payload)
  && String.eqb (mint t) (ua_mint payload).

Definition updateAtaBalance (st : BalancesState)
    (payload : UpdateAtaBalancePayload) : BalancesState :=
  let prevAtas :=
    default [] (atas <$> tokensOf st (ua_cluster payload) (ua_solanaAddress payload)) in
  let foundIndex := findIndex (sameAta payload) prevAtas in
  if foundIndex =? -1 then st
  else
    set_balances
      (alter
         (alter
            (set_atas (alter (set_balance (ua_balance payload)) (Z.to_nat foundIndex)))
            (ua_solanaAddress payload))
         (ua_cluster payload) (balances st)) st.

Definition syncTokenAccounts_pending (st : BalancesState) : BalancesState :=
  set_balancesLoading (Some true) st.

Definition syncTokenAccounts_rejected (st : BalancesState) : BalancesState :=
  set_balancesLoading (Some false) st.

(** [args?.acct.solanaAddress]: [undefined] when [args] is, a [TypeError]
    when [args] is there and [acct] is not. *)
Definition metaSolanaAddress (args : option SyncMeta) : Result (option string) :=
  match args with
  | None => Ok None
  | Some a =>
      match sm_acct a with
      | None => Throw TypeError
      | Some acct => Ok (solanaAddress acct)
      end
  end.

(** ['__proto__'], the accessor property every plain object inherits from
    [Object.prototype].  An assignment [draft['__proto__'] = v] runs the
    inherited setter on the draft, and Immer refuses
    [Object.setPrototypeOf] on a draft. *)
Definition isProtoKey (k : string) : bool := String.eqb k "__proto__".

Definition immerSetPrototypeOf : Exn :=
  JsError "[Immer] Object.setPrototypeOf() cannot be used on an Immer draft".

Arguments isProtoKey : simpl never.

(** The guard [!args?.acct.solanaAddress || !args.cluster] returns the
    state as it is; past it, [balancesLoading] is cleared and the payload
    is written to [state.balances[cluster][solanaAddress]], which throws
    when [state.balances[cluster]] is [undefined] and when the address is
    ['__proto__']. *)
Definition syncTokenAccounts_fulfilled (st : BalancesState)
    (args : option SyncMeta) (payload : Tokens) : Result BalancesState :=
  addr ← metaSolanaAddress args;
  match addr, args ≫= sm_cluster with
  | Some solanaAddress, Some cluster =>
      if truthy addr then
        let st1 := set_balancesLoading (Some false) st in
        match balances st1 !! cluster with
        | None => Throw TypeError
        | Some wallets =>
            if isProtoKey solanaAddress then Throw immerSetPrototypeOf
            else
              Ok (set_balances
                    (<[cluster := <[solanaAddress := payload]> wallets]>
                       (balances st1))
                    st1)
        end
      else Ok st
  | _, _ => Ok st
  end.

Definition emptyPrices : Prices :=
  {| helium := ∅; solana := ∅; helium_iot := ∅; helium_mobile := ∅ |}.

Definition readTokenPrices_fulfilled (st : BalancesState)
    (currency : string) (payload : Prices) : BalancesState :=
  let prices := default emptyPrices (tokenPrices st) in
  set_tokenPrices
    (Some
       {| helium := assign currency (helium payload !! currency) (helium prices);
          helium_mobile :=
            assign currency (helium_mobile payload !! currency) (helium_mobile prices);
          helium_iot :=
            assign currency (helium_iot payload !! currency) (helium_iot prices);
          solana := assign currency (solana payload !! currency) (solana prices) |})
    st.

(** What a read of a property that a plain object does not own finds on
    [Object.prototype]: for ['__proto__'] the prototype itself, for
    ['constructor'] the function [Object], for the name of a method that
    method. *)
Inductive Inherited : Type :=
| ObjectPrototype
| ObjectConstructor
| ObjectMethod.

Definition inherited (name : string) : option Inherited :=
  if String.eqb name "__proto__" then Some ObjectPrototype
  else if String.eqb name "constructor" then Some ObjectConstructor
  else if bool_decide
            (name ∈ ["toString"; "toLocaleString"; "valueOf"; "hasOwnProperty";
                     "isPrototypeOf"; "propertyIsEnumerable";
                     "__defineGetter__"; "__defineSetter__";
                     "__lookupGetter__"; "__lookupSetter__"])
       then Some ObjectMethod
  else None.

(** Whether [target[prop] = v] goes through, in strict code: the prototype
    of [Object.prototype] cannot be set; [name] and [length] of a function
    and [prototype] of [Object] are not writable; [caller] and [arguments]
    have throwing setters. *)
Definition assignable (target : Inherited) (prop : string) : bool :=
  match target with
  | ObjectPrototype => negb (String.eqb prop "__proto__")
  | ObjectConstructor =>
      negb (bool_decide
              (prop ∈ ["length"; "name"; "prototype"; "caller"; "arguments"]))
  | ObjectMethod =>
      negb (bool_decide (prop ∈ ["length"; "name"; "caller"; "arguments"]))
  end.

(** [state.balanceHistory[cluster][address]] is read first.  An entry the
    wallet object owns is written through its draft.  Without one, the
    read of a name inherited from [Object.prototype] finds the inherited
    value: no entry is created and the write lands on that value, outside
    the state.  Otherwise the entry is a fresh [{}]; the write of
    ['__proto__'] to it sets its prototype and gives it no property. *)
Definition readBalanceHistory_fulfilled (st : BalancesState)
    (arg : HistoryMeta) (payload : list AccountBalance) : Result BalancesState :=
  let cluster := hm_cluster arg in
  let address := hm_solanaAddress arg in
  let currency := hm_currency arg in
  match balanceHistory st !! cluster with
  | None => Throw TypeError
  | Some wallets =>
      let store byCurrency :=
        set_balanceHistory
          (<[cluster := <[address := byCurrency]> wallets]> (balanceHistory st))
          st in
      match wallets !! address with
      | Some byCurrency =>
          if isProtoKey currency then Throw immerSetPrototypeOf
          else Ok (store (<[currency := payload]> byCurrency))
      | None =>
          match inherited address with
          | Some target =>
              if assignable target currency then Ok st else Throw TypeError
          | None =>
              if isProtoKey currency then Ok (store ∅)
              else Ok (store (<[currency := payload]> ∅))
          end
      end
  end.

(** The slice reducer: one case per action. *)
Definition reducer (st : BalancesState) (a : Action) : Result BalancesState :=
  match a with
  | UpdateBalance p => Ok (updateBalance st p)
  | UpdateAtaBalance p => Ok (updateAtaBalance st p)
  | SyncTokenAccountsPending => Ok (syncTokenAccounts_pending st)
  | SyncTokenAccountsFulfilled arg p => syncTokenAccounts_fulfilled st arg p
  | SyncTokenAccountsRejected => Ok (syncTokenAccounts_rejected st)
  | ReadTokenPricesFulfilled c p => Ok (readTokenPrices_fulfilled st c p)
  | ReadBalanceHistoryFulfilled arg p => readBalanceHistory_fulfilled st arg p
  end.

(** The state of the store after an action: a reducer that throws leaves
    the store's state as it was (its draft is dropped). *)
Definition next_state (st : BalancesState) (a : Action) : BalancesState :=
  match reducer st a with
  | Ok st' => st'
  | Throw _ => st
  end.

(** The cluster an action acts on. *)
Definition action_cluster (a : Action) : option Cluster :=
  match a with
  | UpdateBalance p => Some (ub_cluster p)
  | UpdateAtaBalance p => Some (ua_cluster p)
  | SyncTokenAccountsFulfilled arg _ => arg ≫= sm_cluster
  | ReadBalanceHistoryFulfilled arg _ => Some (hm_cluster arg)
  | _ => None
  end.



End Slice.
End Balances.

(** ** The [syncTokenAccounts] thunk *)

Module Sync.
Section Thunk.

(** [PublicKey] of web3.js and the raw account data ([Buffer]). *)
Context {PublicKey Buffer : Type}.

(** An element of [tokenAccounts.value]: [pubkey] and [account.data]. *)
Record OwnedAccount : Type := mkOwnedAccount {
  oa_pubkey : PublicKey;
  oa_data : Buffer;
}.

(** [AccountInfo<Buffer>]: what the thunk reads of it. *)
Record AccountInfo : Type := mkAccountInfo {
  ai_data : Buffer;
  ai_lamports : Z;
}.

(** What the thunk reads of a decoded [AccountLayout]: [amount] is a
    64-bit unsigned bigint. *)
Record RawAccount : Type := mkRawAccount {
  ra_mint : PublicKey;
  ra_amount : option Z;
}.

Record Connection : Type := mkConnection {
  getTokenAccountsByOwner : PublicKey -> Result (list OwnedAccount);
  getAccountInfo : PublicKey -> Result (option AccountInfo);
}.

Record AnchorProvider : Type := mkAnchorProvider {
  connection : Connection;
}.

(** The SDK and the helpers of [utils/solanaUtils] the thunk calls. *)
Record Sdk : Type := mkSdk {
  newPublicKey : string -> Result PublicKey;
  toBase58 : PublicKey -> string;
  AccountLayout_decode : Buffer -> Result RawAccount;
  getEscrowTokenAccount : string -> Result PublicKey;
}.

(** The argument of the thunk.  The thunk tests [acct?.solanaAddress];
    [anchorProvider] is read without a test, as its type has it. *)
Record SyncArgs : Type := mkSyncArgs {
  sa_cluster : option Cluster;
  sa_acct : option CSAccount;
  sa_anchorProvider : AnchorProvider;
}.

(** The calls to the remote node. *)
Inductive Rpc : Type :=
| GetTokenAccountsByOwner (owner : PublicKey)
| GetAccountInfo (key : PublicKey).

Context (sdk : Sdk).

(** The callback of [tokenAccounts.value.map]. *)
Definition toAta (owned : OwnedAccount) : Result TokenAccount :=
  accountData ← AccountLayout_decode sdk (oa_data owned);
  mret {| tokenAccount := toBase58 sdk (oa_pubkey owned);
          mint := toBase58 sdk (ra_mint accountData);
          balance := Number_or_zero (ra_amount accountData) |}.

(** The body of the [try] block: the value assigned to [escrowBalance]. *)
Definition escrowBalanceOf (dcEscrowAcc : option AccountInfo) : Result Z :=
  dcEscrowBalance ←
    match dcEscrowAcc with
    | None => mret None
    | Some acc => ra_amount <$> AccountLayout_decode sdk (ai_data acc)
    end;
  match dcEscrowBalance with
  | None => mret 0
  | Some n => if n =? 0 then mret 0 else BN_toNumber n
  end.

(** [try { escrowBalance = ... } catch {}] with [escrowBalance] starting
    at 0. *)
Definition escrowBalance (dcEscrowAcc : option AccountInfo) : Z :=
  match escrowBalanceOf dcEscrowAcc with
  | Ok b => b
  | Throw _ => 0
  end.

(** [solAcc?.lamports || 0] *)
Definition solBalance (solAcc : option AccountInfo) : Z :=
  match solAcc with
  | None => 0
  | Some acc => ai_lamports acc
  end.

Definition syncTokenAccounts (args : SyncArgs) : Eff Rpc Tokens :=
  match sa_acct args ≫= solanaAddress with
  | None | Some EmptyString => throw (JsError "No solana account found")
  | Some solanaAddress =>
      pubKey ← pure (newPublicKey sdk solanaAddress);
      let conn := connection (sa_anchorProvider args) in
      tokenAccounts ← call (GetTokenAccountsByOwner pubKey)
                        (getTokenAccountsByOwner conn pubKey);
      atas ← traverse (fun owned => pure (toAta owned)) tokenAccounts;
      escrowAccount ← pure (getEscrowTokenAccount sdk solanaAddress);
      '(dcEscrowAcc, solAcc) ←
        callAll [GetAccountInfo escrowAccount; GetAccountInfo pubKey]
          (a ← getAccountInfo conn escrowAccount;
           b ← getAccountInfo conn pubKey;
           mret (a, b));
      let dcEscrow := {| h_tokenAccount := toBase58 sdk escrowAccount;
                         h_balance := escrowBalance dcEscrowAcc |} in
      let sol := {| h_tokenAccount := solanaAddress;
                    h_balance := solBalance solAcc |} in
      mret {| atas := atas; dcEscrow := dcEscrow; sol := sol |}
  end.

(** The argument of the thunk as the fulfilled action carries it. *)
Definition metaOf (args : SyncArgs) : Balances.SyncMeta :=
  {| Balances.sm_cluster := sa_cluster args; Balances.sm_acct := sa_acct args |}.

End Thunk.
End Sync.

(** ** The [useSubmitTxn] hook *)

Module SubmitTxn.
Section Hook.

(** Types of the SDK the hook only passes around.  [Number] is a
    JavaScript number (amounts, coordinates). *)
Context {PublicKey Buffer Transaction Balance Collectable Hotspot Number : Type}.

Local Abbreviation AnchorProvider := (@Sync.AnchorProvider PublicKey Buffer).

(** An element of the [payments] argument of [submitPayment]. *)
Record Payment : Type := mkPayment {
  payee : string;
  balanceAmount : Balance;
  max : option bool;
}.

(** The member of [WalletStandardMessageTypes] the hook uses. *)
Inductive WalletStandardMessageTypes : Type := signTransaction.

(** The request handed to the signing sheet. *)
Record SignRequest : Type := mkSignRequest {
  sr_type : WalletStandardMessageTypes;
  sr_url : string;
  sr_warning : option string;
  sr_additionalMessage : string;
  sr_serializedTxs : list Buffer;
}.

(** The user-confirmation collaborator: [show] resolves to a decision. *)
Record WalletSignBottomSheetRef : Type := mkSheetRef {
  show : SignRequest -> Result bool;
}.

(** [i18n.t], the readers of opaque SDK values, [toMintAddress] of
    [types/solana], the transaction builders of [utils/solanaUtils], and
    [Transaction.serialize]. *)
Record SolUtils : Type := mkSolUtils {
  t : string -> string;
  ticker : Balance -> string;
  compressed : Collectable -> bool;
  parseFloat : string -> Number;
  toMintAddress : string -> Result string;
  transferToken :
    AnchorProvider -> string -> string -> list Payment -> option string ->
    Result Transaction;
  transferCompressedCollectable :
    AnchorProvider -> string -> string -> Collectable -> string -> Result Transaction;
  transferCollectable :
    AnchorProvider -> string -> string -> Collectable -> string -> Result Transaction;
  createTreasurySwapTxn :
    Number -> PublicKey -> AnchorProvider -> PublicKey -> Result Transaction;
  claimAllRewardsTxns :
    AnchorProvider -> list PublicKey -> list Hotspot -> Result (list Transaction);
  mintDataCredits : AnchorProvider -> Number -> PublicKey -> Result Transaction;
  delegateDataCredits :
    AnchorProvider -> string -> Number -> PublicKey -> Result Transaction;
  updateEntityInfoTxn :
    AnchorProvider -> string -> string -> Number -> Number ->
    option Number -> option Number -> Result Transaction;
  serialize : Transaction -> Result Buffer;
}.

(** The values the hook closes over: [useAccountStorage], [useSolana] and
    [useWalletSign]. *)
Record Hook : Type := mkHook {
  currentAccount : option CSAccount;
  cluster : Cluster;
  anchorProvider : option AnchorProvider;
  walletSignBottomSheetRef : option WalletSignBottomSheetRef;
}.

(** The submission actions of the solana slice, with their arguments. *)
Inductive SolanaAction : Type :=
| makePayment (paymentTxn : Transaction) (account : CSAccount)
    (cluster : Cluster) (anchorProvider : AnchorProvider)
| makeCollectablePayment (account : CSAccount) (transferTxn : Transaction)
    (cluster : Cluster) (anchorProvider : AnchorProvider)
| sendTreasurySwap (anchorProvider : AnchorProvider) (cluster : Cluster)
    (swapTxn : Transaction)
| sendAnchorTxn (txn : Transaction) (anchorProvider : AnchorProvider)
    (cluster : Cluster)
| claimRewards (account : CSAccount) (txns : list Transaction)
    (anchorProvider : AnchorProvider) (cluster : Cluster)
| claimAllRewards (account : CSAccount) (txns : list Transaction)
    (anchorProvider : AnchorProvider) (cluster : Cluster)
| sendMintDataCredits (anchorProvider : AnchorProvider) (cluster : Cluster)
    (swapTxn : Transaction)
| sendDelegateDataCredits (anchorProvider : AnchorProvider) (cluster : Cluster)
    (delegateDCTxn : Transaction)
| sendUpdateIotInfo (account : CSAccount) (anchorProvider : AnchorProvider)
    (cluster : Cluster) (updateTxn : Transaction)
| sendUpdateMobileInfo (account : CSAccount) (anchorProvider : AnchorProvider)
    (cluster : Cluster) (updateTxn : Transaction).

(** The builders of [utils/solanaUtils]. *)
Inductive Builder : Type :=
| TransferToken
| TransferCompressedCollectable
| TransferCollectable
| CreateTreasurySwapTxn
| ClaimAllRewardsTxns
| MintDataCredits
| DelegateDataCredits
| UpdateEntityInfoTxn.

(** What an operation does to the outside, in order. *)
Inductive Event : Type :=
| Network (key : PublicKey)          (* connection.getAccountInfo *)
| Construct (builder : Builder)      (* a transaction is built *)
| Serialize (txn : Transaction)      (* txn.serialize *)
| Sign (request : SignRequest)       (* walletSignBottomSheetRef.show *)
| Dispatch (action : SolanaAction).  (* dispatch of a submission action *)

Context (u : SolUtils) (h : Hook).

Definition request (warning : option string) (message : string)
    (txs : list Buffer) : SignRequest :=
  {| sr_type := signTransaction; sr_url := EmptyString; sr_warning := warning;
     sr_additionalMessage := t u message; sr_serializedTxs := txs |}.

(** [const decision = await walletSignBottomSheetRef.show(...)] followed by
    [if (!decision) throw new Error('User rejected transaction')]. *)
Definition confirm (sheet : WalletSignBottomSheetRef) (req : SignRequest)
    : Eff Event unit :=
  decision ← call (Sign req) (show sheet req);
  if negb decision then throw (JsError "User rejected transaction")
  else mret tt.

Definition dispatch (a : SolanaAction) : Eff Event unit :=
  call (Dispatch a) (Ok tt).

Definition accountError {A : Type} : Eff Event A :=
  throw (JsError (t u "errors.account")).

(** [Boolean(await connection.getAccountInfo(recipient))] *)
Definition recipientExists (provider : AnchorProvider) (recipient : PublicKey)
    : Eff Event bool :=
  info ← call (Network recipient)
           (Sync.getAccountInfo (Sync.connection provider) recipient);
  mret (match info with Some _ => true | None => false end).

(** [recipientExists ? '' : t('transactions.recipientNonExistent')] *)
Definition recipientWarning (exists_ : bool) : option string :=
  Some (if exists_ then EmptyString else t u "transactions.recipientNonExistent").

Definition submitPayment (payments : list Payment) : Eff Event unit :=
  match currentAccount h, anchorProvider h, walletSignBottomSheetRef h with
  | Some account, Some provider, Some sheet =>
      match solanaAddress account with
      | None | Some EmptyString => accountError
      | Some solAddr =>
          firstPayment ←
            match payments with
            | [] => throw TypeError
            | p :: _ => mret p
            end;
          let tk := ticker u (balanceAmount firstPayment) in
          mintAddress ←
            (if negb (String.eqb tk "SOL")
             then pure (Some <$> toMintAddress u tk)
             else mret None);
          paymentTxn ← call (Construct TransferToken)
                         (transferToken u provider solAddr (address account)
                            payments mintAddress);
          serializedTx ← call (Serialize paymentTxn) (serialize u paymentTxn);
          confirm sheet
            (request None "transactions.signPaymentTxn" [serializedTx]);;
          dispatch (makePayment paymentTxn account (cluster h) provider)
      end
  | _, _, _ => accountError
  end.

Definition submitCollectable (collectable : Collectable) (payee_ : string)
    : Eff Event unit :=
  match currentAccount h, anchorProvider h, walletSignBottomSheetRef h with
  | Some account, Some provider, Some sheet =>
      match solanaAddress account with
      | None | Some EmptyString => accountError
      | Some solAddr =>
          transferTxn ←
            (if compressed u collectable
             then call (Construct TransferCompressedCollectable)
                    (transferCompressedCollectable u provider solAddr
                       (address account) collectable payee_)
             else call (Construct TransferCollectable)
                    (transferCollectable u provider solAddr
                       (address account) collectable payee_));
          serializedTx ← call (Serialize transferTxn) (serialize u transferTxn);
          confirm sheet
            (request None "transactions.signTransferCollectableTxn" [serializedTx]);;
          dispatch (makeCollectablePayment account transferTxn (cluster h) provider)
      end
  | _, _, _ => accountError
  end.

Definition submitTreasurySwap (fromMint : PublicKey) (amount : Number)
    (recipient : PublicKey) : Eff Event unit :=
  match currentAccount h, anchorProvider h, walletSignBottomSheetRef h with
  | Some _, Some provider, Some sheet =>
      exists_ ← recipientExists provider recipient;
      swapTxn ← call (Construct CreateTreasurySwapTxn)
                  (createTreasurySwapTxn u amount fromMint provider recipient);
      serializedTx ← call (Serialize swapTxn) (serialize u swapTxn);
      confirm sheet
        (request (recipientWarning exists_) "transactions.signSwapTxn"
           [serializedTx]);;
      dispatch (sendTreasurySwap provider (cluster h) swapTxn)
  | _, _, _ => accountError
  end.

Definition submitAnchorTxn (txn : Transaction) : Eff Event unit :=
  match anchorProvider h, walletSignBottomSheetRef h with
  | Some provider, Some sheet =>
      serializedTx ← call (Serialize txn) (serialize u txn);
      confirm sheet
        (request None "transactions.signGenericTxn" [serializedTx]);;
      dispatch (sendAnchorTxn txn provider (cluster h))
  | _, _ => accountError
  end.

Definition serializeAll (txns : list Transaction) : Eff Event (list Buffer) :=
  traverse (fun txn => call (Serialize txn) (serialize u txn)) txns.

Definition submitClaimRewards (txns : list Transaction) : Eff Event unit :=
  match anchorProvider h with
  | None => accountError
  | Some provider =>
      match currentAccount h with
      | None => accountError
      | Some account =>
          match walletSignBottomSheetRef h with
          | None => throw (JsError "No wallet sign bottom sheet ref")
          | Some sheet =>
              serializedTxs ← serializeAll txns;
              confirm sheet
                (request None "transactions.signClaimRewardsTxn" serializedTxs);;
              dispatch (claimRewards account txns provider (cluster h))
          end
      end
  end.

Definition submitClaimAllRewards (lazyDistributors : list PublicKey)
    (hotspots : list Hotspot) : Eff Event unit :=
  match anchorProvider h, currentAccount h, walletSignBottomSheetRef h with
  | Some provider, Some account, Some sheet =>
      txns ← call (Construct ClaimAllRewardsTxns)
               (claimAllRewardsTxns u provider lazyDistributors hotspots);
      serializedTxs ← serializeAll txns;
      confirm sheet
        (request None "transactions.signClaimAllRewardsTxn" serializedTxs);;
      dispatch (claimAllRewards account txns provider (cluster h))
  | _, _, _ => accountError
  end.

Definition submitLedger : Eff Event unit :=
  throw (JsError "Solana not yet supported for ledger devices").

Definition submitMintDataCredits (dcAmount : Number) (recipient : PublicKey)
    : Eff Event unit :=
  match currentAccount h, anchorProvider h, walletSignBottomSheetRef h with
  | Some _, Some provider, Some sheet =>
      exists_ ← recipientExists provider recipient;
      swapTxn ← call (Construct MintDataCredits)
                  (mintDataCredits u provider dcAmount recipient);
      serializedTx ← call (Serialize swapTxn) (serialize u swapTxn);
      confirm sheet
        (request (recipientWarning exists_) "transactions.signMintDataCreditsTxn"
           [serializedTx]);;
      dispatch (sendMintDataCredits provider (cluster h) swapTxn)
  | _, _, _ => accountError
  end.

Definition submitDelegateDataCredits (delegateAddress : string)
    (amount : Number) (mint_ : PublicKey) : Eff Event unit :=
  match currentAccount h, anchorProvider h, walletSignBottomSheetRef h with
  | Some _, Some provider, Some sheet =>
      delegateDCTxn ← call (Construct DelegateDataCredits)
                        (delegateDataCredits u provider delegateAddress amount mint_);
      serializedTx ← call (Serialize delegateDCTxn) (serialize u delegateDCTxn);
      confirm sheet
        (request None "transactions.signDelegateDCTxn" [serializedTx]);;
      dispatch (sendDelegateDataCredits provider (cluster h) delegateDCTxn)
  | _, _, _ => accountError
  end.

(** [s ? parseFloat(s) : undefined] *)
Definition parseOptional (s : option string) : option Number :=
  if truthy s then parseFloat u <$> s else None.

Definition submitUpdateEntityInfo (type entityKey : string) (lat lng : Number)
    (elevation decimalGain : option string) : Eff Event unit :=
  match anchorProvider h, currentAccount h, walletSignBottomSheetRef h with
  | Some provider, Some account, Some sheet =>
      updateInfoTxn ← call (Construct UpdateEntityInfoTxn)
                        (updateEntityInfoTxn u provider type entityKey lat lng
                           (parseOptional elevation) (parseOptional decimalGain));
      serializedTx ← call (Serialize updateInfoTxn) (serialize u updateInfoTxn);
      confirm sheet
        (request None "transactions.signAssertLocationTxn" [serializedTx]);;
      (if String.eqb type "iot"
       then dispatch (sendUpdateIotInfo account provider (cluster h) updateInfoTxn)
       else mret tt);;
      (if String.eqb type "mobile"
       then dispatch (sendUpdateMobileInfo account provider (cluster h) updateInfoTxn)
       else mret tt)
  | _, _, _ => accountError
  end.

(** The operations the hook returns, with their arguments. *)
Inductive Op : Type :=
| SubmitPayment (payments : list Payment)
| SubmitCollectable (collectable : Collectable) (payee : string)
| SubmitTreasurySwap (fromMint : PublicKey) (amount : Number) (recipient : PublicKey)
| SubmitAnchorTxn (txn : Transaction)
| SubmitClaimRewards (txns : list Transaction)
| SubmitClaimAllRewards (lazyDistributors : list PublicKey) (hotspots : list Hotspot)
| SubmitLedger
| SubmitMintDataCredits (dcAmount : Number) (recipient : PublicKey)
| SubmitDelegateDataCredits (delegateAddress : string) (amount : Number)
    (mint : PublicKey)
| SubmitUpdateEntityInfo (type entityKey : string) (lat lng : Number)
    (elevation decimalGain : option string).

Definition run (op : Op) : Eff Event unit :=
  match op with
  | SubmitPayment payments => submitPayment payments
  | SubmitCollectable c p => submitCollectable c p
  | SubmitTreasurySwap m a r => submitTreasurySwap m a r
  | SubmitAnchorTxn txn => submitAnchorTxn txn
  | SubmitClaimRewards txns => submitClaimRewards txns
  | SubmitClaimAllRewards l hs => submitClaimAllRewards l hs
  | SubmitLedger => submitLedger
  | SubmitMintDataCredits a r => submitMintDataCredits a r
  | SubmitDelegateDataCredits d a m => submitDelegateDataCredits d a m
  | SubmitUpdateEntityInfo ty k lat lng e g => submitUpdateEntityInfo ty k lat lng e g
  end.

Definition isDispatch (e : Event) : bool :=
  match e with Dispatch _ => true | _ => false end.

Definition isSign (e : Event) : bool :=
  match e with Sign _ => true | _ => false end.

(** Code that neither asks for a signature nor dispatches. *)
Definition quiet {A : Type} (m : Eff Event A) : Prop :=
  Forall (fun e => isSign e = false /\ isDispatch e = false) (trace m).

(** Code in which a signing request answered with [false] ends in the
    rejection error, with nothing dispatched. *)
Definition rejectionSafe {A : Type} (sheet : WalletSignBottomSheetRef)
    (m : Eff Event A) : Prop :=
  forall req,
    Sign req ∈ trace m ->
    show sheet req = Ok false ->
    outcome m = Throw (JsError "User rejected transaction") /\
    Forall (fun e => isDispatch e = false) (trace m).

(** Code in which every dispatch comes after a signing request that was
    answered with [true]. *)
Definition approvedOnly {A : Type} (sheet : WalletSignBottomSheetRef)
    (m : Eff Event A) : Prop :=
  forall a,
    Dispatch a ∈ trace m ->
    exists req, Sign req ∈ trace m /\ show sheet req = Ok true.





End Hook.
End SubmitTxn.

(** ** Kinds of actions of the slice *)

Module SliceKinds.
Import Balances.
Section Kinds.

Context {AccountBalance Price : Type}.

Local Abbreviation Act := (@Action AccountBalance Price).

(** The lifecycle actions of [syncTokenAccounts]. *)
Definition isSyncLifecycle (a : Act) : bool :=
  match a with
  | SyncTokenAccountsPending | SyncTokenAccountsFulfilled _ _
  | SyncTokenAccountsRejected => true
  | _ => false
  end.

(** The actions whose case reducer writes under [state.balances]. *)
Definition writesBalances (a : Act) : bool :=
  match a with
  | UpdateBalance _ | UpdateAtaBalance _ | SyncTokenAccountsFulfilled _ _ => true
  | _ => false
  end.

Definition isReadTokenPrices (a : Act) : bool :=
  match a with ReadTokenPricesFulfilled _ _ => true | _ => false end.

Definition isReadBalanceHistory (a : Act) : bool :=
  match a with ReadBalanceHistoryFulfilled _ _ => true | _ => false end.


(** The (cluster, address) pair whose tokens [updateBalance] and
    [updateAtaBalance] write. *)
Definition updatedWallet (a : Act) : option (Cluster * string) :=
  match a with
  | UpdateBalance p => Some (ub_cluster p, ub_solanaAddress p)
  | UpdateAtaBalance p => Some (ua_cluster p, ua_solanaAddress p)
  | _ => None
  end.

(** [state.balanceHistory[cluster][address][currency]], [None] when a
    level has no entry. *)
Definition historyOf (st : @BalancesState AccountBalance Price)
    (cluster : Cluster) (address currency : string)
    : option (list AccountBalance) :=
  (balanceHistory st !! cluster ≫= fun w => w !! address)
    ≫= fun h => h !! currency.

End Kinds.
End SliceKinds.

(** ** What a submission action carries *)

Module SubmitShape.
Import SubmitTxn.
Section Shape.

Context {PublicKey Buffer Transaction Balance Collectable Hotspot Number : Type}.

Local Abbreviation Action := (@SolanaAction PublicKey Buffer Transaction).
Local Abbreviation Ev := (@Event PublicKey Buffer Transaction).

(** The transactions an action submits. *)
Definition actionTxns (a : Action) : list Transaction :=
  match a with
  | makePayment paymentTxn _ _ _ => [paymentTxn]
  | makeCollectablePayment _ transferTxn _ _ => [transferTxn]
  | sendTreasurySwap _ _ swapTxn => [swapTxn]
  | sendAnchorTxn txn _ _ => [txn]
  | claimRewards _ txns _ _ => txns
  | claimAllRewards _ txns _ _ => txns
  | sendMintDataCredits _ _ swapTxn => [swapTxn]
  | sendDelegateDataCredits _ _ delegateDCTxn => [delegateDCTxn]
  | sendUpdateIotInfo _ _ _ updateTxn => [updateTxn]
  | sendUpdateMobileInfo _ _ _ updateTxn => [updateTxn]
  end.

Definition actionCluster (a : Action) : Cluster :=
  match a with
  | makePayment _ _ c _ | makeCollectablePayment _ _ c _
  | sendTreasurySwap _ c _ | sendAnchorTxn _ _ c
  | claimRewards _ _ _ c | claimAllRewards _ _ _ c
  | sendMintDataCredits _ c _ | sendDelegateDataCredits _ c _
  | sendUpdateIotInfo _ _ c _ | sendUpdateMobileInfo _ _ c _ => c
  end.

Definition actionProvider (a : Action) : @Sync.AnchorProvider PublicKey Buffer :=
  match a with
  | makePayment _ _ _ p | makeCollectablePayment _ _ _ p
  | sendTreasurySwap p _ _ | sendAnchorTxn _ p _
  | claimRewards _ _ p _ | claimAllRewards _ _ p _
  | sendMintDataCredits p _ _ | sendDelegateDataCredits p _ _
  | sendUpdateIotInfo _ p _ _ | sendUpdateMobileInfo _ p _ _ => p
  end.

Definition actionAccount (a : Action) : option CSAccount :=
  match a with
  | makePayment _ acct _ _ | makeCollectablePayment acct _ _ _
  | claimRewards acct _ _ _ | claimAllRewards acct _ _ _
  | sendUpdateIotInfo acct _ _ _ | sendUpdateMobileInfo acct _ _ _ => Some acct
  | _ => None
  end.

(** The recipient whose account the operation looks up before it builds. *)
Definition recipientOf
    (op : @Op PublicKey Transaction Balance Collectable Hotspot Number)
    : option PublicKey :=
  match op with
  | SubmitTreasurySwap _ _ recipient => Some recipient
  | SubmitMintDataCredits _ recipient => Some recipient
  | _ => None
  end.

Context (u : @SolUtils PublicKey Buffer Transaction Balance Collectable Hotspot Number)
        (h : @Hook PublicKey Buffer).

(** An action dispatched after the request [req]: it submits the
    transactions whose serializations the request showed, for the cluster,
    the provider and the account of the hook. *)
Definition sentFor (req : SignRequest) (a : Action) : Prop :=
  Forall2 (fun txn buf => serialize u txn = Ok buf)
    (actionTxns a) (sr_serializedTxs req) /\
  actionCluster a = cluster h /\
  anchorProvider h = Some (actionProvider a) /\
  (forall acct, actionAccount a = Some acct -> currentAccount h = Some acct).

(** How a run ends: before the signing request, at a signing request that
    was not approved, or after an approved one with at most one dispatch. *)
Definition ending {A : Type} (sheet : WalletSignBottomSheetRef)
    (m : Eff Ev A) : Prop :=
  exists pre,
    Forall (fun e => isSign e = false /\ isDispatch e = false) pre /\
    ((trace m = pre /\ exists e, outcome m = Throw e) \/
     (exists req e,
         trace m = pre ++ [Sign req] /\ outcome m = Throw e /\
         ((show sheet req = Ok false /\
           e = JsError "User rejected transaction") \/
          show sheet req = Throw e)) \/
     (exists req ds x,
         trace m = pre ++ Sign req :: map Dispatch ds /\
         outcome m = Ok x /\ show sheet req = Ok true /\
         (length ds <= 1)%nat /\ Forall (sentFor req) ds)).

End Shape.
End SubmitShape.

(** ** The account action bar *)

(** [features/account/AccountActionBar.tsx]: what a press of a button
    navigates to, and which buttons the bar shows. *)
Module ActionBar.
Section Bar.

(** The ledger device of an account, which the bar only tests for. *)
Context {LedgerDevice : Type}.

Inductive Action : Type :=
| send | request | stake | lock | fiveG | delegate | swaps | airdrop.

(** What the bar reads of [pin] in the app storage. *)
Record Pin : Type := mkPin {
  status : string;
}.

(** The calls [navigation.navigate(screen, params)] the bar makes. *)
Inductive Route : Type :=
| ConfirmPin (action : string)
| PaymentScreen (defaultTokenType : option string)
| RequestScreen
| SwapNavigator
| AirdropScreen (ticker : string)
| OnboardData
| BurnScreen (address amount : string) (isDelegate : bool).

Record Props : Type := mkProps {
  ticker : option string;
  compact : option bool;
  maxCompact : option bool;
  hasBottomTitle : option bool;
  hasSend : option bool;
  hasRequest : option bool;
  hasDelegate : option bool;
  hasSwaps : option bool;
  hasAirdrop : option bool;
}.

(** [useAppStorage], [useAccountStorage] and [useTranslation]. *)
Record Env : Type := mkEnv {
  requirePinForPayment : option bool;
  pin : option Pin;
  ledgerDevice : option LedgerDevice;   (* currentAccount?.ledgerDevice *)
  t : string -> string;
}.

(** Truthiness of an optional boolean. *)
Definition on (b : option bool) : bool := default false b.

Context (props : Props) (env : Env).

(** [pin?.status === 'on' && requirePinForPayment] *)
Definition pinRequired : bool :=
  match pin env with
  | Some p => String.eqb (status p) "on"
  | None => false
  end && on (requirePinForPayment env).

(** The calls to [navigation.navigate] of [handleAction(type)()]. *)
Definition handleAction (type : Action) : list Route :=
  match type with
  | send =>
      if pinRequired then [ConfirmPin "payment"]
      else [PaymentScreen (ticker props)]
  | request => [RequestScreen]
  | swaps => [SwapNavigator]
  | airdrop =>
      [AirdropScreen (if truthy (ticker props)
                      then default "HNT" (ticker props) else "HNT")]
  | fiveG => [OnboardData]
  | delegate => [BurnScreen EmptyString EmptyString true]
  | _ => []
  end.

Definition fabMargin : option string :=
  if on (compact props) then Some "m"
  else if on (maxCompact props) then Some "s"
  else None.

(** A [FabButton] of the bar with the [Box] around it: what depends on
    the props, and the icon. *)
Record Fab : Type := mkFab {
  f_onPress : Action;
  f_icon : option string;
  f_title : option string;
  f_small : bool;                  (* width and height 47.5 *)
  f_reverse : bool;
  f_boxed : bool;                  (* wrapped in a Box *)
  f_column : bool;                 (* flexDirection 'column' *)
  f_flex : option Z;
  f_marginEnd : option string;
  f_bottomTitle : option string;
}.

Definition small : bool := on (maxCompact props).

(** [compact || maxCompact ? undefined : t(key)] *)
Definition title (key : string) : option string :=
  if on (compact props) || on (maxCompact props) then None
  else Some (t env key).

(** [hasBottomTitle && <Text>{t(key)}</Text>] *)
Definition bottomTitle (key : string) : option string :=
  if on (hasBottomTitle props) then Some (t env key) else None.

(** [flex={compact || maxCompact ? undefined : 1}] *)
Definition wide : option Z :=
  if on (compact props) || on (maxCompact props) then None else Some 1.

Definition requestFab : Fab :=
  {| f_onPress := request; f_icon := Some "fatArrowDown";
     f_title := title "accountView.deposit"; f_small := small;
     f_reverse := false; f_boxed := true;
     f_column := on (hasBottomTitle props); f_flex := wide;
     f_marginEnd := fabMargin;
     f_bottomTitle := bottomTitle "accountView.deposit" |}.

Definition swapsFab : Fab :=
  {| f_onPress := swaps; f_icon := Some "swaps";
     f_title := title "accountView.swaps"; f_small := small;
     f_reverse := false; f_boxed := true;
     f_column := on (hasBottomTitle props); f_flex := None;
     f_marginEnd := fabMargin;
     f_bottomTitle := bottomTitle "accountView.swaps" |}.

Definition airdropFab : Fab :=
  {| f_onPress := airdrop; f_icon := Some "airdrop";
     f_title := title "airdropScreen.airdrop"; f_small := small;
     f_reverse := false; f_boxed := true;
     f_column := on (hasBottomTitle props); f_flex := None;
     f_marginEnd := fabMargin;
     f_bottomTitle := bottomTitle "airdropScreen.airdrop" |}.

Definition sendFab : Fab :=
  {| f_onPress := send; f_icon := Some "fatArrowUp";
     f_title := title "accountView.send"; f_small := small;
     f_reverse := true; f_boxed := true;
     f_column := on (hasBottomTitle props); f_flex := wide;
     f_marginEnd := None;
     f_bottomTitle := bottomTitle "accountView.send" |}.

Definition delegateFab : Fab :=
  {| f_onPress := delegate; f_icon := None;
     f_title := title "accountView.delegate"; f_small := small;
     f_reverse := true; f_boxed := false;
     f_column := false; f_flex := None;
     f_marginEnd := None; f_bottomTitle := None |}.

(** [flag && <button/>] *)
Definition shown (flag : bool) (f : Fab) : list Fab :=
  if flag then [f] else [].

(** The buttons of the bar, in order; [None] is [return null], for an
    account on a ledger device.  [hasSend] and [hasRequest] default to
    [true]. *)
Definition render : option (list Fab) :=
  match ledgerDevice env with
  | Some _ => None
  | None =>
      Some (shown (default true (hasRequest props)) requestFab
            ++ shown (on (hasSwaps props)) swapsFab
            ++ shown (on (hasAirdrop props)) airdropFab
            ++ shown (default true (hasSend props)) sendFab
            ++ shown (on (hasDelegate props)) delegateFab)
  end.

Definition isPaymentScreen (r : Route) : bool :=
  match r with PaymentScreen _ => true | _ => false end.

End Bar.
End ActionBar.

(** ** The payment card *)

(** [features/payment/PaymentCard.tsx]: the state of the card and its
    handlers.  Every event is handled by the handlers of the render that
    follows the state updates of the event before it; [handlePayPressed] is
    taken in one step, with the answer of [checkSecureAccount] given; the
    ledger payment is mounted, so that [ledgerPaymentRef.current] is
    there. *)
Module PaymentCard.
Section Card.

(** [{ txn; txnJson }], an element of [payments], the ledger device. *)
Context {Opts SendDetails LedgerDevice : Type}.

(** What the card reads of [currentAccount]. *)
Record Account : Type := mkAccount {
  acc_address : string;
  acc_ledgerDevice : option LedgerDevice;
  acc_accountIndex : option Z;
}.

(** The props and hooks the handlers read. *)
Record Env : Type := mkEnv {
  currentAccount : option Account;
  disabled : option bool;
  payments : option (list SendDetails);
  t : string -> string;
}.

(** [useState]: [payEnabled], [height], [options]. *)
Record State : Type := mkState {
  payEnabled : bool;
  height : Q;
  options : option Opts;
}.

Definition initial : State :=
  {| payEnabled := false; height := 0%Q; options := None |}.

(** The calls the handlers make. *)
Inductive Effect : Type :=
| CheckSecureAccount (address : option string) (requireAuth : bool)
| AnimateTransition (label : string)
| LedgerShow (payments : list SendDetails) (device : LedgerDevice)
    (address : string) (accountIndex : Z) (speculativeNonce : Z)
| OnSubmit (opts : option Opts)
| HandleCancel
| ShowOKAlert (title message : string).

(** What happens to the card: presses of its buttons, a layout, and the
    callbacks of the ledger payment. *)
Inductive Event : Type :=
| PressCancel
| PressPay (hasSecureAccount : bool)
| PressSubmit
| Layout (height : Q)
| LedgerConfirm (opts : Opts)
| LedgerError (message : string).

Context (env : Env).

Definition positive (x : Q) : bool := negb (Qle_bool x 0).

Definition handlePayPressed (st : State) (hasSecureAccount : bool)
    : State * list Effect :=
  match currentAccount env with
  | Some {| acc_address := address; acc_ledgerDevice := Some device;
            acc_accountIndex := accountIndex |} =>
      (st, [LedgerShow (default [] (payments env)) device address
              (match accountIndex with
               | Some i => if i =? 0 then 0 else i
               | None => 0
               end) 0])
  | account =>
      let check := CheckSecureAccount (acc_address <$> account) true in
      if hasSecureAccount
      then ({| payEnabled := true; height := height st; options := options st |},
            [check; AnimateTransition "PaymentCard.payEnabled"])
      else (st, [check])
  end.

Definition handleLayout (st : State) (h : Q) : State :=
  if positive (height st) then st
  else {| payEnabled := payEnabled st; height := h; options := options st |}.

Definition handleConfirm (st : State) (opts : Opts) : State :=
  {| payEnabled := true; height := height st; options := Some opts |}.

Definition handleSubmit (st : State) : list Effect := [OnSubmit (options st)].

Definition handleLedgerError (message : string) : list Effect :=
  [ShowOKAlert (t env "generic.error") message].

(** One event.  The cancel and pay buttons are rendered while
    [payEnabled] is false, the submit button once it is true; a disabled
    pay button takes no press. *)
Definition step (st : State) (ev : Event) : State * list Effect :=
  match ev with
  | PressCancel => if payEnabled st then (st, []) else (st, [HandleCancel])
  | PressPay answer =>
      if payEnabled st || default false (disabled env) then (st, [])
      else handlePayPressed st answer
  | PressSubmit => if payEnabled st then (st, handleSubmit st) else (st, [])
  | Layout h => (handleLayout st h, [])
  | LedgerConfirm opts => (handleConfirm st opts, [])
  | LedgerError message => (st, handleLedgerError message)
  end.

(** A sequence of events: the final state and the calls made, in order. *)
Fixpoint steps (st : State) (evs : list Event) : State * list Effect :=
  match evs with
  | [] => (st, [])
  | ev :: evs' =>
      let '(st1, out1) := step st ev in
      let '(st2, out2) := steps st1 evs' in
      (st2, out1 ++ out2)
  end.

(** The calls the card can still make once paying is enabled. *)
Definition afterEnabled (e : Effect) : bool :=
  match e with
  | OnSubmit _ | ShowOKAlert _ _ => true
  | _ => false
  end.

(** The calls that start a payment. *)
Definition startsPayment (e : Effect) : bool :=
  match e with
  | CheckSecureAccount _ _ | LedgerShow _ _ _ _ _ | AnimateTransition _ => true
  | _ => false
  end.

(** The card whose pay button enables paying when the secure account
    check passes: not disabled, for an account without a ledger device. *)
Definition checkPassed : Prop :=
  default false (disabled env) = false /\
  (currentAccount env ≫= acc_ledgerDevice) = None.

(** A layout that reports a positive height. *)
Definition laysOut (ev : Event) : bool :=
  match ev with
  | Layout h => positive h
  | _ => false
  end.

(** *** The card in time

    [handlePayPressed] awaits [checkSecureAccount]: the press and the
    answer of the check are two moments, and between them the card is
    rendered as before and takes further events, a second press of the
    pay button among them. *)
Inductive Moment : Type :=
| PayPressed
| CheckAnswered (hasSecureAccount : bool)
| Happens (ev : Event).

(** [handlePayPressed] up to its [await]: the calls made, and whether a
    check is now awaited. *)
Definition payPressed : nat * list Effect :=
  match currentAccount env with
  | Some {| acc_address := address; acc_ledgerDevice := Some device;
            acc_accountIndex := accountIndex |} =>
      (0%nat,
       [LedgerShow (default [] (payments env)) device address
          (match accountIndex with
           | Some i => if i =? 0 then 0 else i
           | None => 0
           end) 0])
  | account => (1%nat, [CheckSecureAccount (acc_address <$> account) true])
  end.

(** [handlePayPressed] from its [await] on. *)
Definition checkAnswered (st : State) (hasSecureAccount : bool)
    : State * list Effect :=
  if hasSecureAccount
  then ({| payEnabled := true; height := height st; options := options st |},
        [AnimateTransition "PaymentCard.payEnabled"])
  else (st, []).

(** One moment of a card with [pending] checks awaited.  The pay button
    takes a press as in [step]; an answer resumes one awaited call of
    [handlePayPressed], whatever the card shows by then; every other event
    is handled at once. *)
Definition moment (st : State) (pending : nat) (m : Moment)
    : State * nat * list Effect :=
  match m with
  | PayPressed =>
      if payEnabled st || default false (disabled env) then (st, pending, [])
      else (st, (pending + payPressed.1)%nat, payPressed.2)
  | CheckAnswered answer =>
      match pending with
      | O => (st, pending, [])
      | S rest => ((checkAnswered st answer).1, rest, (checkAnswered st answer).2)
      end
  | Happens ev => ((step st ev).1, pending, (step st ev).2)
  end.

Fixpoint moments (st : State) (pending : nat) (ms : list Moment)
    : State * nat * list Effect :=
  match ms with
  | [] => (st, pending, [])
  | m :: ms' =>
      let '(st1, pending1, out1) := moment st pending m in
      let '(st2, pending2, out2) := moments st1 pending1 ms' in
      (st2, pending2, out1 ++ out2)
  end.

Definition isTransition (e : Effect) : bool :=
  match e with
  | AnimateTransition _ => true
  | _ => false
  end.

End Card.
End PaymentCard.

(** ** Sample data *)

(** A small wallet: the opaque SDK types are strings, prices and history
    entries are integers. *)
Module Sample.
Import Balances Sync SubmitTxn.

Definition State : Type := @BalancesState Z Z.

Definition initial : State := initialState.

Definition wallet : Tokens :=
  {| atas := [ {| tokenAccount := "ata1"; mint := "mintA"; balance := 5 |} ];
     sol := {| h_tokenAccount := "wallet1"; h_balance := 100 |};
     dcEscrow := {| h_tokenAccount := "escrow1"; h_balance := 0 |} |}.

(** The initial state with one wallet on devnet and prices in one currency. *)
Definition loaded : State :=
  {| balancesLoading := Some false;
     tokenPrices :=
       Some {| helium := {[ "usd" := 2 ]}; solana := {[ "usd" := 20 ]};
               helium_iot := {[ "usd" := 1 ]}; helium_mobile := {[ "usd" := 1 ]} |};
     balanceHistory := balanceHistory initial;
     balances := <[Devnet := {[ "wallet1" := wallet ]}]> (balances initial) |}.

Definition eurPrices : @Prices Z :=
  {| helium := {[ "eur" := 3 ]}; solana := {[ "eur" := 18 ]};
     helium_iot := {[ "eur" := 1 ]}; helium_mobile := {[ "eur" := 1 ]} |}.

Definition account : CSAccount :=
  {| address := "helium1"; solanaAddress := Some "wallet1" |}.

(** The sample wallet holds [mintA] in [ata1]; an update for [mintB] in
    the same token account finds nothing and changes nothing. *)
Definition otherMint : UpdateAtaBalancePayload :=
  {| ua_cluster := Devnet; ua_solanaAddress := "wallet1"; ua_balance := 9;
     ua_mint := "mintB"; ua_tokenAccount := "ata1" |}.

(** An update for a wallet the state has no entry for. *)
Definition unknownWallet : UpdateBalancePayload :=
  {| ub_cluster := Testnet; ub_solanaAddress := "wallet1"; ub_balance := 7;
     ub_type := SolType; ub_tokenAccount := "wallet1" |}.

(** Arguments of a fulfilled sync that carry no cluster. *)
Definition noCluster : option SyncMeta :=
  Some {| sm_cluster := None; sm_acct := Some account |}.


(** A node that knows one token account of the wallet and an escrow
    account whose data does not decode. *)
Definition node : @Connection string string :=
  {| getTokenAccountsByOwner := fun _ =>
       Ok [ {| oa_pubkey := "ata1"; oa_data := "165 bytes" |} ];
     getAccountInfo := fun key =>
       if String.eqb key "escrow1"
       then Ok (Some {| ai_data := "garbage"; ai_lamports := 0 |})
       else Ok (Some {| ai_data := "system"; ai_lamports := 100 |}) |}.

Definition provider : @AnchorProvider string string := {| connection := node |}.

Definition sdk : @Sdk string string :=
  {| newPublicKey := fun s => Ok s;
     toBase58 := fun k => k;
     AccountLayout_decode := fun data =>
       if String.eqb data "165 bytes"
       then Ok {| ra_mint := "mintA"; ra_amount := Some 5 |}
       else Throw (JsError "invalid account data");
     getEscrowTokenAccount := fun _ => Ok "escrow1" |}.

Definition syncArgs : @SyncArgs string string :=
  {| sa_cluster := Some Devnet; sa_acct := Some account;
     sa_anchorProvider := provider |}.


(** Builders that return a named transaction; a sheet on which the user
    declines. *)
Definition utils : @SolUtils string string string string bool unit Z :=
  {| t := fun key => key;
     ticker := fun b => b;
     compressed := fun c => c;
     parseFloat := fun _ => 0;
     toMintAddress := fun tk => Ok tk;
     transferToken := fun _ _ _ _ _ => Ok "payment";
     transferCompressedCollectable := fun _ _ _ _ _ => Ok "transfer";
     transferCollectable := fun _ _ _ _ _ => Ok "transfer";
     createTreasurySwapTxn := fun _ _ _ _ => Ok "swap";
     claimAllRewardsTxns := fun _ _ _ => Ok ["claim"];
     mintDataCredits := fun _ _ _ => Ok "mint";
     delegateDataCredits := fun _ _ _ _ => Ok "delegate";
     updateEntityInfoTxn := fun _ _ _ _ _ _ _ => Ok "update";
     serialize := fun txn => Ok txn |}.

Definition declining : @WalletSignBottomSheetRef string :=
  {| show := fun _ => Ok false |}.

Definition hook : @Hook string string :=
  {| currentAccount := Some account; cluster := Devnet;
     anchorProvider := Some provider;
     walletSignBottomSheetRef := Some declining |}.


Definition payment : @Payment string :=
  {| payee := "wallet2"; balanceAmount := "HNT"; max := None |}.

(** A sheet on which the user approves. *)
Definition approving : @WalletSignBottomSheetRef string :=
  {| show := fun _ => Ok true |}.

Definition approvingHook : @Hook string string :=
  {| currentAccount := Some account; cluster := Devnet;
     anchorProvider := Some provider;
     walletSignBottomSheetRef := Some approving |}.

Definition loggedOutApproving : @Hook string string :=
  {| currentAccount := None; cluster := Devnet;
     anchorProvider := Some provider;
     walletSignBottomSheetRef := Some approving |}.

(** An update for the token account the sample wallet holds. *)
Definition sameMint : UpdateAtaBalancePayload :=
  {| ua_cluster := Devnet; ua_solanaAddress := "wallet1"; ua_balance := 9;
     ua_mint := "mintA"; ua_tokenAccount := "ata1" |}.

Definition knownWallet : UpdateBalancePayload :=
  {| ub_cluster := Devnet; ub_solanaAddress := "wallet1"; ub_balance := 7;
     ub_type := SolType; ub_tokenAccount := "wallet1" |}.






End Sample.

(** ** More sample data *)

Module MoreSamples.
Import Balances Sync SubmitTxn Sample.

(** A second update of the same token account, with another balance. *)
Definition sameMintAgain : UpdateAtaBalancePayload :=
  {| ua_cluster := Devnet; ua_solanaAddress := "wallet1"; ua_balance := 12;
     ua_mint := "mintA"; ua_tokenAccount := "ata1" |}.

Definition history : @HistoryMeta :=
  {| hm_currency := "usd"; hm_cluster := Devnet; hm_solanaAddress := "wallet1" |}.

(** A node one of whose token accounts holds data that does not decode. *)
Definition brokenNode : @Connection string string :=
  {| getTokenAccountsByOwner := fun _ =>
       Ok [ {| oa_pubkey := "ata1"; oa_data := "165 bytes" |};
            {| oa_pubkey := "ata2"; oa_data := "garbage" |} ];
     getAccountInfo := getAccountInfo node |}.

Definition brokenArgs : @SyncArgs string string :=
  {| sa_cluster := Some Devnet; sa_acct := Some account;
     sa_anchorProvider := {| connection := brokenNode |} |}.

(** An SDK that decodes every other account to an amount of 2^53 + 1. *)
Definition bigEscrowSdk : @Sdk string string :=
  {| newPublicKey := fun s => Ok s;
     toBase58 := fun k => k;
     AccountLayout_decode := fun data =>
       if String.eqb data "165 bytes"
       then Ok {| ra_mint := "mintA"; ra_amount := Some 5 |}
       else Ok {| ra_mint := "dc"; ra_amount := Some (2 ^ 53 + 1) |};
     getEscrowTokenAccount := fun _ => Ok "escrow1" |}.

Definition bigOwned : @OwnedAccount string string :=
  {| oa_pubkey := "ata9"; oa_data := "big" |}.

(** A node that knows no account, so that a recipient is new to it. *)
Definition emptyNode : @Connection string string :=
  {| getTokenAccountsByOwner := fun _ => Ok [];
     getAccountInfo := fun _ => Ok None |}.

Definition newRecipientHook : @Hook string string :=
  {| currentAccount := Some account; cluster := Devnet;
     anchorProvider := Some {| connection := emptyNode |};
     walletSignBottomSheetRef := Some approving |}.

(** A sheet that fails. *)
Definition failing : @WalletSignBottomSheetRef string :=
  {| show := fun _ => Throw (JsError "sheet closed") |}.

Definition failingHook : @Hook string string :=
  {| currentAccount := Some account; cluster := Devnet;
     anchorProvider := Some provider;
     walletSignBottomSheetRef := Some failing |}.

Definition swap : @Op string string string bool unit Z :=
  SubmitTreasurySwap "mintA" 5 "wallet2".

(** The action bar of the HNT screen, with a PIN required for payments. *)
Definition barProps : ActionBar.Props :=
  {| ActionBar.ticker := Some "HNT"; ActionBar.compact := None;
     ActionBar.maxCompact := None; ActionBar.hasBottomTitle := Some true;
     ActionBar.hasSend := None; ActionBar.hasRequest := None;
     ActionBar.hasDelegate := None; ActionBar.hasSwaps := Some true;
     ActionBar.hasAirdrop := None |}.

Definition pinEnv : @ActionBar.Env unit :=
  {| ActionBar.requirePinForPayment := Some true;
     ActionBar.pin := Some {| ActionBar.status := "on" |};
     ActionBar.ledgerDevice := None;
     ActionBar.t := fun key => key |}.

(** A payment card of an account without a ledger device. *)
Definition cardEnv : @PaymentCard.Env unit unit :=
  {| PaymentCard.currentAccount :=
       Some {| PaymentCard.acc_address := "helium1";
               PaymentCard.acc_ledgerDevice := None;
               PaymentCard.acc_accountIndex := None |};
     PaymentCard.disabled := None;
     PaymentCard.payments := None;
     PaymentCard.t := fun key => key |}.

Definition disabledCardEnv : @PaymentCard.Env unit unit :=
  {| PaymentCard.currentAccount := PaymentCard.currentAccount cardEnv;
     PaymentCard.disabled := Some true;
     PaymentCard.payments := None;
     PaymentCard.t := fun key => key |}.

Definition laidOut : @PaymentCard.State string :=
  {| PaymentCard.payEnabled := false; PaymentCard.height := 232%Q;
     PaymentCard.options := None |}.

Definition enabled : @PaymentCard.State string :=
  {| PaymentCard.payEnabled := true; PaymentCard.height := 232%Q;
     PaymentCard.options := None |}.

End MoreSamples.

(** * Properties *)

(** ** Helper lemmas *)

Lemma findIndex_from_none {A : Type} (p : A -> bool) (l : list A) (i : Z) :
  Forall (fun x => p x = false) l -> findIndex_from p l i = -1.
Proof.
  intros Hall. revert i.
  induction Hall as [|x l Hx _ IH]; intros i; simpl; [reflexivity|].
  rewrite Hx. apply IH.
Qed.

Lemma findIndex_from_range {A : Type} (p : A -> bool) (l : list A) (i : Z) :
  findIndex_from p l i = -1 \/
  i <= findIndex_from p l i < i + Z.of_nat (length l).
Proof.
  revert i. induction l as [|x l IH]; intros i; simpl; [left; reflexivity|].
  destruct (p x).
  - right. lia.
  - destruct (IH (i + 1)) as [-> | ?]; [left; reflexivity | right; lia].
Qed.

Lemma truthy_Some (s : option string) :
  truthy s = true -> exists a, s = Some a /\ a <> EmptyString.
Proof.
  destruct s as [[|c a]|]; simpl; try discriminate.
  intros _. eexists; split; [reflexivity | discriminate].
Qed.

Module BalancesFacts.
Import Balances.
Section Facts.

Context {AccountBalance Price : Type}.

Local Abbreviation State := (@BalancesState AccountBalance Price).
Local Abbreviation Act := (@Action AccountBalance Price).

Implicit Types (st : State) (a : Act).


Lemma isProtoKey_false (k : string) : k <> "__proto__" -> isProtoKey k = false.
Proof. intros Hk. apply String.eqb_neq. exact Hk. Qed.

(** The fulfilled case returns the state as it is when the guard
    [!args?.acct.solanaAddress || !args.cluster] holds and the read of
    [args.acct] does not throw. *)
Lemma sync_fulfilled_guard st (args : option SyncMeta) (payload : Tokens) :
  truthy ((args ≫= sm_acct) ≫= solanaAddress) = false \/ args ≫= sm_cluster = None ->
  syncTokenAccounts_fulfilled st args payload = Ok st \/
  syncTokenAccounts_fulfilled st args payload = Throw TypeError.
Proof.
  intros Hguard. unfold syncTokenAccounts_fulfilled, metaSolanaAddress.
  destruct args as [[c [acct|]]|]; simpl in *; auto.
  destruct (solanaAddress acct) as [[|ch s]|]; simpl in *; auto;
    destruct c; simpl in *; auto.
  destruct Hguard; discriminate.
Qed.

(** An action that names no cluster, or another one, leaves a cluster's
    entries alone; shown on the reducer's result. *)
(** When [readBalanceHistory.fulfilled] returns, the state is as it was
    or one entry of [state.balanceHistory[cluster]] has been written. *)
Lemma readBalanceHistory_stores st (arg : HistoryMeta)
    (payload : list AccountBalance) st' :
  readBalanceHistory_fulfilled st arg payload = Ok st' ->
  exists wallets,
    balanceHistory st !! hm_cluster arg = Some wallets /\
    (st' = st \/
     exists entry,
       st' = set_balanceHistory
               (<[hm_cluster arg := <[hm_solanaAddress arg := entry]> wallets]>
                  (balanceHistory st))
               st).
Proof.
  unfold readBalanceHistory_fulfilled. intros Hred.
  destruct (balanceHistory st !! hm_cluster arg) as [w|]; [|discriminate].
  exists w. split; [reflexivity|].
  destruct (w !! hm_solanaAddress arg) as [e|].
  - destruct (isProtoKey _); [discriminate|]. injection Hred as <-. eauto.
  - destruct (inherited _) as [t|].
    + destruct (assignable _ _); [|discriminate]. injection Hred as <-. auto.
    + destruct (isProtoKey _); injection Hred as <-; eauto.
Qed.

Lemma reducer_other_cluster st st' a c' :
  action_cluster a <> Some c' ->
  reducer st a = Ok st' ->
  balances st' !! c' = balances st !! c' /\
  balanceHistory st' !! c' = balanceHistory st !! c'.
Proof.
  intros Hc Hred. destruct a as [p|p| |arg p| |cur p|arg p]; simpl in *.
  - injection Hred as <-. unfold updateBalance.
    destruct (tokensOf _ _ _); simpl; [|done].
    split; [|done]. apply lookup_alter_ne. congruence.
  - injection Hred as <-. unfold updateAtaBalance.
    destruct (_ =? _); simpl; [done|].
    split; [|done]. apply lookup_alter_ne. congruence.
  - injection Hred as <-. done.
  - unfold syncTokenAccounts_fulfilled, metaSolanaAddress in Hred.
    destruct arg as [[c [acct|]]|]; simpl in *; try (injection Hred as <-; done);
      try discriminate.
    destruct (solanaAddress acct) as [s|], c as [c|]; simpl in *;
      try (injection Hred as <-; done).
    destruct s as [|ch s]; simpl in *; [injection Hred as <-; done|].
    destruct (balances st !! c) as [w|] eqn:Hw; [|discriminate].
    destruct (isProtoKey _); [discriminate|].
    injection Hred as <-. simpl. split; [|done].
    apply lookup_insert_ne. congruence.
  - injection Hred as <-. done.
  - injection Hred as <-. done.
  - destruct (readBalanceHistory_stores _ _ _ _ Hred) as (w & Hw & [->|[e ->]]);
      [done|]. simpl. split; [done|].
    apply lookup_insert_ne. congruence.
Qed.



(** C3: [updateAtaBalance] leaves the state as it is when no element of
    [state.balances[cluster][solanaAddress].atas] has the action's
    [tokenAccount] and [mint]; this includes a cluster or an address
    without an entry, for which the hypothesis holds of no element. *)
Theorem updateAtaBalance_absent_unchanged st (payload : UpdateAtaBalancePayload) :
  (forall tokens t,
      tokensOf st (ua_cluster payload) (ua_solanaAddress payload) = Some tokens ->
      t ∈ atas tokens ->
      ~ (tokenAccount t = ua_tokenAccount payload /\ mint t = ua_mint payload)) ->
  updateAtaBalance st payload = st /\
  reducer st (UpdateAtaBalance payload) = Ok st.
Proof.
  intros Habsent.
  assert (Hst : updateAtaBalance st payload = st).
  { unfold updateAtaBalance, findIndex.
    rewrite findIndex_from_none; [reflexivity|].
    destruct (tokensOf st _ _) as [tokens|] eqn:Htok; simpl; [|constructor].
    apply Forall_forall. intros t Ht.
    unfold sameAta. apply andb_false_iff.
    destruct (String.eqb_spec (tokenAccount t) (ua_tokenAccount payload)) as [H1|];
      [|left; reflexivity].
    destruct (String.eqb_spec (mint t) (ua_mint payload)) as [H2|];
      [|right; reflexivity].
    exfalso. exact (Habsent tokens t eq_refl Ht (conj H1 H2)). }
  split; [exact Hst | simpl; rewrite Hst; reflexivity].
Qed.

(** C8: [updateBalance] leaves the state as it is when
    [state.balances[cluster][solanaAddress]] has no entry, whether the
    cluster or the address is the one missing, for both balance types. *)
Theorem updateBalance_absent_unchanged st (payload : UpdateBalancePayload) :
  tokensOf st (ub_cluster payload) (ub_solanaAddress payload) = None ->
  updateBalance st payload = st /\
  reducer st (UpdateBalance payload) = Ok st.
Proof.
  intros Hnone. unfold reducer, updateBalance. rewrite Hnone. split; reflexivity.
Qed.


(** C6: an action of the slice leaves the [balances] and the
    [balanceHistory] entries of every cluster other than the one it acts on
    as they were. *)
Theorem other_clusters_unchanged st a (c' : Cluster) :
  action_cluster a <> Some c' ->
  balances (next_state st a) !! c' = balances st !! c' /\
  balanceHistory (next_state st a) !! c' = balanceHistory st !! c'.
Proof.
  intros Hc. unfold next_state.
  destruct (reducer st a) as [st'|e] eqn:Hred; [|done].
  eapply reducer_other_cluster; eassumption.
Qed.


(** C9: a fulfilled [syncTokenAccounts] action whose arguments lack the
    account's [solanaAddress] or the cluster leaves the whole state as it
    was; after the pending case has set [balancesLoading], the flag is
    still set. *)
Theorem sync_fulfilled_missing_args st (args : option SyncMeta) (payload : Tokens) :
  truthy ((args ≫= sm_acct) ≫= solanaAddress) = false \/ args ≫= sm_cluster = None ->
  next_state st (SyncTokenAccountsFulfilled args payload) = st /\
  (is_Some (args ≫= sm_acct) ->
   reducer st (SyncTokenAccountsFulfilled args payload) = Ok st) /\
  balancesLoading
    (next_state (next_state st SyncTokenAccountsPending)
       (SyncTokenAccountsFulfilled args payload)) = Some true.
Proof.
  intros Hguard.
  assert (Hns : forall s : State,
             next_state s (SyncTokenAccountsFulfilled args payload) = s).
  { intros s. unfold next_state; simpl.
    destruct (sync_fulfilled_guard s args payload Hguard) as [-> | ->]; reflexivity. }
  split; [apply Hns|]. split.
  - intros [acct Hacct]. simpl.
    destruct (sync_fulfilled_guard st args payload Hguard) as [H|H]; [exact H|].
    exfalso. unfold syncTokenAccounts_fulfilled, metaSolanaAddress in H.
    destruct args as [[c [ac|]]|]; simpl in *; try discriminate.
    destruct (solanaAddress ac) as [[|ch s]|], c as [c|]; simpl in *;
      try discriminate.
    destruct Hguard; discriminate.
  - rewrite Hns. reflexivity.
Qed.

End Facts.
End BalancesFacts.

(** ** Facts about effectful code *)

Section EffFacts.

Context {E : Type}.

Lemma trace_bind {A B : Type} (m : Eff E A) (f : A -> Eff E B) :
  trace (m ≫= f) =
  trace m ++ match outcome m with Ok a => trace (f a) | Throw _ => [] end.
Proof.
  destruct m as [l [a|e]]; unfold trace, outcome, mbind, Eff_bind; simpl;
    [reflexivity | symmetry; apply app_nil_r].
Qed.

Lemma outcome_bind {A B : Type} (m : Eff E A) (f : A -> Eff E B) :
  outcome (m ≫= f) =
  match outcome m with Ok a => outcome (f a) | Throw e => Throw e end.
Proof.
  destruct m as [l [a|e]]; reflexivity.
Qed.

Lemma traverse_cons {A B : Type} (f : A -> Eff E B) (x : A) (xs : list A) :
  traverse f (x :: xs) = (y ← f x; ys ← traverse f xs; mret (y :: ys)).
Proof. reflexivity. Qed.

Lemma traverse_pure_trace {A B : Type} (f : A -> Result B) (xs : list A) :
  trace (traverse (fun x => pure (E := E) (f x)) xs) = [].
Proof.
  induction xs as [|x xs IH]; [reflexivity|].
  rewrite traverse_cons, trace_bind.
  destruct (f x) as [y|e]; [|reflexivity].
  cbn [pure trace outcome fst snd app].
  rewrite trace_bind, IH.
  destruct (outcome _); reflexivity.
Qed.

Lemma traverse_pure_outcome {A B : Type} (f : A -> Result B) (xs : list A)
    (ys : list B) :
  outcome (traverse (fun x => pure (E := E) (f x)) xs) = Ok ys <->
  Forall2 (fun x y => f x = Ok y) xs ys.
Proof.
  revert ys. induction xs as [|x xs IH]; intros ys.
  - split.
    + intros H. injection H as <-. constructor.
    + intros H. inversion H. reflexivity.
  - rewrite traverse_cons, outcome_bind.
    destruct (f x) as [y|e] eqn:Hfx; cbn [pure outcome snd].
    + rewrite outcome_bind.
      destruct (outcome (traverse _ xs)) as [ys'|e] eqn:Hxs.
      * split.
        -- intros H. injection H as <-. constructor; [exact Hfx|].
           apply IH. reflexivity.
        -- intros H. inversion H as [|? y' ? ys'' Hy Hys]; subst.
           apply IH in Hys. rewrite Hfx in Hy.
           injection Hy as <-. injection Hys as <-. reflexivity.
      * split; [discriminate|].
        intros H. inversion H as [|? y' ? ys'' Hy Hys]; subst.
        apply IH in Hys. discriminate.
    + split; [discriminate|].
      intros H. inversion H as [|? y' ? ys'' Hy Hys]; subst. congruence.
Qed.

End EffFacts.

(** ** Facts about number conversion *)

Lemma round53_exact (n : Z) : 0 <= n <= 2 ^ 53 -> round53 n = n.
Proof.
  intros [H0 H53]. unfold round53.
  destruct (Z.eq_dec n (2 ^ 53)) as [-> | Hne]; [vm_compute; reflexivity|].
  destruct (Z.eq_dec n 0) as [-> | Hn0]; [reflexivity|].
  assert (Hlog : Z.log2 n < 53) by (apply Z.log2_lt_pow2; lia).
  destruct (Z.leb_spec (Z.log2 n - 52) 0); [reflexivity | lia].
Qed.

Lemma Number_or_zero_exact (n : Z) :
  0 <= n <= 2 ^ 53 -> Number_or_zero (Some n) = n.
Proof.
  intros Hn. unfold Number_or_zero, Number_of_bigint.
  destruct (Z.eqb_spec n 0) as [-> | Hn0]; [reflexivity|].
  rewrite Z.abs_eq by lia. rewrite round53_exact by lia.
  rewrite Z.sgn_pos by lia. lia.
Qed.

(** Above 2^53 the conversion rounds: 2^53 + 1 becomes 2^53. *)
Example Number_rounds_above_2_53 :
  Number_or_zero (Some (2 ^ 53 + 1)) = 2 ^ 53.
Proof. vm_compute. reflexivity. Qed.

(** ** The thunk *)

Module SyncFacts.
Import Sync.
Section Facts.

Context {PublicKey Buffer : Type} (sdk : @Sdk PublicKey Buffer).

Implicit Types (args : @SyncArgs PublicKey Buffer).

Lemma traverse_toAta (owned : list OwnedAccount) (atas_ : list TokenAccount) :
  Forall2 (fun o a => toAta sdk o = Ok a) owned atas_ ->
  traverse (E := @Rpc PublicKey) (fun o => pure (toAta sdk o)) owned = ([], Ok atas_).
Proof.
  intros Hall.
  pose proof (traverse_pure_trace (E := @Rpc PublicKey) (toAta sdk) owned) as Ht.
  apply (traverse_pure_outcome (E := @Rpc PublicKey)) in Hall.
  destruct (traverse _ owned) as [l r]. unfold trace, outcome in *; simpl in *.
  congruence.
Qed.

(** The run of the thunk when every collaborator but the decoder of the
    escrow account answers: three requests to the node, and the snapshot. *)
Lemma sync_returns args addr pubKey owned atas_ escrowAccount dcEscrowAcc solAcc :
  sa_acct args ≫= solanaAddress = Some addr ->
  addr <> EmptyString ->
  newPublicKey sdk addr = Ok pubKey ->
  getTokenAccountsByOwner (connection (sa_anchorProvider args)) pubKey = Ok owned ->
  Forall2 (fun o a => toAta sdk o = Ok a) owned atas_ ->
  getEscrowTokenAccount sdk addr = Ok escrowAccount ->
  getAccountInfo (connection (sa_anchorProvider args)) escrowAccount = Ok dcEscrowAcc ->
  getAccountInfo (connection (sa_anchorProvider args)) pubKey = Ok solAcc ->
  syncTokenAccounts sdk args =
  ([GetTokenAccountsByOwner pubKey; GetAccountInfo escrowAccount; GetAccountInfo pubKey],
   Ok {| atas := atas_;
         dcEscrow := {| h_tokenAccount := toBase58 sdk escrowAccount;
                        h_balance := escrowBalance sdk dcEscrowAcc |};
         sol := {| h_tokenAccount := addr; h_balance := solBalance solAcc |} |}).
Proof.
  intros Haddr Hne Hpk Hown Hatas Hesc Hinfo1 Hinfo2.
  unfold syncTokenAccounts. rewrite Haddr.
  destruct addr as [|ch s]; [congruence|].
  rewrite Hpk.
  unfold mbind, Eff_bind, call, callAll, throw, mret, Eff_ret.
  unfold pure at 1. cbn [fst snd app]. rewrite Hown.
  rewrite (traverse_toAta _ _ Hatas). cbn [fst snd app].
  rewrite Hesc. unfold pure. cbn [fst snd app].
  rewrite Hinfo1, Hinfo2. reflexivity.
Qed.

(** Conversely, a run that returns had all these answers. *)
Lemma sync_returned args tokens :
  outcome (syncTokenAccounts sdk args) = Ok tokens ->
  exists addr pubKey owned escrowAccount dcEscrowAcc solAcc,
    sa_acct args ≫= solanaAddress = Some addr /\
    addr <> EmptyString /\
    newPublicKey sdk addr = Ok pubKey /\
    getTokenAccountsByOwner (connection (sa_anchorProvider args)) pubKey = Ok owned /\
    Forall2 (fun o a => toAta sdk o = Ok a) owned (atas tokens) /\
    getEscrowTokenAccount sdk addr = Ok escrowAccount /\
    getAccountInfo (connection (sa_anchorProvider args)) escrowAccount = Ok dcEscrowAcc /\
    getAccountInfo (connection (sa_anchorProvider args)) pubKey = Ok solAcc.
Proof.
  unfold syncTokenAccounts.
  destruct (sa_acct args ≫= solanaAddress) as [[|ch s]|] eqn:Haddr;
    try discriminate.
  rewrite outcome_bind.
  destruct (newPublicKey sdk (String ch s)) as [pubKey|] eqn:Hpk;
    cbn [pure outcome snd]; [|discriminate].
  rewrite outcome_bind.
  destruct (getTokenAccountsByOwner _ pubKey) as [owned|] eqn:Hown;
    cbn [call outcome snd]; [|discriminate].
  rewrite outcome_bind.
  destruct (outcome (traverse _ owned)) as [atas_|] eqn:Hatas; [|discriminate].
  apply traverse_pure_outcome in Hatas.
  rewrite outcome_bind.
  destruct (getEscrowTokenAccount sdk (String ch s)) as [escrowAccount|] eqn:Hesc;
    cbn [pure outcome snd]; [|discriminate].
  rewrite outcome_bind. cbn [callAll outcome snd].
  destruct (getAccountInfo _ escrowAccount) as [dcEscrowAcc|] eqn:Hinfo1;
    [|discriminate].
  destruct (getAccountInfo _ pubKey) as [solAcc|] eqn:Hinfo2; [|discriminate].
  cbn. intros H. injection H as <-. cbn [atas].
  exists (String ch s), pubKey, owned, escrowAccount, dcEscrowAcc, solAcc.
  repeat split; try assumption. discriminate.
Qed.

(** The [try] block swallows a throw of the decoder, and an absent
    account leaves the balance at its initial value. *)
Lemma escrowBalance_fallback (dcEscrowAcc : option AccountInfo) :
  (dcEscrowAcc = None \/
   exists acc e, dcEscrowAcc = Some acc /\
                 AccountLayout_decode sdk (ai_data acc) = Throw e) ->
  escrowBalance sdk dcEscrowAcc = 0.
Proof.
  intros [-> | (acc & e & -> & Hdec)]; unfold escrowBalance, escrowBalanceOf;
    [reflexivity|].
  rewrite Hdec. reflexivity.
Qed.

(** C4: when the escrow account is absent or decoding its data throws, and
    the other collaborators answer, [syncTokenAccounts] returns and the
    [dcEscrow] balance of the snapshot is zero. *)
Theorem sync_tolerates_escrow_decode_failure
    args addr pubKey owned atas_ escrowAccount dcEscrowAcc solAcc :
  sa_acct args ≫= solanaAddress = Some addr ->
  addr <> EmptyString ->
  newPublicKey sdk addr = Ok pubKey ->
  getTokenAccountsByOwner (connection (sa_anchorProvider args)) pubKey = Ok owned ->
  Forall2 (fun o a => toAta sdk o = Ok a) owned atas_ ->
  getEscrowTokenAccount sdk addr = Ok escrowAccount ->
  getAccountInfo (connection (sa_anchorProvider args)) escrowAccount = Ok dcEscrowAcc ->
  getAccountInfo (connection (sa_anchorProvider args)) pubKey = Ok solAcc ->
  (dcEscrowAcc = None \/
   exists acc e, dcEscrowAcc = Some acc /\
                 AccountLayout_decode sdk (ai_data acc) = Throw e) ->
  exists tokens,
    outcome (syncTokenAccounts sdk args) = Ok tokens /\
    h_balance (dcEscrow tokens) = 0 /\
    h_tokenAccount (dcEscrow tokens) = toBase58 sdk escrowAccount /\
    atas tokens = atas_ /\
    sol tokens = {| h_tokenAccount := addr; h_balance := solBalance solAcc |}.
Proof.
  intros Haddr Hne Hpk Hown Hatas Hesc Hinfo1 Hinfo2 Hfail.
  rewrite (sync_returns _ _ _ _ _ _ _ _ Haddr Hne Hpk Hown Hatas Hesc Hinfo1 Hinfo2).
  eexists; split; [reflexivity|]. cbn.
  rewrite (escrowBalance_fallback _ Hfail). repeat split; reflexivity.
Qed.

(** C10: in the snapshot a run returns, the entries of [atas] are those of
    the owned token accounts in order; an entry whose decoded amount is at
    most 2^53 has that amount as its balance, and a missing or zero amount
    gives balance 0. *)
Theorem sync_ata_balance_exact args tokens :
  outcome (syncTokenAccounts sdk args) = Ok tokens ->
  exists addr pubKey owned,
    sa_acct args ≫= solanaAddress = Some addr /\
    newPublicKey sdk addr = Ok pubKey /\
    getTokenAccountsByOwner (connection (sa_anchorProvider args)) pubKey = Ok owned /\
    Forall2
      (fun o ata =>
         exists accountData,
           AccountLayout_decode sdk (oa_data o) = Ok accountData /\
           tokenAccount ata = toBase58 sdk (oa_pubkey o) /\
           mint ata = toBase58 sdk (ra_mint accountData) /\
           (forall n, ra_amount accountData = Some n -> 0 <= n <= 2 ^ 53 ->
                      balance ata = n) /\
           (ra_amount accountData = None \/ ra_amount accountData = Some 0 ->
            balance ata = 0))
      owned (atas tokens).
Proof.
  intros Hrun.
  destruct (sync_returned _ _ Hrun)
    as (addr & pubKey & owned & esc & a1 & a2 & Haddr & _ & Hpk & Hown & Hatas & _).
  exists addr, pubKey, owned. repeat (split; [assumption|]).
  eapply Forall2_impl; [exact Hatas|].
  intros o ata Hto. unfold toAta in Hto.
  destruct (AccountLayout_decode sdk (oa_data o)) as [d|] eqn:Hdec; [|discriminate].
  cbn in Hto. injection Hto as <-. exists d. cbn.
  split; [reflexivity|]. split; [reflexivity|]. split; [reflexivity|]. split.
  - intros n -> Hn. apply Number_or_zero_exact. exact Hn.
  - intros [-> | ->]; reflexivity.
Qed.

End Facts.
End SyncFacts.

(** ** The hook *)

Module SubmitTxnFacts.
Import SubmitTxn.
Section Facts.

Context {PublicKey Buffer Transaction Balance Collectable Hotspot Number : Type}.

Local Abbreviation Ev :=
  (@Event PublicKey Buffer Transaction).
Local Abbreviation Utils :=
  (@SolUtils PublicKey Buffer Transaction Balance Collectable Hotspot Number).
Local Abbreviation Sheet := (@WalletSignBottomSheetRef Buffer).

Context (u : Utils) (h : @Hook PublicKey Buffer).

Lemma quiet_ret {A : Type} (a : A) : quiet (mret a : Eff Ev A).
Proof. constructor. Qed.

Lemma quiet_throw {A : Type} (e : Exn) : quiet (throw e : Eff Ev A).
Proof. constructor. Qed.

Lemma quiet_pure {A : Type} (r : Result A) : quiet (pure r : Eff Ev A).
Proof. constructor. Qed.

Lemma quiet_call {A : Type} (e : Ev) (r : Result A) :
  isSign e = false -> isDispatch e = false -> quiet (call e r).
Proof. intros H1 H2. constructor; [split; assumption | constructor]. Qed.

Lemma quiet_bind {A B : Type} (m : Eff Ev A) (k : A -> Eff Ev B) :
  quiet m -> (forall x, quiet (k x)) -> quiet (m ≫= k).
Proof.
  intros Hm Hk. unfold quiet. rewrite trace_bind.
  apply Forall_app. split; [exact Hm|].
  destruct (outcome m); [apply Hk | constructor].
Qed.

Lemma quiet_serializeAll (txns : list Transaction) : quiet (serializeAll u txns).
Proof.
  unfold serializeAll. induction txns as [|txn txns IH]; [constructor|].
  rewrite traverse_cons. apply quiet_bind; [apply quiet_call; reflexivity|].
  intros y. apply quiet_bind; [exact IH|]. intros ys. apply quiet_ret.
Qed.

Lemma quiet_recipientExists provider recipient :
  quiet (recipientExists provider recipient : Eff Ev bool).
Proof.
  unfold recipientExists. apply quiet_bind; [apply quiet_call; reflexivity|].
  intros info. apply quiet_ret.
Qed.

Lemma rejectionSafe_quiet {A : Type} (sheet : Sheet) (m : Eff Ev A) :
  quiet m -> rejectionSafe sheet m.
Proof.
  intros Hq req Hin _. exfalso.
  unfold quiet in Hq. rewrite Forall_forall in Hq.
  destruct (Hq _ Hin) as [Hs _]. discriminate.
Qed.

Lemma rejectionSafe_bind {A B : Type} (sheet : Sheet)
    (m : Eff Ev A) (k : A -> Eff Ev B) :
  quiet m -> (forall x, rejectionSafe sheet (k x)) ->
  rejectionSafe sheet (m ≫= k).
Proof.
  intros Hm Hk req Hin Hshow.
  rewrite trace_bind in Hin. rewrite trace_bind, outcome_bind.
  apply elem_of_app in Hin as [Hin | Hin].
  { exfalso. unfold quiet in Hm. rewrite Forall_forall in Hm.
    destruct (Hm _ Hin) as [Hs _]. discriminate. }
  destruct (outcome m) as [x|e]; [|inversion Hin].
  destruct (Hk x req Hin Hshow) as [Hout Hnd].
  split; [exact Hout|].
  apply Forall_app. split; [|exact Hnd].
  eapply Forall_impl; [exact Hm|]. intros e [_ He]. exact He.
Qed.

(** The confirmation step: when the sheet answers [false] nothing after it
    runs. *)
Lemma rejectionSafe_confirm (sheet : Sheet) (req : SignRequest)
    (k : Eff Ev unit) :
  Forall (fun e => isSign e = false) (trace k) ->
  rejectionSafe sheet (confirm sheet req ;; k).
Proof.
  intros Hk req' Hin Hshow.
  assert (Hreq : req' = req).
  { rewrite trace_bind in Hin. apply elem_of_app in Hin as [Hin | Hin].
    - unfold confirm in Hin. rewrite trace_bind in Hin. cbn in Hin.
      destruct (show sheet req) as [[|]|]; cbn in Hin;
        apply list_elem_of_singleton in Hin; congruence.
    - exfalso. destruct (outcome (confirm sheet req)); [|inversion Hin].
      rewrite Forall_forall in Hk. specialize (Hk _ Hin). discriminate. }
  subst req'.
  unfold confirm, mbind, Eff_bind, call, throw, trace, outcome.
  cbn [fst snd]. rewrite Hshow. cbn. split; [reflexivity|].
  constructor; [reflexivity | constructor].
Qed.

Ltac quiet_step :=
  first
    [ apply quiet_ret | apply quiet_throw | apply quiet_pure
    | apply quiet_recipientExists | apply quiet_serializeAll
    | apply quiet_call; reflexivity
    | match goal with
      | |- quiet (match ?l with [] => _ | _ :: _ => _ end) => destruct l; quiet_step
      | |- quiet (if ?b then _ else _) => destruct b; quiet_step
      end ].

Ltac no_sign :=
  unfold dispatch, call, mbind, Eff_bind, mret, Eff_ret, trace; cbn;
  repeat match goal with
    | |- context [if ?b then _ else _] => destruct b; cbn
    end;
  repeat constructor.

Ltac safe_step :=
  first
    [ apply rejectionSafe_quiet; quiet_step
    | apply rejectionSafe_confirm; no_sign
    | apply rejectionSafe_bind; [quiet_step | intros ?] ].

Ltac unfold_ops :=
  unfold submitPayment, submitCollectable, submitTreasurySwap, submitAnchorTxn,
    submitClaimRewards, submitClaimAllRewards, submitLedger,
    submitMintDataCredits, submitDelegateDataCredits, submitUpdateEntityInfo,
    accountError.

Ltac case_closure :=
  repeat match goal with
    | |- context [match currentAccount ?h with _ => _ end] =>
        destruct (currentAccount h) as [?account|]
    | |- context [match anchorProvider ?h with _ => _ end] =>
        destruct (anchorProvider h) as [?provider|]
    | |- context [match walletSignBottomSheetRef ?h with _ => _ end] =>
        destruct (walletSignBottomSheetRef h) as [?sheet|]
    | |- context [match solanaAddress ?a with _ => _ end] =>
        destruct (solanaAddress a) as [[|? ?]|]
    end.

Lemma run_rejectionSafe (sheet : Sheet) (op : Op) :
  walletSignBottomSheetRef h = Some sheet ->
  rejectionSafe sheet (run u h op).
Proof.
  intros Hsheet.
  destruct op; cbn [run]; unfold_ops; rewrite ?Hsheet; case_closure;
    repeat safe_step.
Qed.

Lemma approvedOnly_quiet {A : Type} (sheet : Sheet) (m : Eff Ev A) :
  quiet m -> approvedOnly sheet m.
Proof.
  intros Hq a Hin. exfalso.
  unfold quiet in Hq. rewrite Forall_forall in Hq.
  destruct (Hq _ Hin) as [_ Hd]. discriminate.
Qed.

Lemma approvedOnly_bind {A B : Type} (sheet : Sheet)
    (m : Eff Ev A) (k : A -> Eff Ev B) :
  quiet m -> (forall x, approvedOnly sheet (k x)) ->
  approvedOnly sheet (m ≫= k).
Proof.
  intros Hm Hk a Hin. rewrite trace_bind in Hin |- *.
  apply elem_of_app in Hin as [Hin | Hin].
  { exfalso. unfold quiet in Hm. rewrite Forall_forall in Hm.
    destruct (Hm _ Hin) as [_ Hd]. discriminate. }
  destruct (outcome m) as [x|e]; [|inversion Hin].
  destruct (Hk x a Hin) as (req & Hreq & Hshow).
  exists req. split; [|exact Hshow]. apply elem_of_app. right. exact Hreq.
Qed.

Lemma approvedOnly_confirm (sheet : Sheet) (req : SignRequest)
    (k : Eff Ev unit) :
  approvedOnly sheet (confirm sheet req ;; k).
Proof.
  intros a Hin. exists req.
  rewrite trace_bind in Hin |- *. unfold confirm in Hin |- *.
  rewrite trace_bind, outcome_bind in Hin. rewrite trace_bind.
  cbn [call trace outcome fst snd] in Hin |- *.
  destruct (show sheet req) as [[|]|]; cbn in Hin |- *.
  - split; [apply list_elem_of_here | reflexivity].
  - apply list_elem_of_singleton in Hin. discriminate.
  - apply list_elem_of_singleton in Hin. discriminate.
Qed.

Ltac approved_step :=
  first
    [ apply approvedOnly_quiet; quiet_step
    | apply approvedOnly_confirm
    | apply approvedOnly_bind; [quiet_step | intros ?] ].

(** Whatever the sheet answers, an operation dispatches only after a
    signing request that the sheet answered with [true]. *)
Lemma run_approvedOnly (sheet : Sheet) (op : Op) :
  walletSignBottomSheetRef h = Some sheet ->
  approvedOnly sheet (run u h op).
Proof.
  intros Hsheet.
  destruct op; cbn [run]; unfold_ops; rewrite ?Hsheet; case_closure;
    repeat approved_step.
Qed.

(** Without a sheet no operation gets as far as a dispatch. *)
Lemma run_without_sheet (op : Op) :
  walletSignBottomSheetRef h = None -> quiet (run u h op).
Proof.
  intros Hsheet.
  destruct op; cbn [run]; unfold_ops; rewrite ?Hsheet; case_closure;
    quiet_step.
Qed.

(** C1: in every submit operation of the hook, when the confirmation
    sheet is asked and resolves to [false], the operation throws
    'User rejected transaction' and dispatches nothing. *)
Theorem rejected_confirmation_never_dispatches
    (sheet : Sheet) (op : Op) (req : SignRequest) :
  walletSignBottomSheetRef h = Some sheet ->
  Sign req ∈ trace (run u h op) ->
  show sheet req = Ok false ->
  outcome (run u h op) = Throw (JsError "User rejected transaction") /\
  Forall (fun e => isDispatch e = false) (trace (run u h op)).
Proof.
  intros Hsheet Hin Hshow.
  exact (run_rejectionSafe sheet op Hsheet req Hin Hshow).
Qed.


End Facts.
End SubmitTxnFacts.

(** ** The properties on the sample data *)

Module SampleFacts.
Import Balances Sync SubmitTxn Sample.

(** The reducers and the operations on the sample data, on the paths that
    do write. *)

Example updateAtaBalance_present :
  tokensOf (updateAtaBalance loaded sameMint) Devnet "wallet1"
  = Some (set_atas
            (fun _ => [ {| tokenAccount := "ata1"; mint := "mintA"; balance := 9 |} ])
            wallet).
Proof. vm_compute. reflexivity. Qed.

Example updateBalance_present :
  tokensOf (updateBalance loaded knownWallet) Devnet "wallet1"
  = Some (set_sol {| h_tokenAccount := "wallet1"; h_balance := 7 |} wallet).
Proof. vm_compute. reflexivity. Qed.

Example syncTokenAccounts_sample :
  syncTokenAccounts sdk syncArgs =
  ([GetTokenAccountsByOwner "wallet1"; GetAccountInfo "escrow1";
    GetAccountInfo "wallet1"],
   Ok {| atas := atas wallet;
         sol := {| h_tokenAccount := "wallet1"; h_balance := 100 |};
         dcEscrow := {| h_tokenAccount := "escrow1"; h_balance := 0 |} |}).
Proof. vm_compute. reflexivity. Qed.

Example submitPayment_approved :
  run utils approvingHook (SubmitPayment [payment]) =
  ([Construct TransferToken; Serialize "payment";
    Sign (request utils None "transactions.signPaymentTxn" ["payment"]);
    Dispatch (makePayment "payment" account Devnet provider)],
   Ok tt).
Proof. vm_compute. reflexivity. Qed.

Example submitPayment_declined :
  run utils hook (SubmitPayment [payment]) =
  ([Construct TransferToken; Serialize "payment";
    Sign (request utils None "transactions.signPaymentTxn" ["payment"])],
   Throw (JsError "User rejected transaction")).
Proof. vm_compute. reflexivity. Qed.

(** [submitAnchorTxn] reads no account: without one it still asks for the
    signature and dispatches. *)
Example submitAnchorTxn_without_account :
  run utils loggedOutApproving (SubmitAnchorTxn "txn") =
  ([Serialize "txn";
    Sign (request utils None "transactions.signGenericTxn" ["txn"]);
    Dispatch (sendAnchorTxn "txn" provider Devnet)],
   Ok tt).
Proof. vm_compute. reflexivity. Qed.

Example submitUpdateEntityInfo_iot :
  trace (run utils approvingHook
           (SubmitUpdateEntityInfo "iot" "hotspot" 0 0 (Some "12") None)) =
  [Construct UpdateEntityInfoTxn; Serialize "update";
   Sign (request utils None "transactions.signAssertLocationTxn" ["update"]);
   Dispatch (sendUpdateIotInfo account provider Devnet "update")].
Proof. vm_compute. reflexivity. Qed.

Lemma updateAtaBalance_absent_unchanged_sample :
  updateAtaBalance loaded otherMint = loaded /\
  reducer loaded (UpdateAtaBalance otherMint) = Ok loaded.
Proof.
  apply (BalancesFacts.updateAtaBalance_absent_unchanged loaded otherMint).
  intros tokens t Htok Hin [_ Hmint].
  vm_compute in Htok. injection Htok as <-.
  apply list_elem_of_singleton in Hin. subst t. discriminate Hmint.
Defined.

Lemma updateBalance_absent_unchanged_sample :
  updateBalance loaded unknownWallet = loaded /\
  reducer loaded (UpdateBalance unknownWallet) = Ok loaded.
Proof.
  apply (BalancesFacts.updateBalance_absent_unchanged loaded unknownWallet).
  vm_compute. reflexivity.
Defined.



Lemma other_clusters_unchanged_sample :
  balances (next_state loaded (UpdateAtaBalance otherMint)) !! Testnet
  = balances loaded !! Testnet /\
  balanceHistory (next_state loaded (UpdateAtaBalance otherMint)) !! Testnet
  = balanceHistory loaded !! Testnet.
Proof.
  apply (BalancesFacts.other_clusters_unchanged loaded (UpdateAtaBalance otherMint) Testnet).
  discriminate.
Defined.


Lemma sync_fulfilled_missing_args_sample :
  next_state loaded (SyncTokenAccountsFulfilled noCluster wallet) = loaded /\
  (is_Some (noCluster ≫= sm_acct) ->
   reducer loaded (SyncTokenAccountsFulfilled noCluster wallet) = Ok loaded) /\
  balancesLoading
    (next_state (next_state loaded SyncTokenAccountsPending)
       (SyncTokenAccountsFulfilled noCluster wallet)) = Some true.
Proof.
  apply (BalancesFacts.sync_fulfilled_missing_args loaded noCluster wallet).
  right. reflexivity.
Defined.

Lemma sync_tolerates_escrow_decode_failure_sample :
  exists tokens,
    outcome (syncTokenAccounts sdk syncArgs) = Ok tokens /\
    h_balance (dcEscrow tokens) = 0 /\
    h_tokenAccount (dcEscrow tokens) = "escrow1" /\
    atas tokens = atas wallet /\
    sol tokens = {| h_tokenAccount := "wallet1"; h_balance := 100 |}.
Proof.
  apply (SyncFacts.sync_tolerates_escrow_decode_failure sdk syncArgs
           "wallet1" "wallet1"
           [ {| oa_pubkey := "ata1"; oa_data := "165 bytes" |} ]
           (atas wallet) "escrow1"
           (Some {| ai_data := "garbage"; ai_lamports := 0 |})
           (Some {| ai_data := "system"; ai_lamports := 100 |})).
  - reflexivity.
  - discriminate.
  - reflexivity.
  - reflexivity.
  - repeat constructor.
  - reflexivity.
  - reflexivity.
  - reflexivity.
  - right. eexists _, _. split; reflexivity.
Defined.

Lemma sync_ata_balance_exact_sample :
  exists addr pubKey owned,
    sa_acct syncArgs ≫= solanaAddress = Some addr /\
    newPublicKey sdk addr = Ok pubKey /\
    getTokenAccountsByOwner (connection (sa_anchorProvider syncArgs)) pubKey
    = Ok owned /\
    Forall2
      (fun o ata =>
         exists accountData,
           AccountLayout_decode sdk (oa_data o) = Ok accountData /\
           tokenAccount ata = toBase58 sdk (oa_pubkey o) /\
           mint ata = toBase58 sdk (ra_mint accountData) /\
           (forall n, ra_amount accountData = Some n -> 0 <= n <= 2 ^ 53 ->
                      balance ata = n) /\
           (ra_amount accountData = None \/ ra_amount accountData = Some 0 ->
            balance ata = 0))
      owned (atas wallet).
Proof.
  apply (SyncFacts.sync_ata_balance_exact sdk syncArgs
           {| atas := atas wallet;
              sol := {| h_tokenAccount := "wallet1"; h_balance := 100 |};
              dcEscrow := {| h_tokenAccount := "escrow1"; h_balance := 0 |} |}).
  vm_compute. reflexivity.
Defined.

Lemma rejected_confirmation_never_dispatches_sample :
  outcome (run utils hook (SubmitPayment [payment]))
  = Throw (JsError "User rejected transaction") /\
  Forall (fun e => isDispatch e = false)
    (trace (run utils hook (SubmitPayment [payment]))).
Proof.
  apply (SubmitTxnFacts.rejected_confirmation_never_dispatches utils hook
           declining (SubmitPayment [payment])
           (request utils None "transactions.signPaymentTxn" ["payment"])).
  - reflexivity.
  - vm_compute. do 2 apply list_elem_of_further. apply list_elem_of_here.
  - reflexivity.
Defined.



End SampleFacts.

(** * Further properties *)

(** ** [findIndex] *)

Lemma findIndex_from_first {A : Type} (p : A -> bool) (l : list A) (k : Z) :
  Exists (fun x => p x = true) l ->
  exists (i : nat) (x : A),
    findIndex_from p l k = k + Z.of_nat i /\
    l !! i = Some x /\ p x = true /\
    (forall (j : nat) (y : A), (j < i)%nat -> l !! j = Some y -> p y = false).
Proof.
  revert k. induction l as [|a l IH]; intros k Hex; [inversion Hex|].
  simpl. destruct (p a) eqn:Hpa.
  - exists 0%nat, a. repeat split; [lia | assumption | intros j y Hj; lia].
  - assert (Hex' : Exists (fun x => p x = true) l).
    { inversion Hex; subst; [congruence | assumption]. }
    destruct (IH (k + 1) Hex') as (i & x & Hidx & Hx & Hpx & Hbefore).
    exists (S i), x. repeat split; [lia | exact Hx | exact Hpx |].
    intros [|j] y Hj Hy; simpl in Hy.
    + congruence.
    + apply (Hbefore j y); [lia | exact Hy].
Qed.

Lemma findIndex_from_alter {A : Type} (p : A -> bool) (f : A -> A)
    (i : nat) (l : list A) (k : Z) :
  (forall x, p (f x) = p x) ->
  findIndex_from p (alter f i l) k = findIndex_from p l k.
Proof.
  intros Hf. unfold alter. revert i k.
  induction l as [|a l IH]; intros i k; [reflexivity|].
  destruct i as [|i]; simpl.
  - rewrite Hf. reflexivity.
  - rewrite IH. reflexivity.
Qed.

Lemma findIndex_from_ext {A : Type} (p q : A -> bool) (l : list A) (k : Z) :
  (forall x, p x = q x) -> findIndex_from p l k = findIndex_from q l k.
Proof.
  intros Hpq. revert k. induction l as [|a l IH]; intros k; [reflexivity|].
  simpl. rewrite Hpq, IH. reflexivity.
Qed.

(** ** The slice, further *)

Module SliceLaws.
Import Balances SliceKinds.
Section Laws.

Context {AccountBalance Price : Type}.

Local Abbreviation State := (@BalancesState AccountBalance Price).
Local Abbreviation Act := (@Action AccountBalance Price).

Implicit Types (st : State) (a : Act).

Lemma list_alter_absorb {A : Type} (f g : A -> A) (i : nat) (l : list A) :
  (forall x, f (g x) = f x) -> alter f i (alter g i l) = alter f i l.
Proof.
  intros Hfg. apply list_eq. intros j.
  destruct (decide (i = j)) as [->|Hij].
  - rewrite !list_lookup_alter_eq.
    destruct (l !! j); simpl; [rewrite Hfg|]; reflexivity.
  - rewrite !list_lookup_alter_ne by assumption. reflexivity.
Qed.

Lemma map_alter_absorb {K : Type} `{Countable K} {A : Type} (f g : A -> A)
    (i : K) (m : gmap K A) :
  (forall x, f (g x) = f x) -> alter f i (alter g i m) = alter f i m.
Proof.
  intros Hfg. apply map_eq. intros j.
  destruct (decide (i = j)) as [->|Hij].
  - rewrite !lookup_alter_eq.
    destruct (m !! j); simpl; [rewrite Hfg|]; reflexivity.
  - rewrite !lookup_alter_ne by assumption. reflexivity.
Qed.

(** Reading the tokens of a wallet after an in-place write to one wallet. *)
Lemma tokensOf_alter st (m : gmap Cluster (gmap string Tokens))
    (f : Tokens -> Tokens) (c c' : Cluster) (x x' : string) :
  tokensOf (set_balances (alter (alter f x) c m) st) c' x' =
  if decide (c = c' /\ x = x')
  then f <$> (m !! c ≫= fun w => w !! x)
  else m !! c' ≫= fun w => w !! x'.
Proof.
  unfold tokensOf; simpl. rewrite lookup_alter.
  destruct (decide (c = c')) as [<-|Hc].
  - destruct (m !! c) as [w|]; simpl.
    + rewrite lookup_alter. destruct (decide (x = x')) as [<-|Hx].
      * rewrite decide_True by auto. reflexivity.
      * rewrite decide_False by (intros [_ ?]; auto). reflexivity.
    + destruct (decide _); reflexivity.
  - rewrite decide_False by (intros [? _]; auto). reflexivity.
Qed.

(** What [updateAtaBalance] does when the predicate of [findIndex] finds
    an entry at [i]. *)
Lemma updateAtaBalance_at st (payload : UpdateAtaBalancePayload)
    (tokens : Tokens) (i : nat) :
  tokensOf st (ua_cluster payload) (ua_solanaAddress payload) = Some tokens ->
  findIndex (sameAta payload) (atas tokens) = Z.of_nat i ->
  updateAtaBalance st payload =
  set_balances
    (alter
       (alter (set_atas (alter (set_balance (ua_balance payload)) i))
          (ua_solanaAddress payload))
       (ua_cluster payload) (balances st)) st.
Proof.
  intros Htok Hidx. unfold updateAtaBalance. rewrite Htok. simpl. rewrite Hidx.
  destruct (Z.eqb_spec (Z.of_nat i) (-1)) as [Hneg|_]; [lia|].
  rewrite Nat2Z.id. reflexivity.
Qed.

Lemma sameAta_true (payload : UpdateAtaBalancePayload) (t : TokenAccount) :
  sameAta payload t = true <->
  tokenAccount t = ua_tokenAccount payload /\ mint t = ua_mint payload.
Proof.
  unfold sameAta. rewrite andb_true_iff, !String.eqb_eq. reflexivity.
Qed.

(** [updateAtaBalance] writes the balance of the first entry that has the
    action's [tokenAccount] and [mint], keeps that entry's [tokenAccount]
    and [mint], and leaves every other entry, the number of entries and the
    [sol] and [dcEscrow] holdings of the wallet as they were. *)
Theorem updateAtaBalance_writes_first_match st
    (payload : UpdateAtaBalancePayload) (tokens : Tokens) :
  tokensOf st (ua_cluster payload) (ua_solanaAddress payload) = Some tokens ->
  Exists (fun t => tokenAccount t = ua_tokenAccount payload /\
                   mint t = ua_mint payload) (atas tokens) ->
  exists (i : nat) (t : TokenAccount) (tokens' : Tokens),
    atas tokens !! i = Some t /\
    tokenAccount t = ua_tokenAccount payload /\ mint t = ua_mint payload /\
    (forall j t', (j < i)%nat -> atas tokens !! j = Some t' ->
                  ~ (tokenAccount t' = ua_tokenAccount payload /\
                     mint t' = ua_mint payload)) /\
    tokensOf (updateAtaBalance st payload)
      (ua_cluster payload) (ua_solanaAddress payload) = Some tokens' /\
    atas tokens' !! i =
      Some {| tokenAccount := tokenAccount t; mint := mint t;
              balance := ua_balance payload |} /\
    (forall j, j <> i -> atas tokens' !! j = atas tokens !! j) /\
    length (atas tokens') = length (atas tokens) /\
    sol tokens' = sol tokens /\ dcEscrow tokens' = dcEscrow tokens.
Proof.
  intros Htok Hex.
  assert (Hex' : Exists (fun t => sameAta payload t = true) (atas tokens)).
  { eapply Exists_impl; [exact Hex|]. intros t Ht. apply sameAta_true. exact Ht. }
  destruct (findIndex_from_first (sameAta payload) (atas tokens) 0 Hex')
    as (i & t & Hidx & Ht & Hpt & Hbefore).
  apply sameAta_true in Hpt as [Hta Hmint].
  exists i, t, (set_atas (alter (set_balance (ua_balance payload)) i) tokens).
  split; [exact Ht|]. split; [exact Hta|]. split; [exact Hmint|]. split.
  { intros j t' Hj Ht' Hmatch. apply sameAta_true in Hmatch.
    rewrite (Hbefore j t' Hj Ht') in Hmatch. discriminate. }
  split.
  { rewrite (updateAtaBalance_at st payload tokens i Htok Hidx).
    rewrite tokensOf_alter. rewrite decide_True by auto.
    unfold tokensOf in Htok. rewrite Htok. reflexivity. }
  simpl. split.
  { rewrite list_lookup_alter_eq, Ht. reflexivity. }
  split.
  { intros j Hj. apply list_lookup_alter_ne. congruence. }
  split; [apply length_alter|]. split; reflexivity.
Qed.

(** Two [updateAtaBalance] actions for the same token account and mint of
    the same wallet: the state after both is the state after the second
    alone. *)
Theorem updateAtaBalance_last_write_wins st
    (p1 p2 : UpdateAtaBalancePayload) :
  ua_cluster p1 = ua_cluster p2 ->
  ua_solanaAddress p1 = ua_solanaAddress p2 ->
  ua_tokenAccount p1 = ua_tokenAccount p2 ->
  ua_mint p1 = ua_mint p2 ->
  updateAtaBalance (updateAtaBalance st p1) p2 = updateAtaBalance st p2.
Proof.
  intros Hc Ha Hta Hmint.
  assert (Hsame : forall t, sameAta p1 t = sameAta p2 t).
  { intros t. unfold sameAta. rewrite Hta, Hmint. reflexivity. }
  destruct (tokensOf st (ua_cluster p1) (ua_solanaAddress p1)) as [tokens|] eqn:Htok.
  - destruct (findIndex_from_range (sameAta p1) (atas tokens) 0) as [Hnone | Hrange].
    + assert (H1 : updateAtaBalance st p1 = st).
      { unfold updateAtaBalance, findIndex. rewrite Htok. simpl.
        rewrite Hnone. reflexivity. }
      rewrite H1. reflexivity.
    + set (i := Z.to_nat (findIndex_from (sameAta p1) (atas tokens) 0)).
      assert (Hidx1 : findIndex (sameAta p1) (atas tokens) = Z.of_nat i).
      { unfold findIndex, i. lia. }
      assert (Hidx2 : findIndex (sameAta p2) (atas tokens) = Z.of_nat i).
      { rewrite <- Hidx1. unfold findIndex. symmetry.
        apply findIndex_from_ext. exact Hsame. }
      rewrite (updateAtaBalance_at st p1 tokens i Htok Hidx1).
      rewrite Hc, Ha in Htok.
      rewrite (updateAtaBalance_at st p2 tokens i Htok Hidx2).
      erewrite (updateAtaBalance_at _ p2
                  (set_atas (alter (set_balance (ua_balance p1)) i) tokens) i).
      * simpl. unfold set_balances; simpl. f_equal.
        rewrite Hc, Ha. apply map_alter_absorb. intros w.
        apply map_alter_absorb. intros t. unfold set_atas; simpl. f_equal.
        apply list_alter_absorb. intros x. reflexivity.
      * rewrite tokensOf_alter, Hc, Ha. rewrite decide_True by auto.
        unfold tokensOf in Htok. rewrite Htok. reflexivity.
      * simpl. unfold findIndex. rewrite findIndex_from_alter by reflexivity.
        exact Hidx2.
  - assert (H1 : updateAtaBalance st p1 = st).
    { unfold updateAtaBalance. rewrite Htok. reflexivity. }
    rewrite H1. reflexivity.
Qed.

(** [updateBalance] for a wallet the state holds replaces the holding the
    action names ([sol] or [dcEscrow]) by the action's [tokenAccount] and
    [balance], and leaves the other holding and the [atas] as they were. *)
Theorem updateBalance_writes_holding st
    (payload : UpdateBalancePayload) (tokens : Tokens) :
  tokensOf st (ub_cluster payload) (ub_solanaAddress payload) = Some tokens ->
  exists tokens',
    tokensOf (updateBalance st payload)
      (ub_cluster payload) (ub_solanaAddress payload) = Some tokens' /\
    atas tokens' = atas tokens /\
    match ub_type payload with
    | SolType =>
        sol tokens' = {| h_tokenAccount := ub_tokenAccount payload;
                         h_balance := ub_balance payload |} /\
        dcEscrow tokens' = dcEscrow tokens
    | DcEscrowType =>
        dcEscrow tokens' = {| h_tokenAccount := ub_tokenAccount payload;
                              h_balance := ub_balance payload |} /\
        sol tokens' = sol tokens
    end.
Proof.
  intros Htok. unfold updateBalance. rewrite Htok.
  rewrite tokensOf_alter. rewrite decide_True by auto.
  unfold tokensOf in Htok. rewrite Htok. simpl.
  eexists; split; [reflexivity|].
  destruct (ub_type payload); simpl; auto.
Qed.

(** [updateBalance] and [updateAtaBalance] write into one wallet only:
    the tokens of every other (cluster, address) pair are as before, no
    wallet appears or disappears, and the loading flag, the prices and the
    balance history are untouched. *)
Theorem balance_updates_touch_one_wallet st a (c : Cluster) (x : string) :
  updatedWallet a = Some (c, x) ->
  reducer st a = Ok (next_state st a) /\
  (forall c' x', (c', x') <> (c, x) ->
     tokensOf (next_state st a) c' x' = tokensOf st c' x') /\
  (forall c' x', is_Some (tokensOf (next_state st a) c' x') <->
                 is_Some (tokensOf st c' x')) /\
  balancesLoading (next_state st a) = balancesLoading st /\
  tokenPrices (next_state st a) = tokenPrices st /\
  balanceHistory (next_state st a) = balanceHistory st.
Proof.
  intros Hw. unfold next_state.
  assert (Hgen : forall (f : Tokens -> Tokens),
    let st' := set_balances (alter (alter f x) c (balances st)) st in
    (forall c' x', (c', x') <> (c, x) -> tokensOf st' c' x' = tokensOf st c' x') /\
    (forall c' x', is_Some (tokensOf st' c' x') <-> is_Some (tokensOf st c' x'))).
  { intros f st'. unfold st'. split.
    - intros c' x' Hne. rewrite tokensOf_alter.
      rewrite decide_False by (intros [-> ->]; auto). reflexivity.
    - intros c' x'. rewrite tokensOf_alter.
      destruct (decide (c = c' /\ x = x')) as [[<- <-]|Hne]; [|reflexivity].
      unfold tokensOf. destruct (balances st !! c ≫= _); simpl;
        split; intros [? ?]; try discriminate; eauto. }
  destruct a as [p|p| | | | | ]; simpl in Hw; try discriminate;
    injection Hw as <- <-; simpl.
  - split; [reflexivity|]. unfold updateBalance.
    destruct (tokensOf st _ _) eqn:Htok;
      [|repeat split; intros; try reflexivity; assumption].
    destruct (Hgen (match ub_type p with
                    | DcEscrowType => set_dcEscrow
                        {| h_tokenAccount := ub_tokenAccount p;
                           h_balance := ub_balance p |}
                    | SolType => set_sol
                        {| h_tokenAccount := ub_tokenAccount p;
                           h_balance := ub_balance p |}
                    end)) as [H1 H2].
    split; [exact H1|]. split; [exact H2|]. repeat split; reflexivity.
  - split; [reflexivity|]. unfold updateAtaBalance.
    destruct (_ =? -1); [repeat split; intros; try reflexivity; assumption|].
    match goal with
    | |- context [alter (alter ?f _) _ _] => destruct (Hgen f) as [H1 H2]
    end.
    split; [exact H1|]. split; [exact H2|]. repeat split; reflexivity.
Qed.

(** Two fulfilled [syncTokenAccounts] actions with the same arguments:
    the state after both is the state after the second alone, whatever the
    arguments and the state are. *)
Theorem sync_fulfilled_last_write_wins st (args : option SyncMeta)
    (p1 p2 : Tokens) :
  next_state (next_state st (SyncTokenAccountsFulfilled args p1))
    (SyncTokenAccountsFulfilled args p2)
  = next_state st (SyncTokenAccountsFulfilled args p2).
Proof.
  unfold next_state; simpl.
  unfold syncTokenAccounts_fulfilled, metaSolanaAddress.
  destruct args as [[c [acct|]]|]; simpl; try reflexivity.
  destruct (solanaAddress acct) as [[|ch s]|], c as [c|]; simpl; try reflexivity.
  destruct (balances st !! c) as [w|] eqn:Hw; simpl.
  - destruct (isProtoKey (String ch s)) eqn:Hproto; simpl.
    + rewrite Hw. reflexivity.
    + rewrite lookup_insert_eq. simpl. unfold set_balances; simpl. f_equal.
      rewrite !insert_insert_eq. reflexivity.
  - rewrite Hw. reflexivity.
Qed.


(** A fulfilled [readBalanceHistory] action for a currency other than
    ['__proto__'] and an address that is no name inherited from
    [Object.prototype] files its payload under
    [balanceHistory[cluster][address][currency]], creating the entry of
    the address when there is none; the history of every other (cluster,
    address, currency) triple and the rest of the state are as before.
    The state has an entry for the cluster. *)
Theorem readBalanceHistory_records st (arg : HistoryMeta)
    (payload : list AccountBalance) :
  hm_currency arg <> "__proto__" ->
  inherited (hm_solanaAddress arg) = None ->
  is_Some (balanceHistory st !! hm_cluster arg) ->
  exists st',
    reducer st (ReadBalanceHistoryFulfilled arg payload) = Ok st' /\
    historyOf st' (hm_cluster arg) (hm_solanaAddress arg) (hm_currency arg)
    = Some payload /\
    (forall c x cur,
        (c, x, cur) <> (hm_cluster arg, hm_solanaAddress arg, hm_currency arg) ->
        historyOf st' c x cur = historyOf st c x cur) /\
    balances st' = balances st /\
    tokenPrices st' = tokenPrices st /\
    balancesLoading st' = balancesLoading st.
Proof.
  intros Hcur Haddr [w Hw]. simpl. unfold readBalanceHistory_fulfilled.
  rewrite Hw, Haddr, (BalancesFacts.isProtoKey_false _ Hcur).
  assert (Hstore : forall entry : gmap string (list AccountBalance),
    w !! hm_solanaAddress arg = Some entry \/
    (w !! hm_solanaAddress arg = None /\ entry = ∅) ->
    let st' :=
      set_balanceHistory
        (<[hm_cluster arg :=
             <[hm_solanaAddress arg := <[hm_currency arg := payload]> entry]> w]>
           (balanceHistory st)) st in
    historyOf st' (hm_cluster arg) (hm_solanaAddress arg) (hm_currency arg)
    = Some payload /\
    (forall c x cur,
        (c, x, cur) <> (hm_cluster arg, hm_solanaAddress arg, hm_currency arg) ->
        historyOf st' c x cur = historyOf st c x cur)).
  { intros entry Hentry. unfold historyOf; simpl. split.
    - rewrite lookup_insert_eq; simpl. rewrite lookup_insert_eq; simpl.
      apply lookup_insert_eq.
    - intros c x cur Hne. rewrite lookup_insert.
      destruct (decide (hm_cluster arg = c)) as [<-|Hc]; [|reflexivity].
      rewrite Hw; simpl. rewrite lookup_insert.
      destruct (decide (hm_solanaAddress arg = x)) as [<-|Hx]; [|reflexivity].
      simpl. rewrite lookup_insert_ne by congruence.
      destruct Hentry as [-> | [-> ->]]; simpl; [reflexivity|].
      apply lookup_empty. }
  destruct (w !! hm_solanaAddress arg) as [entry|] eqn:Hentry.
  - destruct (Hstore entry (or_introl eq_refl)) as [H1 H2].
    eexists; split; [reflexivity|].
    split; [exact H1|]. split; [exact H2|]. repeat split; reflexivity.
  - destruct (Hstore ∅ (or_intror (conj eq_refl eq_refl))) as [H1 H2].
    eexists; split; [reflexivity|].
    split; [exact H1|]. split; [exact H2|]. repeat split; reflexivity.
Qed.


(** Fulfilled [readTokenPrices] actions for two different currencies
    commute: the state does not depend on the order they arrive in. *)
Theorem readTokenPrices_commute st (c1 c2 : string) (p1 p2 : Prices) :
  c1 <> c2 ->
  next_state (next_state st (ReadTokenPricesFulfilled c1 p1))
    (ReadTokenPricesFulfilled c2 p2)
  = next_state (next_state st (ReadTokenPricesFulfilled c2 p2))
      (ReadTokenPricesFulfilled c1 p1).
Proof.
  intros Hne. unfold next_state; simpl. unfold readTokenPrices_fulfilled; simpl.
  unfold set_tokenPrices; simpl. f_equal. f_equal. unfold assign.
  f_equal; rewrite partial_alter_partial_alter;
    rewrite decide_False by congruence; reflexivity.
Qed.

(** Each field of the state is written by its own actions only: the
    loading flag by the lifecycle of [syncTokenAccounts], [balances] by
    [updateBalance], [updateAtaBalance] and the fulfilled sync,
    [tokenPrices] by the fulfilled [readTokenPrices], [balanceHistory] by
    the fulfilled [readBalanceHistory]. *)
Theorem fields_have_their_own_actions st a :
  (isSyncLifecycle a = false ->
   balancesLoading (next_state st a) = balancesLoading st) /\
  (writesBalances a = false -> balances (next_state st a) = balances st) /\
  (isReadTokenPrices a = false ->
   tokenPrices (next_state st a) = tokenPrices st) /\
  (isReadBalanceHistory a = false ->
   balanceHistory (next_state st a) = balanceHistory st).
Proof.
  unfold next_state.
  destruct a as [p|p| |arg p| |cur p|arg p]; simpl;
    repeat split; intros Hk; try discriminate; try reflexivity.
  - unfold updateBalance. destruct (tokensOf _ _ _); reflexivity.
  - unfold updateBalance. destruct (tokensOf _ _ _); reflexivity.
  - unfold updateBalance. destruct (tokensOf _ _ _); reflexivity.
  - unfold updateAtaBalance. destruct (_ =? _); reflexivity.
  - unfold updateAtaBalance. destruct (_ =? _); reflexivity.
  - unfold updateAtaBalance. destruct (_ =? _); reflexivity.
  - destruct (syncTokenAccounts_fulfilled st arg p) as [st'|] eqn:Hf; [|reflexivity].
    unfold syncTokenAccounts_fulfilled, metaSolanaAddress in Hf.
    destruct arg as [[c [acct|]]|]; simpl in Hf; try (injection Hf as <-; reflexivity);
      try discriminate.
    destruct (solanaAddress acct) as [[|ch s]|], c as [c|]; simpl in Hf;
      try (injection Hf as <-; reflexivity).
    destruct (balances st !! c); [|discriminate].
    destruct (isProtoKey _); [discriminate|]. injection Hf as <-. reflexivity.
  - destruct (syncTokenAccounts_fulfilled st arg p) as [st'|] eqn:Hf; [|reflexivity].
    unfold syncTokenAccounts_fulfilled, metaSolanaAddress in Hf.
    destruct arg as [[c [acct|]]|]; simpl in Hf; try (injection Hf as <-; reflexivity);
      try discriminate.
    destruct (solanaAddress acct) as [[|ch s]|], c as [c|]; simpl in Hf;
      try (injection Hf as <-; reflexivity).
    destruct (balances st !! c); [|discriminate].
    destruct (isProtoKey _); [discriminate|]. injection Hf as <-. reflexivity.
  - destruct (readBalanceHistory_fulfilled st arg p) as [st'|] eqn:Hf;
      [|reflexivity].
    destruct (BalancesFacts.readBalanceHistory_stores _ _ _ _ Hf)
      as (w & _ & [->|[e ->]]); reflexivity.
  - destruct (readBalanceHistory_fulfilled st arg p) as [st'|] eqn:Hf;
      [|reflexivity].
    destruct (BalancesFacts.readBalanceHistory_stores _ _ _ _ Hf)
      as (w & _ & [->|[e ->]]); reflexivity.
  - destruct (readBalanceHistory_fulfilled st arg p) as [st'|] eqn:Hf;
      [|reflexivity].
    destruct (BalancesFacts.readBalanceHistory_stores _ _ _ _ Hf)
      as (w & _ & [->|[e ->]]); reflexivity.
Qed.

End Laws.
End SliceLaws.

(** ** Number conversion, further *)

(** [round53] returns one of the two multiples of [2^e] around [n], the
    nearer one, so it is off by at most half of [2^e]. *)
Lemma round53_error (n : Z) :
  0 <= n -> Z.abs (round53 n - n) <= 2 ^ (Z.log2 n - 53).
Proof.
  intros Hn. unfold round53.
  destruct (Z.leb_spec (Z.log2 n - 52) 0) as [He|He].
  - rewrite Z.sub_diag. simpl. apply Z.pow_nonneg. lia.
  - set (e := Z.log2 n - 52) in *.
    assert (Hpow : 2 ^ e = 2 * 2 ^ (e - 1)).
    { rewrite <- Z.pow_succ_r by lia. f_equal. lia. }
    assert (Hhalf : 0 < 2 ^ (e - 1)) by (apply Z.pow_pos_nonneg; lia).
    replace (Z.log2 n - 53) with (e - 1) by lia.
    rewrite Z.land_ones by lia. rewrite Z.shiftr_div_pow2 by lia.
    rewrite !Z.shiftl_mul_pow2 by lia. rewrite Z.mul_1_l.
    pose proof (Z.div_mod n (2 ^ e) ltac:(lia)) as Hdm.
    pose proof (Z.mod_pos_bound n (2 ^ e) ltac:(lia)) as Hmod.
    set (q := n / 2 ^ e) in *. set (r := n mod 2 ^ e) in *.
    rewrite Hpow in *. set (P := 2 ^ (e - 1)) in *.
    clearbody q r P. clear Hpow. clearbody e.
    assert (Hdown : q * (2 * P) - n = - r) by (rewrite Hdm; ring).
    assert (Hup : (q + 1) * (2 * P) - n = 2 * P - r) by (rewrite Hdm; ring).
    destruct (Z.ltb_spec r P); [rewrite Hdown; lia|].
    destruct (Z.ltb_spec P r); [rewrite Hup; lia|].
    destruct (Z.even q); [rewrite Hdown | rewrite Hup]; lia.
Qed.

Lemma Number_or_zero_u64_error (n : Z) :
  0 <= n < 2 ^ 64 -> Z.abs (Number_or_zero (Some n) - n) <= 1024.
Proof.
  intros [H0 H64]. unfold Number_or_zero, Number_of_bigint.
  destruct (Z.eqb_spec n 0) as [-> | Hn0]; [simpl; lia|].
  rewrite (Z.abs_eq n) by lia. rewrite Z.sgn_pos by lia. rewrite Z.mul_1_l.
  pose proof (round53_error n H0) as Herr.
  assert (Hlog : Z.log2 n < 64) by (apply Z.log2_lt_pow2; lia).
  assert (Hle : 2 ^ (Z.log2 n - 53) <= 2 ^ 10).
  { apply Z.pow_le_mono_r; lia. }
  change (2 ^ 10) with 1024 in Hle. lia.
Qed.

(** ** Effectful code, further *)

Section EffLaws.

Context {E : Type}.

Lemma trace_pure {A : Type} (r : Result A) : trace (pure (E := E) r) = [].
Proof. reflexivity. Qed.

Lemma outcome_pure {A : Type} (r : Result A) : outcome (pure (E := E) r) = r.
Proof. reflexivity. Qed.

Lemma trace_call {A : Type} (e : E) (r : Result A) : trace (call e r) = [e].
Proof. reflexivity. Qed.

Lemma outcome_call {A : Type} (e : E) (r : Result A) : outcome (call e r) = r.
Proof. reflexivity. Qed.

Lemma trace_callAll {A : Type} (es : list E) (r : Result A) :
  trace (callAll es r) = es.
Proof. reflexivity. Qed.

Lemma outcome_callAll {A : Type} (es : list E) (r : Result A) :
  outcome (callAll es r) = r.
Proof. reflexivity. Qed.

Lemma trace_throw {A : Type} (e : Exn) : trace (throw (E := E) (A := A) e) = [].
Proof. reflexivity. Qed.

Lemma outcome_throw {A : Type} (e : Exn) :
  outcome (throw (E := E) (A := A) e) = Throw e.
Proof. reflexivity. Qed.

Lemma trace_ret {A : Type} (a : A) : trace (mret a : Eff E A) = [].
Proof. reflexivity. Qed.

Lemma outcome_ret {A : Type} (a : A) : outcome (mret a : Eff E A) = Ok a.
Proof. reflexivity. Qed.

End EffLaws.

(** ** The thunk, further *)

Module SyncLaws.
Import Balances Sync.
Section Laws.

Context {PublicKey Buffer : Type} (sdk : @Sdk PublicKey Buffer).

Implicit Types (args : @SyncArgs PublicKey Buffer).

Lemma traverse_toAta_fails (owned : list OwnedAccount) :
  Exists (fun o => exists e, AccountLayout_decode sdk (oa_data o) = Throw e) owned ->
  exists e,
    traverse (E := @Rpc PublicKey) (fun o => pure (toAta sdk o)) owned
    = ([], Throw e).
Proof.
  intros Hex.
  pose proof (traverse_pure_trace (E := @Rpc PublicKey) (toAta sdk) owned) as Ht.
  destruct (traverse _ owned) as [l [ys|e]] eqn:Htr; unfold trace in Ht;
    simpl in Ht; subst l.
  - exfalso.
    assert (Hout : outcome (traverse (E := @Rpc PublicKey)
                              (fun o => pure (toAta sdk o)) owned) = Ok ys)
      by (rewrite Htr; reflexivity).
    apply traverse_pure_outcome in Hout.
    clear Htr. induction Hout as [|o y owned' ys' Hoy _ IH].
    + inversion Hex.
    + inversion Hex as [? ? [e He]|? ? Hex']; subst.
      * unfold toAta in Hoy. rewrite He in Hoy. discriminate.
      * exact (IH Hex').
  - exists e. reflexivity.
Qed.

(** Unlike the escrow account, the token accounts of the owner must all
    decode: when the data of one of them does not, the thunk throws after
    its first request and never asks for the account infos. *)
Theorem sync_fails_on_undecodable_token_account args addr pubKey owned :
  sa_acct args ≫= solanaAddress = Some addr ->
  addr <> EmptyString ->
  newPublicKey sdk addr = Ok pubKey ->
  getTokenAccountsByOwner (connection (sa_anchorProvider args)) pubKey = Ok owned ->
  Exists (fun o => exists e, AccountLayout_decode sdk (oa_data o) = Throw e) owned ->
  exists e,
    syncTokenAccounts sdk args = ([GetTokenAccountsByOwner pubKey], Throw e).
Proof.
  intros Haddr Hne Hpk Hown Hex.
  destruct (traverse_toAta_fails owned Hex) as [e He].
  exists e. unfold syncTokenAccounts. rewrite Haddr.
  destruct addr as [|ch s]; [congruence|].
  rewrite Hpk.
  unfold mbind, Eff_bind, call, callAll, throw, mret, Eff_ret.
  unfold pure at 1. cbn [fst snd app]. rewrite Hown.
  rewrite He. reflexivity.
Qed.

(** A run that returns, in full: the answers it had and the snapshot. *)
Lemma sync_returned_snapshot args tokens :
  outcome (syncTokenAccounts sdk args) = Ok tokens ->
  exists addr pubKey owned escrowAccount dcEscrowAcc solAcc,
    sa_acct args ≫= solanaAddress = Some addr /\
    addr <> EmptyString /\
    newPublicKey sdk addr = Ok pubKey /\
    getTokenAccountsByOwner (connection (sa_anchorProvider args)) pubKey = Ok owned /\
    getEscrowTokenAccount sdk addr = Ok escrowAccount /\
    getAccountInfo (connection (sa_anchorProvider args)) escrowAccount = Ok dcEscrowAcc /\
    getAccountInfo (connection (sa_anchorProvider args)) pubKey = Ok solAcc /\
    syncTokenAccounts sdk args =
    ([GetTokenAccountsByOwner pubKey; GetAccountInfo escrowAccount;
      GetAccountInfo pubKey], Ok tokens) /\
    tokens =
    {| atas := atas tokens;
       dcEscrow := {| h_tokenAccount := toBase58 sdk escrowAccount;
                      h_balance := escrowBalance sdk dcEscrowAcc |};
       sol := {| h_tokenAccount := addr; h_balance := solBalance solAcc |} |}.
Proof.
  intros Hrun.
  destruct (SyncFacts.sync_returned sdk args tokens Hrun)
    as (addr & pubKey & owned & esc & a1 & a2 &
        Haddr & Hne & Hpk & Hown & Hatas & Hesc & Hi1 & Hi2).
  pose proof (SyncFacts.sync_returns sdk args addr pubKey owned (atas tokens)
                esc a1 a2 Haddr Hne Hpk Hown Hatas Hesc Hi1 Hi2) as Heq.
  assert (Htok : tokens =
    {| atas := atas tokens;
       dcEscrow := {| h_tokenAccount := toBase58 sdk esc;
                      h_balance := escrowBalance sdk a1 |};
       sol := {| h_tokenAccount := addr; h_balance := solBalance a2 |} |}).
  { rewrite Heq in Hrun. cbn in Hrun. injection Hrun as Hrun. congruence. }
  exists addr, pubKey, owned, esc, a1, a2.
  repeat (split; [assumption|]). split; [|exact Htok].
  rewrite Heq. f_equal. f_equal. symmetry. exact Htok.
Qed.

(** The [dcEscrow] balance of a returned snapshot is the decoded amount of
    the escrow account when that is below 2^53, and 0 when it is 2^53 or
    more: the conversion through [BN] then throws inside the [try] block.
    The holding is named after the escrow account. *)
Theorem sync_escrow_balance_exact_or_zero args tokens :
  outcome (syncTokenAccounts sdk args) = Ok tokens ->
  exists addr escrowAccount dcEscrowAcc,
    sa_acct args ≫= solanaAddress = Some addr /\
    getEscrowTokenAccount sdk addr = Ok escrowAccount /\
    getAccountInfo (connection (sa_anchorProvider args)) escrowAccount
    = Ok dcEscrowAcc /\
    h_tokenAccount (dcEscrow tokens) = toBase58 sdk escrowAccount /\
    forall acc accountData n,
      dcEscrowAcc = Some acc ->
      AccountLayout_decode sdk (ai_data acc) = Ok accountData ->
      ra_amount accountData = Some n ->
      0 <= n ->
      h_balance (dcEscrow tokens) = if n <? 2 ^ 53 then n else 0.
Proof.
  intros Hrun.
  destruct (sync_returned_snapshot args tokens Hrun)
    as (addr & pubKey & owned & esc & a1 & a2 &
        Haddr & _ & _ & _ & Hesc & Hi1 & _ & _ & Htok).
  exists addr, esc, a1. repeat (split; [assumption|]).
  rewrite Htok. cbn [dcEscrow h_tokenAccount h_balance].
  split; [reflexivity|].
  intros acc d n -> Hdec Hamount Hn.
  unfold escrowBalance, escrowBalanceOf. rewrite Hdec. cbn. rewrite Hamount.
  destruct (Z.eqb_spec n 0) as [-> | Hn0]; [reflexivity|].
  unfold BN_toNumber. destruct (n <? 2 ^ 53); reflexivity.
Qed.

(** The requests of a run, whatever the collaborators answer: none, or
    the token accounts of the owner alone, or that request followed by the
    account infos of the escrow account and of the owner, both issued. *)
Theorem sync_requests args :
  trace (syncTokenAccounts sdk args) = [] \/
  exists addr pubKey,
    sa_acct args ≫= solanaAddress = Some addr /\
    newPublicKey sdk addr = Ok pubKey /\
    (trace (syncTokenAccounts sdk args) = [GetTokenAccountsByOwner pubKey] \/
     exists escrowAccount,
       getEscrowTokenAccount sdk addr = Ok escrowAccount /\
       trace (syncTokenAccounts sdk args)
       = [GetTokenAccountsByOwner pubKey; GetAccountInfo escrowAccount;
          GetAccountInfo pubKey]).
Proof.
  unfold syncTokenAccounts.
  destruct (sa_acct args ≫= solanaAddress) as [[|ch s]|] eqn:Haddr;
    try (left; reflexivity).
  destruct (newPublicKey sdk (String ch s)) as [pubKey|e] eqn:Hpk;
    [|left; reflexivity].
  right. exists (String ch s), pubKey. split; [reflexivity|]. split; [exact Hpk|].
  rewrite trace_bind, trace_pure, outcome_pure. cbn [app].
  rewrite trace_bind, trace_call, outcome_call.
  destruct (getTokenAccountsByOwner _ pubKey) as [owned|e]; [|left; reflexivity].
  rewrite trace_bind, traverse_pure_trace. cbn [app].
  destruct (outcome (traverse _ owned)) as [atas_|e]; [|left; reflexivity].
  rewrite trace_bind, trace_pure, outcome_pure. cbn [app].
  destruct (getEscrowTokenAccount sdk (String ch s)) as [esc|e] eqn:Hesc;
    [|left; reflexivity].
  right. exists esc. split; [reflexivity|].
  rewrite trace_bind, trace_callAll, outcome_callAll.
  destruct (getAccountInfo _ esc) as [a1|e]; [|reflexivity].
  destruct (getAccountInfo _ pubKey) as [a2|e]; reflexivity.
Qed.

(** A balance the thunk records for a 64-bit amount is never off by more
    than 1024 base units. *)
Theorem toAta_balance_error (owned : OwnedAccount) (ata : TokenAccount)
    (accountData : RawAccount) (n : Z) :
  toAta sdk owned = Ok ata ->
  AccountLayout_decode sdk (oa_data owned) = Ok accountData ->
  ra_amount accountData = Some n ->
  0 <= n < 2 ^ 64 ->
  Z.abs (balance ata - n) <= 1024.
Proof.
  intros Hata Hdec Hamount Hn. unfold toAta in Hata. rewrite Hdec in Hata.
  cbn in Hata. injection Hata as <-. cbn. rewrite Hamount.
  apply Number_or_zero_u64_error. exact Hn.
Qed.

(** From the thunk to the store: the snapshot a run returns, carried by
    the fulfilled action with the run's arguments, is filed under the
    cluster of the arguments and the address its own [sol] holding names,
    and the loading flag is cleared.  The address is not ['__proto__'],
    which is no base58 string and so no public key. *)
Theorem sync_result_is_filed_under_its_address
    {AccountBalance Price : Type}
    (st : @BalancesState AccountBalance Price) args tokens (c : Cluster) :
  outcome (syncTokenAccounts sdk args) = Ok tokens ->
  sa_cluster args = Some c ->
  sa_acct args ≫= solanaAddress <> Some "__proto__" ->
  is_Some (balances st !! c) ->
  exists st',
    reducer st (SyncTokenAccountsFulfilled (Some (metaOf args)) tokens) = Ok st' /\
    tokensOf st' c (h_tokenAccount (sol tokens)) = Some tokens /\
    sa_acct args ≫= solanaAddress = Some (h_tokenAccount (sol tokens)) /\
    balancesLoading st' = Some false.
Proof.
  intros Hrun Hc Hproto [w Hw].
  destruct (sync_returned_snapshot args tokens Hrun)
    as (addr & pubKey & owned & esc & a1 & a2 &
        Haddr & Hne & _ & _ & _ & _ & _ & _ & Htok).
  assert (Hsol : h_tokenAccount (sol tokens) = addr) by (rewrite Htok; reflexivity).
  rewrite Hsol.
  destruct (sa_acct args) as [acct|] eqn:Hacct; [|discriminate].
  simpl in Haddr, Hproto.
  unfold reducer, syncTokenAccounts_fulfilled, metaSolanaAddress, metaOf; simpl.
  rewrite Hacct, Haddr, Hc; simpl.
  destruct addr as [|ch s]; [congruence|]. simpl. rewrite Hw.
  rewrite BalancesFacts.isProtoKey_false by congruence.
  eexists; split; [reflexivity|]. unfold tokensOf; simpl.
  rewrite lookup_insert_eq; simpl. rewrite lookup_insert_eq.
  repeat split; reflexivity.
Qed.

End Laws.
End SyncLaws.

(** ** The hook, further *)

Module SubmitLaws.
Import SubmitTxn SubmitShape.
Section Laws.

Context {PublicKey Buffer Transaction Balance Collectable Hotspot Number : Type}.

Local Abbreviation Ev := (@Event PublicKey Buffer Transaction).
Local Abbreviation Utils :=
  (@SolUtils PublicKey Buffer Transaction Balance Collectable Hotspot Number).
Local Abbreviation Sheet := (@WalletSignBottomSheetRef Buffer).

Context (u : Utils) (h : @Hook PublicKey Buffer).

Lemma serializeAll_outcome (txns : list Transaction) (bufs : list Buffer) :
  outcome (serializeAll u txns) = Ok bufs ->
  Forall2 (fun txn buf => serialize u txn = Ok buf) txns bufs.
Proof.
  unfold serializeAll. revert bufs.
  induction txns as [|txn txns IH]; intros bufs Hout.
  - injection Hout as <-. constructor.
  - rewrite traverse_cons, outcome_bind, outcome_call in Hout.
    destruct (serialize u txn) as [buf|e] eqn:Hser; [|discriminate].
    rewrite outcome_bind in Hout.
    destruct (outcome (traverse _ txns)) as [bufs'|e] eqn:Hrest; [|discriminate].
    injection Hout as <-. constructor; [exact Hser | apply IH; reflexivity].
Qed.

Lemma ending_stopped {A : Type} (sheet : Sheet) (m : Eff Ev A) (e : Exn) :
  quiet m -> outcome m = Throw e -> ending u h sheet m.
Proof.
  intros Hq Hout. exists (trace m). split; [exact Hq|].
  left. split; [reflexivity | eauto].
Qed.

Lemma ending_bind {A B : Type} (sheet : Sheet)
    (m : Eff Ev A) (k : A -> Eff Ev B) :
  quiet m ->
  (forall x, outcome m = Ok x -> ending u h sheet (k x)) ->
  ending u h sheet (m ≫= k).
Proof.
  intros Hm Hk. unfold ending. rewrite trace_bind, outcome_bind.
  destruct (outcome m) as [x|e] eqn:Hout.
  - destruct (Hk x eq_refl) as (pre & Hpre & Hcases).
    exists (trace m ++ pre). split; [apply Forall_app; split; assumption|].
    destruct Hcases as [[Htr Hthrow] | [(req & e & Htr & Hrest) |
                        (req & ds & y & Htr & Hrest)]].
    + left. rewrite Htr. split; [reflexivity | exact Hthrow].
    + right; left. exists req, e. rewrite Htr, app_assoc. split; [reflexivity|].
      exact Hrest.
    + right; right. exists req, ds, y. rewrite Htr, app_assoc.
      split; [reflexivity | exact Hrest].
  - exists (trace m). split; [exact Hm|]. left.
    rewrite app_nil_r. split; [reflexivity | eauto].
Qed.

(** The confirmation step followed by the dispatches [ds]. *)
Lemma ending_confirm (sheet : Sheet) (req : SignRequest)
    (k : Eff Ev unit) (ds : list SolanaAction) :
  k = (map Dispatch ds, Ok tt) ->
  (length ds <= 1)%nat ->
  Forall (sentFor u h req) ds ->
  ending u h sheet (confirm sheet req ;; k).
Proof.
  intros -> Hlen Hsent. exists []. split; [constructor|].
  unfold confirm, mbind, Eff_bind, call, throw, mret, Eff_ret, trace, outcome.
  cbn [fst snd app].
  destruct (show sheet req) as [[|]|e] eqn:Hshow; cbn [negb fst snd app].
  - right; right. exists req, ds, tt.
    split; [reflexivity|]. split; [reflexivity|]. split; [exact Hshow|].
    split; assumption.
  - right; left. exists req, (JsError "User rejected transaction").
    split; [reflexivity|]. split; [reflexivity|]. left.
    split; [exact Hshow | reflexivity].
  - right; left. exists req, e.
    split; [reflexivity|]. split; [reflexivity|]. right. exact Hshow.
Qed.

Ltac quiet_tac :=
  first
    [ apply SubmitTxnFacts.quiet_ret | apply SubmitTxnFacts.quiet_throw
    | apply SubmitTxnFacts.quiet_pure
    | apply SubmitTxnFacts.quiet_recipientExists
    | apply SubmitTxnFacts.quiet_serializeAll
    | apply SubmitTxnFacts.quiet_call; reflexivity
    | match goal with
      | |- quiet (match ?l with [] => _ | _ :: _ => _ end) => destruct l; quiet_tac
      | |- quiet (if ?b then _ else _) => destruct b; quiet_tac
      end ].

Ltac unfold_all :=
  unfold submitPayment, submitCollectable, submitTreasurySwap, submitAnchorTxn,
    submitClaimRewards, submitClaimAllRewards, submitLedger,
    submitMintDataCredits, submitDelegateDataCredits, submitUpdateEntityInfo,
    accountError.

Ltac case_hook :=
  repeat match goal with
    | |- context [match currentAccount ?h with _ => _ end] =>
        destruct (currentAccount h) as [?account|] eqn:?Haccount
    | |- context [match anchorProvider ?h with _ => _ end] =>
        destruct (anchorProvider h) as [?provider|] eqn:?Hprovider
    | |- context [match walletSignBottomSheetRef ?h with _ => _ end] =>
        destruct (walletSignBottomSheetRef h) as [?sheet|] eqn:?Hsheet
    | |- context [match solanaAddress ?a with _ => _ end] =>
        destruct (solanaAddress a) as [[|? ?]|] eqn:?Haddr
    end.

Ltac sent_tac :=
  repeat constructor; cbn;
  try match goal with
    | H : outcome (serializeAll _ _) = Ok _ |- Forall2 _ _ _ =>
        exact (serializeAll_outcome _ _ H)
    end;
  try (intros ? [= <-]); try assumption; try reflexivity; try congruence.

Ltac ending_tac :=
  first
    [ eapply ending_stopped; [quiet_tac | reflexivity]
    | match goal with
      | |- ending _ _ _ (confirm _ _ ;; dispatch ?a) =>
          apply (ending_confirm _ _ _ [a]); [reflexivity | cbn; lia | sent_tac]
      end
    | apply ending_bind; [quiet_tac | intros ? ?Hout] ].

(** How every run ends. *)
Lemma run_ending (sheet : Sheet) (op : Op) :
  walletSignBottomSheetRef h = Some sheet ->
  ending u h sheet (run u h op).
Proof.
  intros Hsheet.
  destruct op; cbn [run]; unfold_all; rewrite ?Hsheet; case_hook;
    repeat ending_tac.
  destruct (String.eqb_spec type "iot") as [Hiot|Hiot];
    destruct (String.eqb_spec type "mobile") as [Hmobile|Hmobile].
  - exfalso. rewrite Hiot in Hmobile. discriminate.
  - apply (ending_confirm _ _ _
             [sendUpdateIotInfo account provider (cluster h) x]);
      [reflexivity | cbn; lia | sent_tac].
  - apply (ending_confirm _ _ _
             [sendUpdateMobileInfo account provider (cluster h) x]);
      [reflexivity | cbn; lia | sent_tac].
  - apply (ending_confirm _ _ _ []); [reflexivity | cbn; lia | constructor].
Qed.

Lemma quiet_no_sign (pre : list Ev) (req : SignRequest) :
  Forall (fun e => isSign e = false /\ isDispatch e = false) pre ->
  Sign req ∈ pre -> False.
Proof.
  intros Hq Hin. rewrite Forall_forall in Hq.
  destruct (Hq _ Hin) as [Hs _]. discriminate.
Qed.

Lemma quiet_no_dispatch (pre : list Ev) (a : SolanaAction) :
  Forall (fun e => isSign e = false /\ isDispatch e = false) pre ->
  Dispatch a ∈ pre -> False.
Proof.
  intros Hq Hin. rewrite Forall_forall in Hq.
  destruct (Hq _ Hin) as [_ Hd]. discriminate.
Qed.

Lemma dispatches_no_sign (ds : list SolanaAction) (req : SignRequest) :
  (Sign req : Ev) ∈ map Dispatch ds -> False.
Proof.
  intros Hin. apply list_elem_of_fmap in Hin as (a & Ha & _). discriminate.
Qed.

Lemma dispatches_member (ds : list SolanaAction) (a : SolanaAction) :
  (Dispatch a : Ev) ∈ map Dispatch ds -> a ∈ ds.
Proof.
  intros Hin. apply list_elem_of_fmap in Hin as (a' & Ha & Hin).
  injection Ha as ->. exact Hin.
Qed.

(** The one signing request of a trace that has one. *)
Lemma sign_unique (pre : list Ev) (req0 req : SignRequest)
    (ds : list SolanaAction) :
  Forall (fun e => isSign e = false /\ isDispatch e = false) pre ->
  (Sign req : Ev) ∈ pre ++ Sign req0 :: map Dispatch ds -> req = req0.
Proof.
  intros Hq Hin. apply elem_of_app in Hin as [Hin | Hin].
  - destruct (quiet_no_sign pre req Hq Hin).
  - apply elem_of_cons in Hin as [Heq | Hin]; [congruence|].
    destruct (dispatches_no_sign ds req Hin).
Qed.

(** The trace of an operation: calls to the node, the builders and
    [serialize] first; then at most one signing request; then at most one
    dispatch, which comes right after a request that was approved.  So the
    user is asked at most once, after everything has been built, and
    nothing is built or fetched after the request. *)
Theorem run_trace_shape (sheet : Sheet) (op : Op) :
  walletSignBottomSheetRef h = Some sheet ->
  exists pre post,
    trace (run u h op) = pre ++ post /\
    Forall (fun e => isSign e = false /\ isDispatch e = false) pre /\
    (post = [] \/
     (exists req, post = [Sign req]) \/
     (exists req a, post = [Sign req; Dispatch a] /\ show sheet req = Ok true)).
Proof.
  intros Hsheet.
  destruct (run_ending sheet op Hsheet) as (pre & Hpre & Hcases).
  exists pre.
  destruct Hcases as [[Htr _] | [(req & e & Htr & _) |
                      (req & ds & y & Htr & _ & Hshow & Hlen & _)]].
  - exists []. rewrite app_nil_r. repeat split; auto.
  - exists [Sign req]. repeat split; eauto.
  - destruct ds as [|a [|a' ds]]; simpl in Hlen; [| |lia].
    + exists [Sign req]. repeat split; eauto.
    + exists [Sign req; Dispatch a]. repeat split; eauto 6.
Qed.

(** What is dispatched is what was shown: the transactions of a
    dispatched action are those whose serializations the signing request
    of the same run carried, in the same order. *)
Theorem dispatched_is_what_was_signed
    (sheet : Sheet) (op : Op) (req : SignRequest) (a : SolanaAction) :
  walletSignBottomSheetRef h = Some sheet ->
  Sign req ∈ trace (run u h op) ->
  Dispatch a ∈ trace (run u h op) ->
  Forall2 (fun txn buf => serialize u txn = Ok buf)
    (actionTxns a) (sr_serializedTxs req).
Proof.
  intros Hsheet Hsign Hdisp.
  destruct (run_ending sheet op Hsheet) as (pre & Hpre & Hcases).
  destruct Hcases as [[Htr _] | [(req0 & e & Htr & _) |
                      (req0 & ds & y & Htr & _ & _ & _ & Hsent)]];
    rewrite Htr in Hsign, Hdisp.
  - destruct (quiet_no_dispatch pre a Hpre Hdisp).
  - exfalso. apply elem_of_app in Hdisp as [Hdisp | Hdisp].
    + exact (quiet_no_dispatch pre a Hpre Hdisp).
    + apply list_elem_of_singleton in Hdisp. discriminate.
  - assert (req = req0) as -> by (eapply sign_unique; eassumption).
    apply elem_of_app in Hdisp as [Hdisp | Hdisp].
    + destruct (quiet_no_dispatch pre a Hpre Hdisp).
    + apply elem_of_cons in Hdisp as [Heq | Hdisp]; [discriminate|].
      apply dispatches_member in Hdisp.
      rewrite Forall_forall in Hsent. destruct (Hsent a Hdisp) as [H2 _].
      exact H2.
Qed.

(** A dispatched action carries the cluster and the provider of the hook
    and, when it carries an account, the current account. *)
Theorem dispatched_for_current_session (op : Op) (a : SolanaAction) :
  Dispatch a ∈ trace (run u h op) ->
  actionCluster a = cluster h /\
  anchorProvider h = Some (actionProvider a) /\
  (forall acct, actionAccount a = Some acct -> currentAccount h = Some acct).
Proof.
  intros Hdisp.
  destruct (walletSignBottomSheetRef h) as [sheet|] eqn:Hsheet.
  - destruct (run_ending sheet op Hsheet) as (pre & Hpre & Hcases).
    destruct Hcases as [[Htr _] | [(req0 & e & Htr & _) |
                        (req0 & ds & y & Htr & _ & _ & _ & Hsent)]];
      rewrite Htr in Hdisp.
    + destruct (quiet_no_dispatch pre a Hpre Hdisp).
    + exfalso. apply elem_of_app in Hdisp as [Hdisp | Hdisp].
      * exact (quiet_no_dispatch pre a Hpre Hdisp).
      * apply list_elem_of_singleton in Hdisp. discriminate.
    + apply elem_of_app in Hdisp as [Hdisp | Hdisp].
      * destruct (quiet_no_dispatch pre a Hpre Hdisp).
      * apply elem_of_cons in Hdisp as [Heq | Hdisp]; [discriminate|].
        apply dispatches_member in Hdisp.
        rewrite Forall_forall in Hsent. destruct (Hsent a Hdisp) as [_ H2].
        exact H2.
  - destruct (quiet_no_dispatch _ a
                (SubmitTxnFacts.run_without_sheet u h op Hsheet) Hdisp).
Qed.

(** An operation returns normally only if the user was asked and
    approved: a run that returns has shown a signing request, and the
    sheet answered it with an approval. *)
Theorem returns_only_if_approved (sheet : Sheet) (op : Op) :
  walletSignBottomSheetRef h = Some sheet ->
  outcome (run u h op) = Ok tt ->
  exists req, Sign req ∈ trace (run u h op) /\ show sheet req = Ok true.
Proof.
  intros Hsheet.
  destruct (run_ending sheet op Hsheet) as (pre & Hpre & Hcases).
  destruct Hcases as [[Htr [e Hout]] | [(req0 & e & Htr & Hout & Hshow) |
                      (req0 & ds & [] & Htr & Hout & Hshow & _)]];
    rewrite Htr, Hout; try discriminate.
  intros _. exists req0. split; [|exact Hshow].
  apply elem_of_app. right. apply list_elem_of_here.
Qed.

(** When the signing sheet itself fails, the operation fails with the
    sheet's error and dispatches nothing. *)
Theorem sheet_failure_propagates
    (sheet : Sheet) (op : Op) (req : SignRequest) (e : Exn) :
  walletSignBottomSheetRef h = Some sheet ->
  Sign req ∈ trace (run u h op) ->
  show sheet req = Throw e ->
  outcome (run u h op) = Throw e /\
  Forall (fun ev => isDispatch ev = false) (trace (run u h op)).
Proof.
  intros Hsheet Hsign Hshow.
  destruct (run_ending sheet op Hsheet) as (pre & Hpre & Hcases).
  destruct Hcases as [[Htr _] | [(req0 & e0 & Htr & Hout & Hcase) |
                      (req0 & ds & y & Htr & _ & Happ & _)]];
    rewrite Htr in Hsign |- *.
  - destruct (quiet_no_sign pre req Hpre Hsign).
  - assert (req = req0) as ->.
    { apply (sign_unique pre req0 req [] Hpre). exact Hsign. }
    destruct Hcase as [[Hfalse _] | Hthrow]; [congruence|].
    rewrite Hout. split; [congruence|].
    apply Forall_app. split.
    + eapply Forall_impl; [exact Hpre|]. intros ev [_ Hd]. exact Hd.
    + repeat constructor.
  - assert (req = req0) as -> by (eapply sign_unique; eassumption).
    congruence.
Qed.

Ltac case_calls :=
  repeat match goal with
    | H : context [match ?r with Ok _ => _ | Throw _ => _ end] |- _ =>
        destruct r eqn:?; cbn in H
    | H : context [if ?b then _ else _] |- _ => destruct b eqn:?; cbn in H
    | H : context [match ?o with Some _ => _ | None => _ end] |- _ =>
        destruct o eqn:?; cbn in H
    end.

Ltac members H :=
  repeat (apply elem_of_cons in H as [H | H]);
  try (apply elem_of_nil in H; contradiction);
  try discriminate H.

(** [submitPayment] with no payment at all: past the precondition test it
    throws a [TypeError] on reading the first payment; nothing is built and
    the user is not asked. *)
Theorem submitPayment_empty (account : CSAccount)
    (provider : @Sync.AnchorProvider PublicKey Buffer) (sheet : Sheet) :
  currentAccount h = Some account ->
  truthy (solanaAddress account) = true ->
  anchorProvider h = Some provider ->
  walletSignBottomSheetRef h = Some sheet ->
  run u h (SubmitPayment []) = ([], Throw TypeError).
Proof.
  intros Hacct Haddr Hprov Hsheet. cbn [run]. unfold submitPayment.
  rewrite Hacct, Hprov, Hsheet.
  destruct (solanaAddress account) as [[|ch s]|]; try discriminate.
  reflexivity.
Qed.

(** [submitUpdateEntityInfo] dispatches by hotspot type: the IoT update
    for type 'iot', the mobile update for type 'mobile', each for the
    current account; for any other type it dispatches nothing, whatever the
    user answers. *)
Theorem updateEntityInfo_dispatches_by_type
    (type entityKey : string) (lat lng : Number)
    (elevation decimalGain : option string) :
  (forall a,
      Dispatch a ∈ trace (run u h (SubmitUpdateEntityInfo type entityKey lat lng
                                     elevation decimalGain)) ->
      exists account provider txn,
        currentAccount h = Some account /\
        ((type = "iot" /\
          a = sendUpdateIotInfo account provider (cluster h) txn) \/
         (type = "mobile" /\
          a = sendUpdateMobileInfo account provider (cluster h) txn))) /\
  (type <> "iot" -> type <> "mobile" ->
   Forall (fun e => isDispatch e = false)
     (trace (run u h (SubmitUpdateEntityInfo type entityKey lat lng
                        elevation decimalGain)))).
Proof.
  assert (Hmain : forall a,
      Dispatch a ∈ trace (run u h (SubmitUpdateEntityInfo type entityKey lat lng
                                     elevation decimalGain)) ->
      exists account provider txn,
        currentAccount h = Some account /\
        ((type = "iot" /\
          a = sendUpdateIotInfo account provider (cluster h) txn) \/
         (type = "mobile" /\
          a = sendUpdateMobileInfo account provider (cluster h) txn))).
  { intros a Hin. cbn [run] in Hin. unfold submitUpdateEntityInfo in Hin.
    destruct (anchorProvider h) as [provider|]; [|members Hin].
    destruct (currentAccount h) as [account|]; [|members Hin].
    destruct (walletSignBottomSheetRef h) as [sheet|]; [|members Hin].
    unfold confirm, dispatch, accountError, mbind, Eff_bind, call, throw, mret,
      Eff_ret, trace in Hin. cbn [fst snd app] in Hin.
    destruct (updateEntityInfoTxn u provider type entityKey lat lng _ _)
      as [txn|]; cbn [fst snd app] in Hin; [|members Hin].
    destruct (serialize u txn) as [buf|]; cbn [fst snd app] in Hin;
      [|members Hin].
    destruct (show sheet _) as [[|]|]; cbn [negb fst snd app] in Hin;
      [|members Hin|members Hin].
    exists account, provider, txn. split; [reflexivity|].
    destruct (String.eqb_spec type "iot") as [Hiot|Hiot];
      destruct (String.eqb_spec type "mobile") as [Hmob|Hmob];
      cbn [fst snd app] in Hin; members Hin;
      injection Hin as ->; auto. }
  split; [exact Hmain|].
  intros Hiot Hmob. apply Forall_forall. intros e He.
  destruct e as [| | | |a]; try reflexivity. exfalso.
  destruct (Hmain a He) as (? & ? & ? & _ & [[? _] | [? _]]); contradiction.
Qed.

(** The user is asked by [submitTreasurySwap] and [submitMintDataCredits]
    only after the lookup of the recipient has answered, and the signing
    request carries the warning for a recipient the node does not know, an
    empty one when the recipient exists. *)
Lemma recipient_warning (op : Op) (recipient : PublicKey)
    (provider : @Sync.AnchorProvider PublicKey Buffer) (req : SignRequest) :
  recipientOf op = Some recipient ->
  anchorProvider h = Some provider ->
  Sign req ∈ trace (run u h op) ->
  exists info,
    Sync.getAccountInfo (Sync.connection provider) recipient = Ok info /\
    sr_warning req =
    Some (match info with
          | Some _ => EmptyString
          | None => t u "transactions.recipientNonExistent"
          end).
Proof.
  intros Hrec Hprov Hin.
  destruct op; cbn [recipientOf] in Hrec; try discriminate;
    injection Hrec as ->; cbn [run] in Hin;
    unfold submitTreasurySwap, submitMintDataCredits in Hin;
    rewrite Hprov in Hin;
    (destruct (currentAccount h) as [account|]; [|members Hin]);
    (destruct (walletSignBottomSheetRef h) as [sheet|]; [|members Hin]);
    unfold recipientExists, confirm, dispatch, accountError, mbind, Eff_bind,
      call, throw, mret, Eff_ret, trace in Hin; cbn [fst snd app] in Hin;
    (destruct (Sync.getAccountInfo (Sync.connection provider) recipient)
       as [info|]; cbn [fst snd app] in Hin; [|members Hin]);
    exists info; (split; [reflexivity|]);
    case_calls; members Hin; injection Hin as ->;
    destruct info; reflexivity.
Qed.

(** [submitTreasurySwap] and [submitMintDataCredits] put no obstacle to a
    recipient the node does not know.  Once the lookup has answered,
    whether with an account or with none, the transaction is built and
    serialized and the user is asked, with the warning when there is no
    account and an empty one otherwise; on approval the action is
    dispatched and the operation returns. *)
Theorem unknown_recipient_goes_on
    (account : CSAccount) (provider : @Sync.AnchorProvider PublicKey Buffer)
    (sheet : Sheet) (recipient : PublicKey)
    (info : option (@Sync.AccountInfo Buffer)) :
  currentAccount h = Some account ->
  anchorProvider h = Some provider ->
  walletSignBottomSheetRef h = Some sheet ->
  Sync.getAccountInfo (Sync.connection provider) recipient = Ok info ->
  (forall fromMint amount txn buf,
      createTreasurySwapTxn u amount fromMint provider recipient = Ok txn ->
      serialize u txn = Ok buf ->
      show sheet
        (request u
           (Some (match info with
                  | Some _ => EmptyString
                  | None => t u "transactions.recipientNonExistent"
                  end))
           "transactions.signSwapTxn" [buf]) = Ok true ->
      run u h (SubmitTreasurySwap fromMint amount recipient) =
      ([Network recipient; Construct CreateTreasurySwapTxn; Serialize txn;
        Sign (request u
                (Some (match info with
                       | Some _ => EmptyString
                       | None => t u "transactions.recipientNonExistent"
                       end))
                "transactions.signSwapTxn" [buf]);
        Dispatch (sendTreasurySwap provider (cluster h) txn)],
       Ok tt)) /\
  (forall dcAmount txn buf,
      mintDataCredits u provider dcAmount recipient = Ok txn ->
      serialize u txn = Ok buf ->
      show sheet
        (request u
           (Some (match info with
                  | Some _ => EmptyString
                  | None => t u "transactions.recipientNonExistent"
                  end))
           "transactions.signMintDataCreditsTxn" [buf]) = Ok true ->
      run u h (SubmitMintDataCredits dcAmount recipient) =
      ([Network recipient; Construct MintDataCredits; Serialize txn;
        Sign (request u
                (Some (match info with
                       | Some _ => EmptyString
                       | None => t u "transactions.recipientNonExistent"
                       end))
                "transactions.signMintDataCreditsTxn" [buf]);
        Dispatch (sendMintDataCredits provider (cluster h) txn)],
       Ok tt)).
Proof.
  intros Hacc Hprov Hsheet Hinfo.
  split; intros; cbn [run]; unfold submitTreasurySwap, submitMintDataCredits;
    rewrite Hacc, Hprov, Hsheet;
    unfold recipientExists, recipientWarning, confirm, dispatch, mbind,
      Eff_bind, call, throw, mret, Eff_ret;
    cbn [fst snd app]; rewrite Hinfo; cbn [fst snd app];
    destruct info;
    repeat match goal with
           | H : _ = Ok _ |- _ => rewrite H; cbn [fst snd app negb]
           end;
    reflexivity.
Qed.

Lemma Forall_trace_bind {A B : Type} (P : Ev -> Prop)
    (m : Eff Ev A) (k : A -> Eff Ev B) :
  Forall P (trace m) -> (forall x, Forall P (trace (k x))) ->
  Forall P (trace (m ≫= k)).
Proof.
  intros Hm Hk. rewrite trace_bind. apply Forall_app. split; [exact Hm|].
  destruct (outcome m); [apply Hk | constructor].
Qed.

Lemma Forall_trace_serializeAll (P : Ev -> Prop) (txns : list Transaction) :
  (forall txn, P (Serialize txn)) -> Forall P (trace (serializeAll u txns)).
Proof.
  intros HP. unfold serializeAll. induction txns as [|txn txns IH]; [constructor|].
  rewrite traverse_cons. apply Forall_trace_bind.
  - constructor; [apply HP | constructor].
  - intros y. apply Forall_trace_bind; [exact IH|]. intros ys. constructor.
Qed.

Ltac forall_trace :=
  repeat first
    [ apply Forall_trace_serializeAll; intros; exact I
    | apply Forall_trace_bind; [|intros ?]
    | match goal with
      | |- Forall _ (trace (match ?l with [] => _ | _ :: _ => _ end)) => destruct l
      | |- Forall _ (trace (if ?b then _ else _)) => destruct b
      end
    | (constructor; [first [exact I | reflexivity] | constructor])
    | constructor ].

(** The hook itself asks the node for one thing only: whether the
    recipient of a treasury swap or of a data-credit mint exists.  No
    other operation makes a request of its own. *)
Theorem network_only_for_recipient (op : Op) (key : PublicKey) :
  Network key ∈ trace (run u h op) -> recipientOf op = Some key.
Proof.
  intros Hin.
  assert (Hall : Forall (fun e => match e with
                                  | Network k => recipientOf op = Some k
                                  | _ => True
                                  end) (trace (run u h op))).
  { destruct op; cbn [run recipientOf]; unfold_all; case_hook;
      unfold confirm, dispatch, recipientExists; forall_trace. }
  rewrite Forall_forall in Hall. exact (Hall _ Hin).
Qed.

End Laws.
End SubmitLaws.

(** ** The account action bar *)

Module ActionBarLaws.
Import ActionBar.
Section Laws.

Context {LedgerDevice : Type}.
Context (props : Props) (env : @Env LedgerDevice).

(** While a PIN is on and required for payments, no button of the bar
    opens the payment screen: 'send' goes to the PIN confirmation for a
    payment, and no other action leads there. *)
Theorem pin_gates_payment_screen :
  pinRequired env = true ->
  handleAction props env send = [ConfirmPin "payment"] /\
  forall (type : Action) (r : Route),
    r ∈ handleAction props env type -> isPaymentScreen r = false.
Proof.
  intros Hpin. split.
  - unfold handleAction. rewrite Hpin. reflexivity.
  - intros type r Hin. unfold handleAction in Hin. rewrite Hpin in Hin.
    destruct type; cbn in Hin;
      repeat (apply elem_of_cons in Hin as [-> | Hin]);
      try reflexivity; apply elem_of_nil in Hin; contradiction.
Qed.

(** The bar of an account on a ledger device is empty ([null]).
    Otherwise its buttons are, in this order, those of request, swaps,
    airdrop, send and delegate whose flag is set (request and send unless
    switched off); each of them navigates exactly once when pressed, and in
    the compact layouts none has a title. *)
Theorem bar_buttons :
  (is_Some (ledgerDevice env) -> render props env = None) /\
  (forall fabs,
      render props env = Some fabs ->
      ledgerDevice env = None /\
      map f_onPress fabs =
        (if default true (hasRequest props) then [request] else [])
        ++ (if on (hasSwaps props) then [swaps] else [])
        ++ (if on (hasAirdrop props) then [airdrop] else [])
        ++ (if default true (hasSend props) then [send] else [])
        ++ (if on (hasDelegate props) then [delegate] else []) /\
      Forall (fun f => length (handleAction props env (f_onPress f)) = 1%nat)
        fabs /\
      (on (compact props) || on (maxCompact props) = true ->
       Forall (fun f => f_title f = None) fabs)).
Proof.
  split.
  - intros [d Hd]. unfold render. rewrite Hd. reflexivity.
  - intros fabs Hrender. unfold render in Hrender.
    destruct (ledgerDevice env) as [d|]; [discriminate|].
    injection Hrender as <-. split; [reflexivity|].
    unfold shown.
    destruct (default true (hasRequest props)), (on (hasSwaps props)),
      (on (hasAirdrop props)), (default true (hasSend props)),
      (on (hasDelegate props)); cbn [app map f_onPress requestFab swapsFab
        airdropFab sendFab delegateFab];
      (split; [reflexivity|]); (split;
        [ repeat constructor; unfold handleAction; cbn;
          try (destruct (pinRequired env)); reflexivity
        | intros Hc; repeat constructor; cbn; unfold title; rewrite Hc;
          reflexivity ]).
Qed.

End Laws.
End ActionBarLaws.

(** ** The payment card *)

Module PaymentCardLaws.
Import PaymentCard.
Section Laws.

Context {Opts SendDetails LedgerDevice : Type}.
Context (env : @Env SendDetails LedgerDevice).

Local Abbreviation St := (@State Opts).
Local Abbreviation Eff1 := (@Effect Opts SendDetails LedgerDevice).
Local Abbreviation Evt := (@Event Opts).

Implicit Types (st : St) (evs : list Evt).

Lemma steps_cons st (ev : Evt) evs :
  steps env st (ev :: evs) =
  ((steps env (step env st ev).1 evs).1,
   (step env st ev).2 ++ (steps env (step env st ev).1 evs).2).
Proof.
  simpl. destruct (step env st ev) as [st1 out1]. simpl.
  destruct (steps env st1 evs) as [st2 out2]. reflexivity.
Qed.

Lemma step_height st (ev : Evt) :
  positive (height st) = true -> height (step env st ev).1 = height st.
Proof.
  intros Hpos. destruct ev; simpl.
  - destruct (payEnabled st); reflexivity.
  - destruct (payEnabled st || _); [reflexivity|].
    unfold handlePayPressed.
    destruct (currentAccount env) as [[a [d|] i]|]; try reflexivity;
      destruct hasSecureAccount; reflexivity.
  - destruct (payEnabled st); reflexivity.
  - unfold handleLayout. rewrite Hpos. reflexivity.
  - reflexivity.
  - reflexivity.
Qed.

(** Once the height is positive, no event changes it. *)
Lemma height_is_set_once st evs :
  positive (height st) = true ->
  height (steps env st evs).1 = height st.
Proof.
  revert st. induction evs as [|ev evs IH]; intros st Hpos; [reflexivity|].
  rewrite steps_cons. simpl.
  pose proof (step_height st ev Hpos) as Hstep.
  rewrite IH by (rewrite Hstep; exact Hpos). exact Hstep.
Qed.

Lemma steps_app st evs evs' :
  steps env st (evs ++ evs') =
  ((steps env (steps env st evs).1 evs').1,
   (steps env st evs).2 ++ (steps env (steps env st evs).1 evs').2).
Proof.
  revert st. induction evs as [|ev evs IH]; intros st.
  - simpl. destruct (steps env st evs'). reflexivity.
  - rewrite <- app_comm_cons, !steps_cons, IH. simpl.
    rewrite app_assoc. reflexivity.
Qed.

Lemma step_not_laid_out st (ev : Evt) :
  positive (height st) = false -> laysOut ev = false ->
  positive (height (step env st ev).1) = false.
Proof.
  intros Hpos Hev. destruct ev as [|answer| |hgt|opts|msg]; simpl.
  - destruct (payEnabled st); exact Hpos.
  - destruct (payEnabled st || _); [exact Hpos|].
    unfold handlePayPressed.
    destruct (currentAccount env) as [[a [d|] i]|]; try exact Hpos;
      destruct answer; exact Hpos.
  - destruct (payEnabled st); exact Hpos.
  - unfold handleLayout. rewrite Hpos. exact Hev.
  - exact Hpos.
  - exact Hpos.
Qed.

(** The card takes its height from the first layout that reports a
    positive one: a card without a positive height that has seen no such
    layout before has, after it, the height it reports, whatever happens
    later. *)
Theorem height_is_first_positive_layout st (before after : list Evt) (h : Q) :
  positive (height st) = false ->
  Forall (fun ev => laysOut ev = false) before ->
  positive h = true ->
  height (steps env st (before ++ Layout h :: after)).1 = h.
Proof.
  intros Hpos Hbefore Hh. rewrite steps_app. cbn [fst].
  assert (Hstill : positive (height (steps env st before).1) = false).
  { clear Hh. revert st Hpos.
    induction Hbefore as [|ev evs Hev _ IH]; intros st Hpos; [exact Hpos|].
    rewrite steps_cons. cbn [fst]. apply IH.
    apply step_not_laid_out; assumption. }
  rewrite steps_cons. cbn [fst].
  assert (Hset : height (step env (steps env st before).1 (Layout h)).1 = h).
  { simpl. unfold handleLayout. rewrite Hstill. reflexivity. }
  rewrite height_is_set_once by (rewrite Hset; exact Hh). exact Hset.
Qed.

Lemma step_enabled st (ev : Evt) :
  payEnabled st = true ->
  payEnabled (step env st ev).1 = true /\
  Forall (fun e => afterEnabled e = true) (step env st ev).2.
Proof.
  intros Hen. destruct ev; simpl; rewrite ?Hen; simpl;
    repeat split; try assumption; repeat constructor.
  unfold handleLayout. destruct (positive (height st)); exact Hen.
Qed.

Lemma moments_cons st (pending : nat) (m : Moment) (ms : list Moment) :
  moments env st pending (m :: ms) =
  let r := moment env st pending m in
  let r' := moments env r.1.1 r.1.2 ms in
  (r'.1.1, r'.1.2, r.2 ++ r'.2).
Proof.
  simpl. destruct (moment env st pending m) as [[st1 p1] out1]. simpl.
  destruct (moments env st1 p1 ms) as [[st2 p2] out2]. reflexivity.
Qed.

Lemma moment_enabled st (pending : nat) (m : Moment) :
  payEnabled st = true ->
  let r := moment env st pending m in
  payEnabled r.1.1 = true /\
  Forall (fun e => afterEnabled e = true \/ isTransition e = true) r.2 /\
  (length (List.filter isTransition r.2) + r.1.2 <= pending)%nat.
Proof.
  intros Hen. destruct m as [|answer|ev]; simpl.
  - rewrite Hen. simpl. split; [exact Hen|]. split; [constructor | lia].
  - destruct pending as [|rest]; simpl.
    + split; [exact Hen|]. split; [constructor | lia].
    + unfold checkAnswered. destruct answer; simpl.
      * split; [reflexivity|]. split; [|lia].
        constructor; [right; reflexivity | constructor].
      * split; [exact Hen|]. split; [constructor | lia].
  - destruct (step_enabled st ev Hen) as [Hen1 Hout].
    split; [exact Hen1|]. split.
    + eapply Forall_impl; [exact Hout|]. intros e He. left. exact He.
    + assert (Hnone : List.filter isTransition (step env st ev).2 = []).
      { induction Hout as [|e out He _ IH]; [reflexivity|].
        simpl. destruct e; try discriminate He; exact IH. }
      rewrite Hnone. simpl. lia.
Qed.

(** Paying, once enabled, stays enabled, with the checks in time: from
    then on the card cancels nothing, starts no check of the account and
    shows no ledger payment.  It can still call [onSubmit] and the alert
    of a ledger error, and each check that was awaited when paying was
    enabled may still answer and call [animateTransition], once. *)
Theorem pay_enabled_is_final_in_time st (pending : nat) (ms : list Moment) :
  payEnabled st = true ->
  payEnabled (moments env st pending ms).1.1 = true /\
  Forall (fun e => afterEnabled e = true \/ isTransition e = true)
    (moments env st pending ms).2 /\
  (length (List.filter isTransition (moments env st pending ms).2)
   + (moments env st pending ms).1.2 <= pending)%nat.
Proof.
  revert st pending. induction ms as [|m ms IH]; intros st pending Hen.
  - simpl. split; [exact Hen|]. split; [constructor | lia].
  - rewrite moments_cons. cbn zeta. cbn [fst snd].
    destruct (moment_enabled st pending m Hen) as (Hen1 & Hout1 & Hcount1).
    destruct (IH _ (moment env st pending m).1.2 Hen1) as (Hen2 & Hout2 & Hcount2).
    split; [exact Hen2|]. split.
    + apply Forall_app. split; assumption.
    + rewrite List.filter_app, length_app. lia.
Qed.

(** A press of the pay button and the answer of its check, with no other
    check awaited, do together what [step] does for the press. *)
Lemma press_then_answer st (answer : bool) :
  moments env st 0 [PayPressed; CheckAnswered answer]
  = ((step env st (PressPay answer)).1, 0%nat, (step env st (PressPay answer)).2).
Proof.
  simpl. destruct (payEnabled st || default false (disabled env)); simpl;
    [reflexivity|].
  unfold payPressed, handlePayPressed, checkAnswered.
  destruct (currentAccount env) as [[a [d|] i]|]; simpl;
    try destruct answer; reflexivity.
Qed.

Ltac no_member H :=
  repeat (apply elem_of_cons in H as [H | H]);
  try discriminate H;
  try (apply elem_of_nil in H; contradiction).

Lemma step_out_submit st (ev : Evt) (o : option Opts) :
  OnSubmit o ∈ (step env st ev).2 ->
  payEnabled st = true /\ o = options st.
Proof.
  intros Hin. destruct ev as [|answer| |hgt|opts|msg]; simpl in Hin.
  - destruct (payEnabled st); simpl in Hin; no_member Hin.
  - destruct (payEnabled st || default false (disabled env));
      simpl in Hin; [no_member Hin|].
    unfold handlePayPressed in Hin.
    destruct (currentAccount env) as [[a [d|] i]|]; simpl in Hin;
      try destruct answer; simpl in Hin; no_member Hin.
  - destruct (payEnabled st) eqn:Hen; simpl in Hin; [|no_member Hin].
    apply list_elem_of_singleton in Hin. injection Hin as ->.
    split; reflexivity.
  - no_member Hin.
  - no_member Hin.
  - unfold handleLedgerError in Hin. no_member Hin.
Qed.

Lemma step_enables st (ev : Evt) :
  payEnabled (step env st ev).1 = true ->
  payEnabled st = true \/
  (exists opts, ev = LedgerConfirm opts) \/
  (ev = PressPay true /\ checkPassed env).
Proof.
  unfold checkPassed.
  destruct (payEnabled st) eqn:Hen; [left; reflexivity|].
  destruct ev as [|answer| |hgt|opts|msg]; simpl; rewrite ?Hen; simpl.
  - intros H. congruence.
  - destruct (default false (disabled env)) eqn:Hdis; simpl;
      [intros H; congruence|].
    unfold handlePayPressed.
    destruct (currentAccount env) as [[a [d|] i]|]; simpl;
      try destruct answer; simpl; intros H; try congruence;
      right; right; auto.
  - intros H. congruence.
  - unfold handleLayout. destruct (positive (height st)); simpl;
      intros H; congruence.
  - intros _. right; left. eauto.
  - intros H. congruence.
Qed.

Lemma step_options st (ev : Evt) :
  options (step env st ev).1 = options st \/
  exists opts, ev = LedgerConfirm opts /\ options (step env st ev).1 = Some opts.
Proof.
  destruct ev as [|answer| |hgt|opts|msg]; simpl.
  - destruct (payEnabled st); auto.
  - destruct (payEnabled st || default false (disabled env)); [auto|].
    unfold handlePayPressed.
    destruct (currentAccount env) as [[a [d|] i]|]; simpl;
      try destruct answer; simpl; auto.
  - destruct (payEnabled st); auto.
  - unfold handleLayout. destruct (positive (height st)); auto.
  - eauto.
  - auto.
Qed.

Lemma steps_submit st evs o :
  OnSubmit o ∈ (steps env st evs).2 ->
  (payEnabled st = true \/
   (exists opts, LedgerConfirm opts ∈ evs) \/
   (PressPay true ∈ evs /\ checkPassed env)) /\
  (o = options st \/ exists opts, o = Some opts /\ LedgerConfirm opts ∈ evs).
Proof.
  revert st. induction evs as [|ev evs IH]; intros st Hin.
  - apply elem_of_nil in Hin. contradiction.
  - rewrite steps_cons in Hin. simpl in Hin.
    pose proof (step_out_submit st ev) as Hout.
    pose proof (step_enables st ev) as Hen.
    pose proof (step_options st ev) as Hopt.
    apply elem_of_app in Hin as [Hin | Hin].
    + destruct (Hout o Hin) as [H1 H2]. split; [left; exact H1 | left; exact H2].
    + destruct (IH _ Hin) as [Hwhy Hwhat]. split.
      * destruct Hwhy as [Hen1 | [(opts & Hc) | [Hp Hchk]]].
        -- destruct (Hen Hen1) as [H | [(opts & ->) | [-> Hchk]]].
           ++ left. exact H.
           ++ right; left. exists opts. apply list_elem_of_here.
           ++ right; right. split; [apply list_elem_of_here | exact Hchk].
        -- right; left. exists opts. apply list_elem_of_further. exact Hc.
        -- right; right. split; [apply list_elem_of_further; exact Hp | exact Hchk].
      * destruct Hwhat as [Ho | (opts & -> & Hc)].
        -- destruct Hopt as [Hsame | (opts & -> & Hnew)].
           ++ left. congruence.
           ++ right. exists opts. split; [congruence | apply list_elem_of_here].
        -- right. exists opts. split; [reflexivity|].
           apply list_elem_of_further. exact Hc.
Qed.

(** From the initial state [onSubmit] is called only after paying was
    enabled, by a confirmation of the ledger payment or by a press of the
    enabled pay button of an account without a ledger device whose secure
    account check passed.  It is called with the options of a ledger
    confirmation, or with none. *)
Theorem submit_needs_check_or_confirmation evs (o : option Opts) :
  OnSubmit o ∈ (steps env initial evs).2 ->
  ((exists opts, LedgerConfirm opts ∈ evs) \/
   (PressPay true ∈ evs /\ checkPassed env)) /\
  (o = None \/ exists opts, o = Some opts /\ LedgerConfirm opts ∈ evs).
Proof.
  intros Hin. destruct (steps_submit initial evs o Hin) as [Hwhy Hwhat].
  split; [|exact Hwhat].
  destruct Hwhy as [Hen | H]; [discriminate | exact H].
Qed.

(** A disabled card starts no payment: whatever is pressed, it neither
    checks the secure account nor shows the ledger payment. *)
Theorem disabled_card_starts_nothing st evs :
  default false (disabled env) = true ->
  Forall (fun e => startsPayment e = false) (steps env st evs).2.
Proof.
  intros Hdis. revert st. induction evs as [|ev evs IH]; intros st.
  - constructor.
  - rewrite steps_cons. simpl. apply Forall_app. split; [|apply IH].
    destruct ev; simpl; rewrite ?Hdis, ?orb_true_r;
      try destruct (payEnabled st); repeat constructor.
Qed.

End Laws.
End PaymentCardLaws.

(** ** The further properties on the sample data *)

Module SampleLaws.
Import Balances SliceKinds Sync SubmitTxn SubmitShape Sample MoreSamples.

Lemma updateAtaBalance_writes_first_match_sample :
  exists (i : nat) (t : TokenAccount) (tokens' : Tokens),
    atas wallet !! i = Some t /\
    tokenAccount t = "ata1" /\ mint t = "mintA" /\
    (forall j t', (j < i)%nat -> atas wallet !! j = Some t' ->
                  ~ (tokenAccount t' = "ata1" /\ mint t' = "mintA")) /\
    tokensOf (updateAtaBalance loaded sameMint) Devnet "wallet1" = Some tokens' /\
    atas tokens' !! i =
      Some {| tokenAccount := tokenAccount t; mint := mint t; balance := 9 |} /\
    (forall j, j <> i -> atas tokens' !! j = atas wallet !! j) /\
    length (atas tokens') = length (atas wallet) /\
    sol tokens' = sol wallet /\ dcEscrow tokens' = dcEscrow wallet.
Proof.
  apply (SliceLaws.updateAtaBalance_writes_first_match loaded sameMint wallet).
  - vm_compute. reflexivity.
  - constructor. split; reflexivity.
Defined.

Lemma updateAtaBalance_last_write_wins_sample :
  updateAtaBalance (updateAtaBalance loaded sameMint) sameMintAgain
  = updateAtaBalance loaded sameMintAgain.
Proof.
  apply (SliceLaws.updateAtaBalance_last_write_wins loaded sameMint sameMintAgain);
    reflexivity.
Defined.

Lemma updateBalance_writes_holding_sample :
  exists tokens',
    tokensOf (updateBalance loaded knownWallet) Devnet "wallet1" = Some tokens' /\
    atas tokens' = atas wallet /\
    sol tokens' = {| h_tokenAccount := "wallet1"; h_balance := 7 |} /\
    dcEscrow tokens' = dcEscrow wallet.
Proof.
  apply (SliceLaws.updateBalance_writes_holding loaded knownWallet wallet).
  vm_compute. reflexivity.
Defined.

Lemma balance_updates_touch_one_wallet_sample :
  reducer loaded (UpdateBalance knownWallet)
  = Ok (next_state loaded (UpdateBalance knownWallet)) /\
  (forall c' x', (c', x') <> (Devnet, "wallet1") ->
     tokensOf (next_state loaded (UpdateBalance knownWallet)) c' x'
     = tokensOf loaded c' x') /\
  (forall c' x',
      is_Some (tokensOf (next_state loaded (UpdateBalance knownWallet)) c' x') <->
      is_Some (tokensOf loaded c' x')) /\
  balancesLoading (next_state loaded (UpdateBalance knownWallet))
  = balancesLoading loaded /\
  tokenPrices (next_state loaded (UpdateBalance knownWallet))
  = tokenPrices loaded /\
  balanceHistory (next_state loaded (UpdateBalance knownWallet))
  = balanceHistory loaded.
Proof.
  apply (SliceLaws.balance_updates_touch_one_wallet loaded
           (UpdateBalance knownWallet) Devnet "wallet1").
  reflexivity.
Defined.


Lemma readBalanceHistory_records_sample :
  exists st',
    reducer loaded (ReadBalanceHistoryFulfilled history [1; 2]) = Ok st' /\
    historyOf st' Devnet "wallet1" "usd" = Some [1; 2] /\
    (forall c x cur,
        (c, x, cur) <> (Devnet, "wallet1", "usd") ->
        historyOf st' c x cur = historyOf loaded c x cur) /\
    balances st' = balances loaded /\
    tokenPrices st' = tokenPrices loaded /\
    balancesLoading st' = balancesLoading loaded.
Proof.
  apply (SliceLaws.readBalanceHistory_records loaded history [1; 2]).
  - discriminate.
  - reflexivity.
  - exists ∅. vm_compute. reflexivity.
Defined.

(** The history of an address that is a name every object inherits: with
    no entry of its own the read finds the inherited value, no entry is
    created and the state is as before; so for ['constructor'], and for
    ['__proto__'] also the write throws when the currency is ['__proto__']
    too.  On an entry the state holds, the currency ['__proto__'] makes
    the write on the draft throw. *)
Example readBalanceHistory_inherited_names :
  reducer loaded
    (ReadBalanceHistoryFulfilled
       {| hm_currency := "usd"; hm_cluster := Devnet;
          hm_solanaAddress := "constructor" |} [1; 2])
  = Ok loaded /\
  reducer loaded
    (ReadBalanceHistoryFulfilled
       {| hm_currency := "__proto__"; hm_cluster := Devnet;
          hm_solanaAddress := "__proto__" |} [1; 2])
  = Throw TypeError /\
  reducer (next_state loaded (ReadBalanceHistoryFulfilled history [1; 2]))
    (ReadBalanceHistoryFulfilled
       {| hm_currency := "__proto__"; hm_cluster := Devnet;
          hm_solanaAddress := "wallet1" |} [3])
  = Throw immerSetPrototypeOf.
Proof. repeat split. Qed.


Lemma readTokenPrices_commute_sample :
  next_state (next_state loaded (ReadTokenPricesFulfilled "eur" eurPrices))
    (ReadTokenPricesFulfilled "usd" eurPrices)
  = next_state (next_state loaded (ReadTokenPricesFulfilled "usd" eurPrices))
      (ReadTokenPricesFulfilled "eur" eurPrices).
Proof.
  apply (SliceLaws.readTokenPrices_commute loaded "eur" "usd" eurPrices eurPrices).
  discriminate.
Defined.

Lemma sync_fails_on_undecodable_token_account_sample :
  exists e,
    syncTokenAccounts sdk brokenArgs
    = ([GetTokenAccountsByOwner "wallet1"], Throw e).
Proof.
  apply (SyncLaws.sync_fails_on_undecodable_token_account sdk brokenArgs
           "wallet1" "wallet1"
           [ {| oa_pubkey := "ata1"; oa_data := "165 bytes" |};
             {| oa_pubkey := "ata2"; oa_data := "garbage" |} ]).
  - reflexivity.
  - discriminate.
  - reflexivity.
  - reflexivity.
  - apply Exists_cons_tl. apply Exists_cons_hd. eexists. reflexivity.
Defined.

Lemma sync_escrow_balance_exact_or_zero_sample :
  exists addr escrowAccount dcEscrowAcc,
    sa_acct syncArgs ≫= solanaAddress = Some addr /\
    getEscrowTokenAccount bigEscrowSdk addr = Ok escrowAccount /\
    getAccountInfo (connection (sa_anchorProvider syncArgs)) escrowAccount
    = Ok dcEscrowAcc /\
    h_tokenAccount (dcEscrow wallet) = toBase58 bigEscrowSdk escrowAccount /\
    forall acc accountData n,
      dcEscrowAcc = Some acc ->
      AccountLayout_decode bigEscrowSdk (ai_data acc) = Ok accountData ->
      ra_amount accountData = Some n ->
      0 <= n ->
      h_balance (dcEscrow wallet) = if n <? 2 ^ 53 then n else 0.
Proof.
  apply (SyncLaws.sync_escrow_balance_exact_or_zero bigEscrowSdk syncArgs wallet).
  vm_compute. reflexivity.
Defined.

Lemma toAta_balance_error_sample :
  Z.abs (balance {| tokenAccount := "ata9"; mint := "dc"; balance := 2 ^ 53 |}
         - (2 ^ 53 + 1)) <= 1024.
Proof.
  apply (SyncLaws.toAta_balance_error bigEscrowSdk bigOwned
           {| tokenAccount := "ata9"; mint := "dc"; balance := 2 ^ 53 |}
           {| ra_mint := "dc"; ra_amount := Some (2 ^ 53 + 1) |} (2 ^ 53 + 1)).
  - vm_compute. reflexivity.
  - reflexivity.
  - reflexivity.
  - lia.
Defined.

Lemma sync_result_is_filed_under_its_address_sample :
  exists st',
    reducer initial (SyncTokenAccountsFulfilled (Some (metaOf syncArgs)) wallet)
    = Ok st' /\
    tokensOf st' Devnet (h_tokenAccount (sol wallet)) = Some wallet /\
    sa_acct syncArgs ≫= solanaAddress = Some (h_tokenAccount (sol wallet)) /\
    balancesLoading st' = Some false.
Proof.
  apply (SyncLaws.sync_result_is_filed_under_its_address sdk initial syncArgs
           wallet Devnet).
  - vm_compute. reflexivity.
  - reflexivity.
  - discriminate.
  - exists ∅. vm_compute. reflexivity.
Defined.

Lemma run_trace_shape_sample :
  exists pre post,
    trace (run utils approvingHook (SubmitPayment [payment])) = pre ++ post /\
    Forall (fun e => isSign e = false /\ isDispatch e = false) pre /\
    (post = [] \/
     (exists req, post = [Sign req]) \/
     (exists req a, post = [Sign req; Dispatch a] /\ show approving req = Ok true)).
Proof.
  apply (SubmitLaws.run_trace_shape utils approvingHook approving
           (SubmitPayment [payment])).
  reflexivity.
Defined.

Lemma dispatched_is_what_was_signed_sample :
  Forall2 (fun txn buf => serialize utils txn = Ok buf)
    (actionTxns (makePayment "payment" account Devnet provider))
    (sr_serializedTxs
       (request utils None "transactions.signPaymentTxn" ["payment"])).
Proof.
  apply (SubmitLaws.dispatched_is_what_was_signed utils approvingHook approving
           (SubmitPayment [payment])).
  - reflexivity.
  - vm_compute. do 2 apply list_elem_of_further. apply list_elem_of_here.
  - vm_compute. do 3 apply list_elem_of_further. apply list_elem_of_here.
Defined.

Lemma dispatched_for_current_session_sample :
  actionCluster (makePayment "payment" account Devnet provider)
  = cluster approvingHook /\
  anchorProvider approvingHook
  = Some (actionProvider (makePayment "payment" account Devnet provider)) /\
  (forall acct,
      actionAccount (makePayment "payment" account Devnet provider) = Some acct ->
      currentAccount approvingHook = Some acct).
Proof.
  apply (SubmitLaws.dispatched_for_current_session utils approvingHook
           (SubmitPayment [payment])).
  vm_compute. do 3 apply list_elem_of_further. apply list_elem_of_here.
Defined.

Lemma returns_only_if_approved_sample :
  exists req,
    Sign req ∈ trace (run utils approvingHook (SubmitPayment [payment])) /\
    show approving req = Ok true.
Proof.
  apply (SubmitLaws.returns_only_if_approved utils approvingHook approving
           (SubmitPayment [payment])).
  - reflexivity.
  - reflexivity.
Defined.

Lemma sheet_failure_propagates_sample :
  outcome (run utils failingHook (SubmitPayment [payment]))
  = Throw (JsError "sheet closed") /\
  Forall (fun ev => isDispatch ev = false)
    (trace (run utils failingHook (SubmitPayment [payment]))).
Proof.
  apply (SubmitLaws.sheet_failure_propagates utils failingHook failing
           (SubmitPayment [payment])
           (request utils None "transactions.signPaymentTxn" ["payment"])).
  - reflexivity.
  - vm_compute. do 2 apply list_elem_of_further. apply list_elem_of_here.
  - reflexivity.
Defined.

Lemma submitPayment_empty_sample :
  run utils hook (SubmitPayment []) = ([], Throw TypeError).
Proof.
  apply (SubmitLaws.submitPayment_empty utils hook account provider declining);
    reflexivity.
Defined.

(** A swap and a mint to a recipient the node does not know. *)
Lemma unknown_recipient_goes_on_sample :
  getAccountInfo emptyNode "wallet2" = Ok None /\
  run utils newRecipientHook (SubmitTreasurySwap "mintA" 5 "wallet2") =
  ([Network "wallet2"; Construct CreateTreasurySwapTxn; Serialize "swap";
    Sign (request utils (Some "transactions.recipientNonExistent")
            "transactions.signSwapTxn" ["swap"]);
    Dispatch (sendTreasurySwap {| connection := emptyNode |} Devnet "swap")],
   Ok tt) /\
  run utils newRecipientHook (SubmitMintDataCredits 7 "wallet2") =
  ([Network "wallet2"; Construct MintDataCredits; Serialize "mint";
    Sign (request utils (Some "transactions.recipientNonExistent")
            "transactions.signMintDataCreditsTxn" ["mint"]);
    Dispatch (sendMintDataCredits {| connection := emptyNode |} Devnet "mint")],
   Ok tt).
Proof.
  destruct (SubmitLaws.unknown_recipient_goes_on utils newRecipientHook
              account {| connection := emptyNode |} approving "wallet2" None
              eq_refl eq_refl eq_refl eq_refl) as [Hswap Hmint].
  split; [reflexivity|]. split.
  - apply (Hswap "mintA" 5 "swap" "swap"); reflexivity.
  - apply (Hmint 7 "mint" "mint"); reflexivity.
Defined.

Lemma network_only_for_recipient_sample :
  recipientOf swap = Some "wallet2".
Proof.
  apply (SubmitLaws.network_only_for_recipient utils approvingHook swap "wallet2").
  vm_compute. apply list_elem_of_here.
Defined.

Lemma pin_gates_payment_screen_sample :
  ActionBar.handleAction barProps pinEnv ActionBar.send
  = [ActionBar.ConfirmPin "payment"] /\
  forall (type : ActionBar.Action) (r : ActionBar.Route),
    r ∈ ActionBar.handleAction barProps pinEnv type ->
    ActionBar.isPaymentScreen r = false.
Proof.
  apply (ActionBarLaws.pin_gates_payment_screen barProps pinEnv).
  reflexivity.
Defined.

(** From the initial state: a layout without a height, then one of 232,
    then one of 300. *)
Lemma height_is_first_positive_layout_sample :
  PaymentCard.height
    (PaymentCard.steps (Opts := string) cardEnv PaymentCard.initial
       ([PaymentCard.PressPay true; PaymentCard.Layout 0%Q]
        ++ PaymentCard.Layout 232%Q
        :: [PaymentCard.Layout 300%Q; PaymentCard.PressSubmit])).1
  = 232%Q.
Proof.
  apply (PaymentCardLaws.height_is_first_positive_layout cardEnv
           PaymentCard.initial
           [PaymentCard.PressPay true; PaymentCard.Layout 0%Q]
           [PaymentCard.Layout 300%Q; PaymentCard.PressSubmit] 232%Q).
  - reflexivity.
  - repeat constructor.
  - reflexivity.
Defined.

(** Two presses of the pay button before the first check answers: the
    second check answers when paying is already enabled. *)
Example second_press_answers_late :
  PaymentCard.moments (Opts := string) cardEnv PaymentCard.initial 0
    [PaymentCard.PayPressed; PaymentCard.PayPressed;
     PaymentCard.CheckAnswered true]
  = ({| PaymentCard.payEnabled := true; PaymentCard.height := 0%Q;
        PaymentCard.options := None |},
     1%nat,
     [PaymentCard.CheckSecureAccount (Some "helium1") true;
      PaymentCard.CheckSecureAccount (Some "helium1") true;
      PaymentCard.AnimateTransition "PaymentCard.payEnabled"]) /\
  (PaymentCard.moments (Opts := string) cardEnv enabled 1
     [PaymentCard.CheckAnswered true]).2
  = [PaymentCard.AnimateTransition "PaymentCard.payEnabled"].
Proof. split; reflexivity. Qed.

Lemma pay_enabled_is_final_in_time_sample :
  PaymentCard.payEnabled
    (PaymentCard.moments cardEnv enabled 1
       [PaymentCard.Happens PaymentCard.PressCancel; PaymentCard.PayPressed;
        PaymentCard.CheckAnswered true; PaymentCard.CheckAnswered true;
        PaymentCard.Happens PaymentCard.PressSubmit]).1.1 = true /\
  Forall (fun e => PaymentCard.afterEnabled e = true \/
                   PaymentCard.isTransition e = true)
    (PaymentCard.moments cardEnv enabled 1
       [PaymentCard.Happens PaymentCard.PressCancel; PaymentCard.PayPressed;
        PaymentCard.CheckAnswered true; PaymentCard.CheckAnswered true;
        PaymentCard.Happens PaymentCard.PressSubmit]).2 /\
  (length
     (List.filter PaymentCard.isTransition
        (PaymentCard.moments cardEnv enabled 1
           [PaymentCard.Happens PaymentCard.PressCancel; PaymentCard.PayPressed;
            PaymentCard.CheckAnswered true; PaymentCard.CheckAnswered true;
            PaymentCard.Happens PaymentCard.PressSubmit]).2)
   + (PaymentCard.moments cardEnv enabled 1
        [PaymentCard.Happens PaymentCard.PressCancel; PaymentCard.PayPressed;
         PaymentCard.CheckAnswered true; PaymentCard.CheckAnswered true;
         PaymentCard.Happens PaymentCard.PressSubmit]).1.2 <= 1)%nat.
Proof.
  apply (PaymentCardLaws.pay_enabled_is_final_in_time cardEnv enabled 1).
  reflexivity.
Defined.

Lemma submit_needs_check_or_confirmation_sample :
  ((exists opts : string,
       PaymentCard.LedgerConfirm opts
       ∈ [PaymentCard.PressPay true; PaymentCard.PressSubmit]) \/
   (PaymentCard.PressPay true
    ∈ [PaymentCard.PressPay (Opts := string) true; PaymentCard.PressSubmit] /\
    PaymentCard.checkPassed cardEnv)) /\
  (@None string = None \/
   exists opts : string,
     None = Some opts /\
     PaymentCard.LedgerConfirm opts
     ∈ [PaymentCard.PressPay true; PaymentCard.PressSubmit]).
Proof.
  apply (PaymentCardLaws.submit_needs_check_or_confirmation cardEnv
           [PaymentCard.PressPay true; PaymentCard.PressSubmit] None).
  vm_compute. do 2 apply list_elem_of_further. apply list_elem_of_here.
Defined.

Lemma disabled_card_starts_nothing_sample :
  Forall (fun e => PaymentCard.startsPayment e = false)
    (PaymentCard.steps (Opts := string) disabledCardEnv PaymentCard.initial
       [PaymentCard.PressPay true; PaymentCard.PressSubmit]).2.
Proof.
  apply (PaymentCardLaws.disabled_card_starts_nothing disabledCardEnv).
  reflexivity.
Defined.

End SampleLaws.
